(** * jbdecoder: recursive Base64 decoding of JSON values

    A shallow embedding of [internal/decoder/decoder.go] together with
    executable models of the Go standard-library functions it calls
    ([base64.StdEncoding.DecodeString], [utf8.Valid], [strings.TrimSpace],
    [json.Unmarshal] into [any]), and of its two callers, the command of
    [cmd/cli/main.go] with [internal/errors/errors.go] and the function
    of [cmd/wasm/main.go], with [json.Marshal].

    Go strings and byte slices are byte sequences: they are modelled by
    [string], whose characters are the 256 values of [ascii]. *)

From Stdlib Require Import Floats.SpecFloat Ascii String NArith ZArith Lia
  DecimalString.
From stdpp Require Import gmap strings list fin_maps sorting.

Local Open Scope string_scope.
Set Warnings "-register-all".

(** ** Bytes *)

Definition byte_of (c : ascii) : N := N_of_ascii c.
Definition chr (n : N) : ascii := ascii_of_N n.

Definition in_range (lo hi : N) (c : ascii) : bool :=
  (lo <=? byte_of c)%N && (byte_of c <=? hi)%N.

Definition is_byte (n : N) (c : ascii) : bool := (byte_of c =? n)%N.

(** ** encoding/base64 *)

Module Base64.

(** [encodeStd]: the alphabet of [base64.StdEncoding]. *)
Definition encodeStd : string :=
  "ABCDEFGHIJKLMNOPQRSTUVWXYZabcdefghijklmnopqrstuvwxyz0123456789+/".

Definition padChar : ascii := "="%char.

(** [enc.encode[i]] *)
Fixpoint nth_char (s : string) (i : nat) : ascii :=
  match s, i with
  | String c _, O => c
  | String _ r, S i' => nth_char r i'
  | EmptyString, _ => "000"%char
  end.

Definition encode (i : N) : ascii := nth_char encodeStd (N.to_nat i).

(** [enc.decodeMap[c]]: the index of [c] in the alphabet, [None] standing
    for the table's 0xff entries. *)
Fixpoint index_from (i : N) (s : string) (c : ascii) : option N :=
  match s with
  | EmptyString => None
  | String a r => if Ascii.eqb a c then Some i else index_from (N.succ i) r c
  end.

Definition decodeMap (c : ascii) : option N := index_from 0 encodeStd c.

Definition is_newline (c : ascii) : bool := is_byte 10 c || is_byte 13 c.

Fixpoint skip_newlines (s : string) : string :=
  match s with
  | String c r => if is_newline c then skip_newlines r else s
  | EmptyString => EmptyString
  end.

(** The 24-bit value assembled by [decodeQuantum]:
    [uint(dbuf[0])<<18 | uint(dbuf[1])<<12 | uint(dbuf[2])<<6 | uint(dbuf[3])]. *)
Definition quantum_val (d0 d1 d2 d3 : N) : N :=
  N.lor (N.lor (N.lor (N.shiftl d0 18) (N.shiftl d1 12)) (N.shiftl d2 6)) d3.

(** [byte(val >> k)] *)
Definition byte_at (val k : N) : ascii := chr (N.land (N.shiftr val k) 255).

Definition bytes3 (d0 d1 d2 d3 : N) : string :=
  let val := quantum_val d0 d1 d2 d3 in
  String (byte_at val 16) (String (byte_at val 8) (String (byte_at val 0) "")).

Definition bytes2 (d0 d1 d2 : N) : string :=
  let val := quantum_val d0 d1 d2 0 in
  String (byte_at val 16) (String (byte_at val 8) "").

Definition bytes1 (d0 d1 : N) : string :=
  let val := quantum_val d0 d1 0 0 in
  String (byte_at val 16) "".

Definition prepend (p : string) (o : option string) : option string :=
  match o with
  | Some s => Some (p +:+ s)
  | None => None
  end.

(** [Encoding.Decode] for the padded, non-strict standard encoding: the loop
    over [decodeQuantum].  [dbuf] holds the sextets of the quantum read so
    far, most recent first (so its length is the loop counter [j]).  CR and
    LF are skipped wherever they occur; [None] is a [CorruptInputError]. *)
Fixpoint decode (dbuf : list N) (src : string) : option string :=
  match src with
  | EmptyString =>
      match dbuf with
      | [] => Some ""
      | _ => None
      end
  | String c rest =>
      match decodeMap c with
      | Some d =>
          match dbuf with
          | [d2; d1; d0] => prepend (bytes3 d0 d1 d2 d) (decode [] rest)
          | _ => decode (d :: dbuf) rest
          end
      | None =>
          if is_newline c then decode dbuf rest
          else if Ascii.eqb c padChar then
            match dbuf with
            | [d1; d0] =>
                match skip_newlines rest with
                | String c' rest' =>
                    if Ascii.eqb c' padChar then
                      match skip_newlines rest' with
                      | EmptyString => Some (bytes1 d0 d1)
                      | _ => None
                      end
                    else None
                | EmptyString => None
                end
            | [d2; d1; d0] =>
                match skip_newlines rest with
                | EmptyString => Some (bytes2 d0 d1 d2)
                | _ => None
                end
            | _ => None
            end
          else None
      end
  end.

(** [base64.StdEncoding.DecodeString]: [Some d] when [err == nil]. *)
Definition DecodeString (s : string) : option string := decode [] s.

(** [err == nil] *)
Definition succeeds (o : option string) : bool :=
  match o with
  | Some _ => true
  | None => false
  end.

(** [base64.StdEncoding.EncodeToString]. *)
Definition enc_val (b0 b1 b2 : ascii) : N :=
  N.lor (N.lor (N.shiftl (byte_of b0) 16) (N.shiftl (byte_of b1) 8)) (byte_of b2).

(** [val >> k & 0x3F] *)
Definition sextet (val k : N) : N := N.land (N.shiftr val k) 63.

Definition enc_at (val k : N) : ascii := encode (sextet val k).

Fixpoint EncodeToString (src : string) : string :=
  match src with
  | EmptyString => ""
  | String b0 EmptyString =>
      let val := enc_val b0 "000" "000" in
      String (enc_at val 18) (String (enc_at val 12) (String padChar (String padChar "")))
  | String b0 (String b1 EmptyString) =>
      let val := enc_val b0 b1 "000" in
      String (enc_at val 18) (String (enc_at val 12) (String (enc_at val 6) (String padChar "")))
  | String b0 (String b1 (String b2 rest)) =>
      let val := enc_val b0 b1 b2 in
      String (enc_at val 18) (String (enc_at val 12)
        (String (enc_at val 6) (String (enc_at val 0) (EncodeToString rest))))
  end.

End Base64.

(** ** unicode/utf8 *)

Module Utf8.

Definition is_cont (c : ascii) : bool := in_range 128 191 c.

(** The [first] table and [acceptRanges]: for a lead byte, the length of
    the sequence and the range accepted for its second byte. *)
Definition lead (c0 : ascii) : option (nat * (N * N)) :=
  let n := byte_of c0 in
  if (n <? 128)%N then Some (1%nat, (0, 0)%N)
  else if in_range 194 223 c0 then Some (2%nat, (128, 191)%N)
  else if is_byte 224 c0 then Some (3%nat, (160, 191)%N)
  else if in_range 225 236 c0 then Some (3%nat, (128, 191)%N)
  else if is_byte 237 c0 then Some (3%nat, (128, 159)%N)
  else if in_range 238 239 c0 then Some (3%nat, (128, 191)%N)
  else if is_byte 240 c0 then Some (4%nat, (144, 191)%N)
  else if in_range 241 243 c0 then Some (4%nat, (128, 191)%N)
  else if is_byte 244 c0 then Some (4%nat, (128, 143)%N)
  else None.

Definition low6 (c : ascii) : N := N.land (byte_of c) 63.

(** [utf8.DecodeRuneInString]: [Some (r, size)] for a well-formed sequence at
    the head of [s]; [None] where Go returns [(RuneError, 1)] (or
    [(RuneError, 0)] on the empty string). *)
Definition DecodeRune (s : string) : option (N * nat) :=
  match s with
  | EmptyString => None
  | String c0 r0 =>
      match lead c0 with
      | None => None
      | Some (1%nat, _) => Some (byte_of c0, 1%nat)
      | Some (size, (lo, hi)) =>
          match r0 with
          | String c1 r1 =>
              if in_range lo hi c1 then
                match size with
                | 2%nat =>
                    Some (N.lor (N.shiftl (N.land (byte_of c0) 31) 6) (low6 c1), 2%nat)
                | _ =>
                    match r1 with
                    | String c2 r2 =>
                        if is_cont c2 then
                          match size with
                          | 3%nat =>
                              Some (N.lor (N.lor (N.shiftl (N.land (byte_of c0) 15) 12)
                                                 (N.shiftl (low6 c1) 6)) (low6 c2), 3%nat)
                          | _ =>
                              match r2 with
                              | String c3 _ =>
                                  if is_cont c3 then
                                    Some (N.lor (N.lor (N.lor
                                            (N.shiftl (N.land (byte_of c0) 7) 18)
                                            (N.shiftl (low6 c1) 12))
                                            (N.shiftl (low6 c2) 6)) (low6 c3), 4%nat)
                                  else None
                              | EmptyString => None
                              end
                          end
                        else None
                    | EmptyString => None
                    end
                end
              else None
          | EmptyString => None
          end
      end
  end.

(** [utf8.Valid]: every position starts a well-formed sequence. *)
Fixpoint Valid (p : string) : bool :=
  match p with
  | EmptyString => true
  | String _ r0 =>
      match DecodeRune p with
      | Some (_, 1%nat) => Valid r0
      | Some (_, 2%nat) =>
          match r0 with
          | String _ r1 => Valid r1
          | _ => false
          end
      | Some (_, 3%nat) =>
          match r0 with
          | String _ (String _ r2) => Valid r2
          | _ => false
          end
      | Some (_, 4%nat) =>
          match r0 with
          | String _ (String _ (String _ r3)) => Valid r3
          | _ => false
          end
      | _ => false
      end
  end.

(** [utf8.AppendRune] / [utf8.EncodeRune] for a rune that is neither a
    surrogate nor above U+10FFFF (those are written as U+FFFD). *)
Definition EncodeRune (r : N) : string :=
  if (r <? 128)%N then String (chr r) ""
  else if (r <? 2048)%N then
    String (chr (N.lor 192 (N.shiftr r 6)))
      (String (chr (N.lor 128 (N.land r 63))) "")
  else if ((r <? 55296) || ((57343 <? r) && (r <? 65536)))%N then
    String (chr (N.lor 224 (N.shiftr r 12)))
      (String (chr (N.lor 128 (N.land (N.shiftr r 6) 63)))
        (String (chr (N.lor 128 (N.land r 63))) ""))
  else if ((65535 <? r) && (r <? 1114112))%N then
    String (chr (N.lor 240 (N.shiftr r 18)))
      (String (chr (N.lor 128 (N.land (N.shiftr r 12) 63)))
        (String (chr (N.lor 128 (N.land (N.shiftr r 6) 63)))
          (String (chr (N.lor 128 (N.land r 63))) "")))
  else String (chr 239) (String (chr 191) (String (chr 189) "")).

Definition RuneError : N := 65533.

End Utf8.

(** ** unicode, strings *)

Module Strings.

(** [unicode.IsSpace]: the Latin-1 cases and the [White_Space] table. *)
Definition IsSpace (r : N) : bool :=
  ((9 <=? r) && (r <=? 13) || (r =? 32) || (r =? 133) || (r =? 160)
   || (r =? 5760) || ((8192 <=? r) && (r <=? 8202))
   || (r =? 8232) || (r =? 8233) || (r =? 8239) || (r =? 8287)
   || (r =? 12288))%N.

(** [strings.TrimLeftFunc(s, unicode.IsSpace)]: drop runes from the front
    while they are white space; an ill-formed byte decodes to [RuneError],
    which is not white space. *)
Fixpoint trim_left (s : string) : string :=
  match s with
  | EmptyString => ""
  | String _ r0 =>
      match Utf8.DecodeRune s with
      | Some (r, 1%nat) => if IsSpace r then trim_left r0 else s
      | Some (r, 2%nat) =>
          match r0 with
          | String _ r1 => if IsSpace r then trim_left r1 else s
          | _ => s
          end
      | Some (r, 3%nat) =>
          match r0 with
          | String _ (String _ r2) => if IsSpace r then trim_left r2 else s
          | _ => s
          end
      | Some (r, 4%nat) =>
          match r0 with
          | String _ (String _ (String _ r3)) => if IsSpace r then trim_left r3 else s
          | _ => s
          end
      | _ => s
      end
  end.

Definition all_space (s : string) : bool :=
  match trim_left s with
  | EmptyString => true
  | _ => false
  end.

(** [strings.TrimRightFunc(s, unicode.IsSpace)]: drop runes from the back
    while they are white space.  Every white-space rune is encoded as a
    lead byte followed by continuation bytes, so the runes dropped from the
    back are exactly the longest suffix that reads, from its first byte on,
    as white space only. *)
Fixpoint trim_right (s : string) : string :=
  match s with
  | EmptyString => ""
  | String c r => if all_space s then "" else String c (trim_right r)
  end.

(** [strings.TrimSpace]. *)
Definition TrimSpace (s : string) : string := trim_right (trim_left s).

End Strings.

(** ** strconv.ParseFloat on a JSON number literal *)

Module Strconv.

Local Open Scope Z_scope.

Definition is_digit (c : ascii) : bool := in_range 48 57 c.

Definition digit_val (c : ascii) : Z := Z.of_N (byte_of c) - 48.

(** The digits of the literal read as a natural number. *)
Fixpoint digits_val (acc : Z) (s : string) : Z :=
  match s with
  | EmptyString => acc
  | String c r => digits_val (acc * 10 + digit_val c) r
  end.

(** The exponent digits, read as [readFloat] does: the accumulator stops
    growing once it has reached 10000. *)
Fixpoint exp_val (e : Z) (s : string) : Z :=
  match s with
  | EmptyString => e
  | String c r => exp_val (if e <? 10000 then e * 10 + digit_val c else e) r
  end.

(** A literal of the JSON grammar:
    [-? int (. frac)? ([eE] [+-]? exp)?], each part a string of digits. *)
Record numlit : Type := NumLit {
  neg : bool;
  int_digits : string;
  frac_digits : string;
  exp_neg : bool;
  exp_digits : string
}.

(** [p / q], a positive rational, rounded to the nearest binary64 value,
    ties to even; [None] when the rounded value is not finite
    ([strconv.ErrRange]).  The result is [m * 2^e] with [m < 2^53] and
    [-1074 <= e <= 971]. *)
Definition round_ratio (sign : bool) (p q : Z) : option spec_float :=
  let k0 := Z.log2 p - Z.log2 q in
  let above := if 0 <=? k0 then q * 2 ^ k0 <=? p else q <=? p * 2 ^ (- k0) in
  let k := if above then k0 else k0 - 1 in
  let e := Z.max (k - 52) (-1074) in
  let num := if e <? 0 then p * 2 ^ (- e) else p in
  let den := if e <? 0 then q else q * 2 ^ e in
  let m0 := num / den in
  let r := num mod den in
  let m := if 2 * r <? den then m0
           else if den <? 2 * r then m0 + 1
           else if Z.even m0 then m0 else m0 + 1 in
  let '(m, e) := if m =? 2 ^ 53 then (2 ^ 52, e + 1) else (m, e) in
  if m =? 0 then Some (S754_zero sign)
  else if 971 <? e then None
  else Some (S754_finite sign (Z.to_pos m) e).

(** Leading zeros of the mantissa carry no value. *)
Fixpoint strip_zeros (s : string) : string :=
  match s with
  | String c r => if is_byte 48 c then strip_zeros r else s
  | EmptyString => EmptyString
  end.

(** [strconv.ParseFloat(s, 64)] for a literal of the JSON grammar: the value
    [mant * 10 ^ dexp], correctly rounded; underflow gives a zero, overflow
    is an error.  With [nd] significant digits the value lies between
    [10 ^ (dp - 1)] and [10 ^ dp] for [dp = nd + dexp]; as in
    [decimal.floatBits], [dp > 310] is an overflow and [dp < -330] a zero
    without further arithmetic. *)
Definition ParseFloat (l : numlit) : option spec_float :=
  let ds := strip_zeros (int_digits l +:+ frac_digits l) in
  let mant := digits_val 0 ds in
  let e := exp_val 0 (exp_digits l) in
  let dexp := (if exp_neg l then - e else e) - Z.of_nat (String.length (frac_digits l)) in
  if mant =? 0 then Some (S754_zero (neg l))
  else
    let dp := Z.of_nat (String.length ds) + dexp in
    if 310 <? dp then None
    else if dp <? -330 then Some (S754_zero (neg l))
    else if 0 <=? dexp then round_ratio (neg l) (mant * 10 ^ dexp) 1
    else round_ratio (neg l) mant (10 ^ (- dexp)).

End Strconv.

(** ** encoding/json *)

(** The dynamic type [any] restricted to what [json.Unmarshal] stores in it:
    [nil], [bool], [float64], [string], [[]any], [map[string]any]. *)
Inductive value : Type :=
| VNull
| VBool (b : bool)
| VNumber (f : spec_float)
| VString (s : string)
| VArray (l : list value)
| VObject (m : gmap string value).

Module Json.

Import Strconv.

Inductive res (A : Type) : Type :=
| Ok (a : A)
| SyntaxError
| OutOfFuel.
Arguments Ok {A} a.
Arguments SyntaxError {A}.
Arguments OutOfFuel {A}.

Definition maxNestingDepth : nat := 100 * 100.

(** [isSpace] of the scanner. *)
Definition isSpace (c : ascii) : bool :=
  is_byte 32 c || is_byte 9 c || is_byte 13 c || is_byte 10 c.

Fixpoint skip_ws (s : string) : string :=
  match s with
  | String c r => if isSpace c then skip_ws r else s
  | EmptyString => EmptyString
  end.

(** *** Numbers *)

Fixpoint span_digits (s : string) : string * string :=
  match s with
  | String c r =>
      if is_digit c then
        let '(d, rest) := span_digits r in (String c d, rest)
      else ("", s)
  | EmptyString => ("", "")
  end.

Definition is_empty (s : string) : bool :=
  match s with
  | EmptyString => true
  | _ => false
  end.

(** [stateE], [stateESign], [stateE0] *)
Definition scan_exp (sign : bool) (int frac : string) (s : string)
  : option (numlit * string) :=
  match s with
  | String c r =>
      if is_byte 101 c || is_byte 69 c then
        let '(eneg, r1) :=
          match r with
          | String c' r' =>
              if is_byte 43 c' then (false, r')
              else if is_byte 45 c' then (true, r')
              else (false, r)
          | EmptyString => (false, r)
          end in
        let '(es, r2) := span_digits r1 in
        if is_empty es then None else Some (NumLit sign int frac eneg es, r2)
      else Some (NumLit sign int frac false "", s)
  | EmptyString => Some (NumLit sign int frac false "", s)
  end.

(** [stateDot], [stateDot0] *)
Definition scan_frac (sign : bool) (int : string) (s : string)
  : option (numlit * string) :=
  match s with
  | String c r =>
      if is_byte 46 c then
        let '(fs, r') := span_digits r in
        if is_empty fs then None else scan_exp sign int fs r'
      else scan_exp sign int "" s
  | EmptyString => scan_exp sign int "" s
  end.

(** [stateNeg], [state0], [state1] *)
Definition scan_number (s : string) : option (numlit * string) :=
  let '(sign, s1) :=
    match s with
    | String c r => if is_byte 45 c then (true, r) else (false, s)
    | EmptyString => (false, s)
    end in
  match s1 with
  | String c r =>
      if is_byte 48 c then scan_frac sign (String c "") r
      else if in_range 49 57 c then
        let '(ds, r') := span_digits r in scan_frac sign (String c ds) r'
      else None
  | EmptyString => None
  end.

(** *** Strings *)

Definition hex_val (c : ascii) : option N :=
  if in_range 48 57 c then Some (byte_of c - 48)%N
  else if in_range 97 102 c then Some (byte_of c - 87)%N
  else if in_range 65 70 c then Some (byte_of c - 55)%N
  else None.

(** [getu4]: the value of four hexadecimal digits. *)
Definition getu4 (h1 h2 h3 h4 : ascii) : option N :=
  match hex_val h1, hex_val h2, hex_val h3, hex_val h4 with
  | Some a, Some b, Some c, Some d => Some (((a * 16 + b) * 16 + c) * 16 + d)%N
  | _, _, _, _ => None
  end.

Definition is_high (r : N) : bool := ((55296 <=? r) && (r <? 56320))%N.
Definition is_low (r : N) : bool := ((56320 <=? r) && (r <? 57344))%N.

(** [utf16.DecodeRune] on a valid pair. *)
Definition combine (hi lo : N) : N :=
  (N.lor (N.shiftl (hi - 55296) 10) (lo - 56320) + 65536)%N.

Definition replacement : string := Utf8.EncodeRune Utf8.RuneError.

(** What is written for a high surrogate that turned out to be unpaired. *)
Definition flush (pend : option N) : string :=
  match pend with
  | Some _ => replacement
  | None => ""
  end.

(** A [\uXXXX] escape of value [rr] read while [pend] is the high surrogate
    of the escape just before it, if any: the bytes written and the high
    surrogate left pending. *)
Definition u_alone (rr : N) : string * option N :=
  if is_high rr then ("", Some rr)
  else if is_low rr then (replacement, None)
  else (Utf8.EncodeRune rr, None).

Definition u_step (pend : option N) (rr : N) : string * option N :=
  match pend with
  | Some hi =>
      if is_low rr then (Utf8.EncodeRune (combine hi rr), None)
      else let '(o, p) := u_alone rr in (replacement +:+ o, p)
  | None => u_alone rr
  end.

(** The character a one-letter escape stands for. *)
Definition esc_char (e : ascii) : option ascii :=
  if is_byte 34 e then Some e
  else if is_byte 92 e then Some e
  else if is_byte 47 e then Some e
  else if is_byte 98 e then Some (chr 8)
  else if is_byte 102 e then Some (chr 12)
  else if is_byte 110 e then Some (chr 10)
  else if is_byte 114 e then Some (chr 13)
  else if is_byte 116 e then Some (chr 9)
  else None.

Definition emit (o : string) (k : option (string * string)) : option (string * string) :=
  match k with
  | Some (str, rest) => Some (o +:+ str, rest)
  | None => None
  end.

(** The scanner's [stateInString] family and [unquote] in one pass over the
    text that follows an opening quote: the string's value and the text
    after its closing quote.  Well-formed UTF-8 sequences are copied (Go
    decodes and re-encodes them), any other byte is written as U+FFFD. *)
Fixpoint unquote (pend : option N) (s : string) : option (string * string) :=
  match s with
  | EmptyString => None
  | String c r0 =>
      if is_byte 34 c then Some (flush pend, r0)
      else if is_byte 92 c then
        match r0 with
        | String e r1 =>
            if is_byte 117 e then
              match r1 with
              | String h1 (String h2 (String h3 (String h4 r2))) =>
                  match getu4 h1 h2 h3 h4 with
                  | Some rr =>
                      let '(o, p) := u_step pend rr in emit o (unquote p r2)
                  | None => None
                  end
              | _ => None
              end
            else
              match esc_char e with
              | Some x => emit (flush pend +:+ String x "") (unquote None r1)
              | None => None
              end
        | EmptyString => None
        end
      else if (byte_of c <? 32)%N then None
      else
        match Utf8.DecodeRune s with
        | Some (_, 1%nat) => emit (flush pend +:+ String c "") (unquote None r0)
        | Some (_, 2%nat) =>
            match r0 with
            | String c1 r1 =>
                emit (flush pend +:+ String c (String c1 "")) (unquote None r1)
            | _ => None
            end
        | Some (_, 3%nat) =>
            match r0 with
            | String c1 (String c2 r2) =>
                emit (flush pend +:+ String c (String c1 (String c2 "")))
                     (unquote None r2)
            | _ => None
            end
        | Some (_, 4%nat) =>
            match r0 with
            | String c1 (String c2 (String c3 r3)) =>
                emit (flush pend +:+ String c (String c1 (String c2 (String c3 ""))))
                     (unquote None r3)
            | _ => None
            end
        | _ => emit (flush pend +:+ replacement) (unquote None r0)
        end
  end.

(** *** Literals *)

Fixpoint strip_prefix (p s : string) : option string :=
  match p with
  | EmptyString => Some s
  | String a p' =>
      match s with
      | String b s' => if Ascii.eqb a b then strip_prefix p' s' else None
      | EmptyString => None
      end
  end.

(** *** Values *)

(** The scanner and [valueInterface] as a recursive descent.  [depth] is
    the number of further nesting levels the scanner's parse-state stack
    can take; [fuel] bounds the number of calls. *)
Fixpoint parse_value (fuel depth : nat) (s : string) : res (value * string) :=
  match fuel with
  | O => OutOfFuel
  | S fuel' =>
      match skip_ws s with
      | EmptyString => SyntaxError
      | String c r =>
          if is_byte 123 c then
            match depth with
            | O => SyntaxError
            | S depth' =>
                match skip_ws r with
                | String c' r' =>
                    if is_byte 125 c' then Ok (VObject ∅, r')
                    else parse_members fuel' depth' ∅ (skip_ws r)
                | EmptyString => SyntaxError
                end
            end
          else if is_byte 91 c then
            match depth with
            | O => SyntaxError
            | S depth' =>
                match skip_ws r with
                | String c' r' =>
                    if is_byte 93 c' then Ok (VArray [], r')
                    else parse_elements fuel' depth' [] (skip_ws r)
                | EmptyString => SyntaxError
                end
            end
          else if is_byte 34 c then
            match unquote None r with
            | Some (str, rest) => Ok (VString str, rest)
            | None => SyntaxError
            end
          else if is_byte 116 c then
            match strip_prefix "rue" r with
            | Some rest => Ok (VBool true, rest)
            | None => SyntaxError
            end
          else if is_byte 102 c then
            match strip_prefix "alse" r with
            | Some rest => Ok (VBool false, rest)
            | None => SyntaxError
            end
          else if is_byte 110 c then
            match strip_prefix "ull" r with
            | Some rest => Ok (VNull, rest)
            | None => SyntaxError
            end
          else
            match scan_number (String c r) with
            | Some (l, rest) =>
                match ParseFloat l with
                | Some f => Ok (VNumber f, rest)
                | None => SyntaxError
                end
            | None => SyntaxError
            end
      end
  end

(** After [[] or a comma: an element, then a comma or []]. [acc] holds the
    elements read so far, most recent first. *)
with parse_elements (fuel depth : nat) (acc : list value) (s : string)
  : res (value * string) :=
  match fuel with
  | O => OutOfFuel
  | S fuel' =>
      match parse_value fuel' depth s with
      | Ok (v, rest) =>
          match skip_ws rest with
          | String c r =>
              if is_byte 44 c then parse_elements fuel' depth (v :: acc) r
              else if is_byte 93 c then Ok (VArray (rev (v :: acc)), r)
              else SyntaxError
          | EmptyString => SyntaxError
          end
      | SyntaxError => SyntaxError
      | OutOfFuel => OutOfFuel
      end
  end

(** After [{] or a comma: a key, a colon, a value, then a comma or [}].
    [m[key] = value]: a repeated key keeps its last value. *)
with parse_members (fuel depth : nat) (m : gmap string value) (s : string)
  : res (value * string) :=
  match fuel with
  | O => OutOfFuel
  | S fuel' =>
      match skip_ws s with
      | String q r =>
          if is_byte 34 q then
            match unquote None r with
            | Some (key, r1) =>
                match skip_ws r1 with
                | String c r2 =>
                    if is_byte 58 c then
                      match parse_value fuel' depth r2 with
                      | Ok (v, rest) =>
                          match skip_ws rest with
                          | String c' r3 =>
                              if is_byte 44 c' then
                                parse_members fuel' depth (<[key := v]> m) r3
                              else if is_byte 125 c' then
                                Ok (VObject (<[key := v]> m), r3)
                              else SyntaxError
                          | EmptyString => SyntaxError
                          end
                      | SyntaxError => SyntaxError
                      | OutOfFuel => OutOfFuel
                      end
                    else SyntaxError
                | EmptyString => SyntaxError
                end
            | None => SyntaxError
            end
          else SyntaxError
      | EmptyString => SyntaxError
      end
  end.

(** [json.Unmarshal(data, &v)] for [v] of type [any]: [Some] the value stored
    when the error is [nil]. *)
Definition Unmarshal (data : string) : option value :=
  match parse_value (2 * String.length data + 2) maxNestingDepth data with
  | Ok (v, rest) => if is_empty (skip_ws rest) then Some v else None
  | _ => None
  end.

End Json.

(** ** encoding/json: Marshal

    [json.Marshal] on the values of [any] that the decoder handles, as
    [cmd/cli/main.go] and [cmd/wasm/main.go] call it on the result. *)

Module JsonEncode.

Local Open Scope Z_scope.

Definition hex : string := "0123456789abcdef".

Definition hex_at (n : N) : ascii := Base64.nth_char hex (N.to_nat n).

Definition backslash : ascii := chr 92.

Definition dquote : ascii := chr 34.

(** [htmlSafeSet]: the ASCII characters written as they are. *)
Definition htmlSafe (c : ascii) : bool :=
  in_range 32 127 c &&
  negb (is_byte 34 c || is_byte 92 c || is_byte 60 c || is_byte 62 c
        || is_byte 38 c).

(** The escape of an ASCII character that is not in [htmlSafeSet]. *)
Definition escape_ascii (c : ascii) : string :=
  if is_byte 92 c || is_byte 34 c then String backslash (String c "")
  else if is_byte 8 c then String backslash "b"
  else if is_byte 12 c then String backslash "f"
  else if is_byte 10 c then String backslash "n"
  else if is_byte 13 c then String backslash "r"
  else if is_byte 9 c then String backslash "t"
  else
    String backslash
      ("u00" +:+ String (hex_at (N.shiftr (byte_of c) 4))
                   (String (hex_at (N.land (byte_of c) 15)) "")).

(** [appendString] with [escapeHTML] set, without the two quotes: safe
    ASCII and well-formed sequences are copied, U+2028 and U+2029 are
    escaped, an ill-formed byte is written as the escape of U+FFFD. *)
Fixpoint appendString (src : string) : string :=
  match src with
  | EmptyString => ""
  | String c r0 =>
      if (byte_of c <? 128)%N then
        (if htmlSafe c then String c "" else escape_ascii c)
        +:+ appendString r0
      else
        match Utf8.DecodeRune src with
        | Some (_, 2%nat) =>
            match r0 with
            | String c1 r1 => String c (String c1 (appendString r1))
            | _ => ""
            end
        | Some (r, 3%nat) =>
            match r0 with
            | String c1 (String c2 r2) =>
                (if ((r =? 8232) || (r =? 8233))%N then
                   String backslash ("u202" +:+ String (hex_at (N.land r 15)) "")
                 else String c (String c1 (String c2 "")))
                +:+ appendString r2
            | _ => ""
            end
        | Some (_, 4%nat) =>
            match r0 with
            | String c1 (String c2 (String c3 r3)) =>
                String c (String c1 (String c2 (String c3 (appendString r3))))
            | _ => ""
            end
        | _ => String backslash "ufffd" +:+ appendString r0
        end
  end.

Definition quote (s : string) : string :=
  String dquote (appendString s +:+ String dquote "").

(** *** Numbers *)

Definition digits_of (n : Z) : string :=
  DecimalString.NilZero.string_of_uint (N.to_uint (Z.to_N n)).

Fixpoint strip_trailing_zeros_rev (r : string) : string :=
  match r with
  | String c r' => if is_byte 48 c then strip_trailing_zeros_rev r' else r
  | EmptyString => EmptyString
  end.

(** The digits of [n] without the zeros at their end, and how many zeros
    were left out. *)
Definition significant (n : Z) : string * Z :=
  let ds := digits_of n in
  let sig := String.rev (strip_trailing_zeros_rev (String.rev ds)) in
  (sig, Z.of_nat (String.length ds) - Z.of_nat (String.length sig)).

Fixpoint zeros (n : nat) : string :=
  match n with
  | O => ""
  | S n' => String "0" (zeros n')
  end.

Fixpoint take (n : nat) (s : string) : string :=
  match n, s with
  | S n', String c r => String c (take n' r)
  | _, _ => ""
  end.

Fixpoint drop (n : nat) (s : string) : string :=
  match n, s with
  | S n', String _ r => drop n' r
  | _, _ => s
  end.

(** [%f] with the shortest digits: [0.ds * 10 ^ dp] without exponent. *)
Definition fmtF (ds : string) (dp : Z) : string :=
  let nd := Z.of_nat (String.length ds) in
  let int_part :=
    if 0 <? dp then
      take (Z.to_nat dp) ds +:+ zeros (Z.to_nat (dp - nd))
    else "0" in
  let frac_part :=
    if dp <? nd then
      "." +:+ zeros (Z.to_nat (- dp)) +:+ drop (Z.to_nat dp) ds
    else "" in
  int_part +:+ frac_part.

(** [%e] with the shortest digits, the exponent on two digits at least, and
    the clean-up of [floatEncoder] that turns [e-09] into [e-9]. *)
Definition fmtE (ds : string) (dp : Z) : string :=
  let mant :=
    match ds with
    | String d EmptyString => String d ""
    | String d more => String d ("." +:+ more)
    | EmptyString => "0"
    end in
  let exp := dp - 1 in
  let sign := if exp <? 0 then "-" else "+" in
  let e := Z.abs exp in
  mant +:+ "e" +:+ sign +:+ digits_of e.

(** The value [mant * 10 ^ dexp] as a fraction. *)
Definition decimal_ratio (mant dexp : Z) : Z * Z :=
  if 0 <=? dexp then (mant * 10 ^ dexp, 1) else (mant, 10 ^ (- dexp)).

Definition float_eqb (a b : spec_float) : bool :=
  match a, b with
  | S754_zero s, S754_zero s' => Bool.eqb s s'
  | S754_finite s m e, S754_finite s' m' e' =>
      Bool.eqb s s' && (m =? m')%positive && (e =? e')
  | _, _ => false
  end.

Definition reads_as (sign : bool) (mant dexp : Z) (f : spec_float) : bool :=
  let '(p, q) := decimal_ratio mant dexp in
  match Strconv.round_ratio sign p q with
  | Some f' => float_eqb f f'
  | None => false
  end.

(** The shortest digits: for [nd] = 1, 2, ... the two decimals of [nd]
    digits around the value [num / den]; the first that reads back as the
    float is taken, the nearer of the two first. *)
Fixpoint shortest (fuel : nat) (nd : Z) (sign : bool) (num den dp : Z)
  (f : spec_float) : option (Z * Z) :=
  match fuel with
  | O => None
  | S fuel' =>
      let dexp := dp - nd in
      let '(n', d') :=
        if 0 <=? dexp then (num, den * 10 ^ dexp) else (num * 10 ^ (- dexp), den) in
      let lo := n' / d' in
      let r := n' mod d' in
      let '(c1, c2) := if 2 * r <=? d' then (lo, lo + 1) else (lo + 1, lo) in
      if reads_as sign c1 dexp f then Some (c1, dexp)
      else if reads_as sign c2 dexp f then Some (c2, dexp)
      else shortest fuel' (nd + 1) sign num den dp f
  end.

(** The position of the decimal point: [10 ^ (dp - 1) <= num / den < 10 ^ dp]. *)
Definition ge_pow10 (num den k : Z) : bool :=
  if 0 <=? k then den * 10 ^ k <=? num else den <=? num * 10 ^ (- k).

Fixpoint point_from (fuel : nat) (num den k : Z) : Z :=
  match fuel with
  | O => k
  | S fuel' =>
      if ge_pow10 num den k then point_from fuel' num den (k + 1) else k
  end.

Definition point (num den : Z) : Z :=
  let est := (Z.log2 num - Z.log2 den) * 1233 / 4096 - 1 in
  point_from 6 num den est.

(** The digits and the layout of [floatEncoder] for a [float64]: [%f], or
    [%e] below 1e-6 and from 1e21 on (the [float64] constants: 1e21 is
    exact, 1e-6 is [4722366482869645 * 2 ^ -72]). *)
Definition layout (f : spec_float) : option string :=
  match f with
  | S754_zero s => Some (if s then "-0" else "0")
  | S754_finite s m e =>
      let '(num, den) := if 0 <=? e then (Zpos m * 2 ^ e, 1) else (Zpos m, 2 ^ (- e)) in
      let dp := point num den in
      match shortest 17 1 s num den dp f with
      | Some (mant, dexp) =>
          let '(ds, z) := significant mant in
          let dp' := Z.of_nat (String.length ds) + z + dexp in
          let body :=
            if ge_pow10 num den 21 || (num * 2 ^ 72 <? 4722366482869645 * den)
            then fmtE ds dp' else fmtF ds dp' in
          Some ((if s then "-" else "") +:+ body)
      | None => None
      end
  | _ => None
  end.

(** The literal is a JSON number that [strconv.ParseFloat] reads as [f]. *)
Definition reads_back (lit : string) (f : spec_float) : bool :=
  match Json.scan_number lit with
  | Some (l, EmptyString) =>
      match Strconv.ParseFloat l with
      | Some f' => float_eqb f f'
      | None => false
      end
  | _ => false
  end.

(** [strconv.AppendFloat(b, f, fmt, -1, 64)] gives the shortest literal
    that reads back as [f]: the literal found is returned when it does.
    [None] stands for [UnsupportedValueError] (a float that is not a finite
    number). *)
Definition FormatFloat (f : spec_float) : option string :=
  match layout f with
  | Some lit => if reads_back lit f then Some lit else None
  | None => None
  end.

(** *** Values *)

(** Texts separated by commas. *)
Fixpoint join (ts : list string) : string :=
  match ts with
  | [] => ""
  | t :: r =>
      match r with
      | [] => t
      | _ => t +:+ "," +:+ join r
      end
  end.

(** A member of an object: the key, a colon, the value. *)
Definition member (kt : string * string) : string :=
  quote kt.1 +:+ ":" +:+ kt.2.

Definition keyed (ko : string * option string) : option (string * string) :=
  match ko.2 with
  | Some t => Some (ko.1, t)
  | None => None
  end.

(** Keys are written in the order of their bytes. *)
Definition key_le (a b : string * option string) : Prop :=
  String.leb a.1 b.1 = true.

#[global] Instance key_le_dec (a b : string * option string) :
  Decision (key_le a b).
Proof. unfold key_le. apply _. Defined.

(** [json.Marshal]; [None] when it returns an error. *)
Fixpoint Marshal (x : value) : option string :=
  match x with
  | VNull => Some "null"
  | VBool b => Some (if b then "true" else "false")
  | VNumber f => FormatFloat f
  | VString s => Some (quote s)
  | VArray l =>
      match mapM id (Marshal <$> l) with
      | Some ts => Some ("[" +:+ join ts +:+ "]")
      | None => None
      end
  | VObject m =>
      match mapM keyed (merge_sort key_le (map_to_list (Marshal <$> m))) with
      | Some kts => Some ("{" +:+ join (member <$> kts) +:+ "}")
      | None => None
      end
  end.

End JsonEncode.

(** ** internal/decoder *)

Module Decoder.

Definition base64BlockSize : nat := 4.
Definition validBase64Mod : nat := 0.

(** [IsBase64] checks if a string is valid Base64 encoded. *)
Definition IsBase64 (s : string) : bool :=
  if negb (String.length s mod base64BlockSize =? validBase64Mod)%nat then false
  else
    match Base64.DecodeString s with
    | Some _ => true
    | None => false
    end.

(** [IsValidJSON] checks if a string is valid JSON. *)
Definition IsValidJSON (s : string) : bool :=
  match Json.Unmarshal s with
  | Some _ => true
  | None => false
  end.

(** The body of [DecodeBase64String], with the function called on the
    parsed document as a parameter. *)
Definition DecodeBase64String_body (fields : value -> value) (s : string) : value :=
  if negb (IsBase64 s) then VString s
  else
    match Base64.DecodeString s with
    | None => VString s
    | Some decoded =>
        if negb (Utf8.Valid decoded) then VString s
        else
          let decodedStr := Strings.TrimSpace decoded in
          if IsValidJSON decodedStr then
            match Json.Unmarshal decodedStr with
            | Some jsonObj => fields jsonObj
            | None => VString decodedStr
            end
          else VString decodedStr
    end.

(** The type switch of [DecodeBase64Fields], with [DecodeBase64InMap] and
    [DecodeBase64InSlice] in place and the function called on a string as a
    parameter. *)
Fixpoint DecodeBase64Fields_body (str : string -> value) (data : value) : value :=
  match data with
  | VObject m => VObject (DecodeBase64Fields_body str <$> m)
  | VArray l => VArray (DecodeBase64Fields_body str <$> l)
  | VString s => str s
  | _ => data
  end.

(** Number of nodes of the tree. *)
Fixpoint vsize (data : value) : nat :=
  match data with
  | VObject m => S (map_fold (fun _ v acc => vsize v + acc) O m)
  | VArray l => S (foldr (fun v acc => vsize v + acc) O l)
  | _ => 1
  end.

(** Length of the longest string in the tree (keys apart). *)
Fixpoint maxstr (data : value) : nat :=
  match data with
  | VObject m => map_fold (fun _ v acc => Nat.max (maxstr v) acc) O m
  | VArray l => foldr (fun v acc => Nat.max (maxstr v) acc) O l
  | VString s => String.length s
  | _ => O
  end.

(** The mutual recursion of [DecodeBase64Fields] and [DecodeBase64String]
    unrolled [n] times. *)
Fixpoint unroll (n : nat) (data : value) : value :=
  match n with
  | O => data
  | S n' => DecodeBase64Fields_body (DecodeBase64String_body (unroll n')) data
  end.

(** [DecodeBase64Fields] recursively traverses JSON data and decodes Base64
    strings. *)
Definition DecodeBase64Fields (data : value) : value :=
  unroll (S (maxstr data)) data.

(** [DecodeBase64String] attempts decode a Base64 string and parse as JSON
    if valid. *)
Definition DecodeBase64String (s : string) : value :=
  DecodeBase64String_body DecodeBase64Fields s.

(** [DecodeBase64InMap] processes all values in a map. *)
Definition DecodeBase64InMap (m : gmap string value) : gmap string value :=
  DecodeBase64Fields <$> m.

(** [DecodeBase64InSlice] processes all values in a slice. *)
Definition DecodeBase64InSlice (s : list value) : list value :=
  DecodeBase64Fields <$> s.

End Decoder.

Import Decoder.

(** ** The decoder as an evaluation relation

    One rule for each path through [DecodeBase64Fields] and
    [DecodeBase64String]; a derivation is a terminating run. *)

Inductive decodes : value -> value -> Prop :=
| decodes_null : decodes VNull VNull
| decodes_bool b : decodes (VBool b) (VBool b)
| decodes_number f : decodes (VNumber f) (VNumber f)
| decodes_slice l l' :
    Forall2 decodes l l' -> decodes (VArray l) (VArray l')
| decodes_map (m m' : gmap string value) :
    dom m = dom m' ->
    (forall k v v', m !! k = Some v -> m' !! k = Some v' -> decodes v v') ->
    decodes (VObject m) (VObject m')
| decodes_not_base64 s :
    IsBase64 s = false -> decodes (VString s) (VString s)
| decodes_binary s decoded :
    IsBase64 s = true -> Base64.DecodeString s = Some decoded ->
    Utf8.Valid decoded = false ->
    decodes (VString s) (VString s)
| decodes_text s decoded :
    IsBase64 s = true -> Base64.DecodeString s = Some decoded ->
    Utf8.Valid decoded = true ->
    IsValidJSON (Strings.TrimSpace decoded) = false ->
    decodes (VString s) (VString (Strings.TrimSpace decoded))
| decodes_json s decoded jsonObj v :
    IsBase64 s = true -> Base64.DecodeString s = Some decoded ->
    Utf8.Valid decoded = true ->
    Json.Unmarshal (Strings.TrimSpace decoded) = Some jsonObj ->
    decodes jsonObj v ->
    decodes (VString s) v.

(** [calls y x]: running [DecodeBase64Fields] on [x] makes a recursive call
    on [y]. *)
Inductive calls : value -> value -> Prop :=
| calls_slice l y : y ∈ l -> calls y (VArray l)
| calls_map (m : gmap string value) k y : m !! k = Some y -> calls y (VObject m)
| calls_json s decoded y :
    IsBase64 s = true -> Base64.DecodeString s = Some decoded ->
    Utf8.Valid decoded = true ->
    Json.Unmarshal (Strings.TrimSpace decoded) = Some y ->
    calls y (VString s).

(** ** The loops of the decoder as they are written

    [DecodeBase64InMap] and [DecodeBase64InSlice] above are the images of
    their argument; here are the loops of the source, to be compared with
    them. *)

(** The loop of [DecodeBase64InMap] over the entries of the map in the
    order in which [range] happens to give them: [result[key] =
    DecodeBase64Fields(value)], into a fresh map. *)
Definition DecodeBase64InMap_range (entries : list (string * value))
  : gmap string value :=
  foldl (fun result kv => <[kv.1 := DecodeBase64Fields kv.2]> result) ∅ entries.

(** The loop of [DecodeBase64InSlice]: [result[i] =
    DecodeBase64Fields(value)] for each index, into
    [make([]any, len(s))], a slice of [nil]s.  An index past the end, at
    which Go would panic, leaves the list as it is; the loop has none. *)
Definition DecodeBase64InSlice_range (s : list value) : list value :=
  foldl (fun result iv => <[iv.1 := DecodeBase64Fields iv.2]> result)
        (replicate (length s) VNull) (imap pair s).

(** ** internal/errors *)

Module Errors.

(** [ArgumentError] represents an error related to command-line
    arguments. *)
Record ArgumentError : Type := { message : string }.

Definition NewArgumentError (text : string) : ArgumentError :=
  {| message := text |}.

(** [Error] implements the error interface. *)
Definition Error (e : ArgumentError) : string := message e.

Definition ErrEmptyInput : ArgumentError :=
  NewArgumentError "empty input provided".

Definition ErrNoInputProvided : ArgumentError :=
  NewArgumentError "no input provided".

End Errors.

(** ** cmd/cli

    The program after [flag.Parse]: [help] is the value of the flag [-h]
    or [--help], [args] is [flag.Args()].  What the program finds outside
    is a [system]; what it does is an [outcome]. *)

Module Cli.

Definition Zero : nat := 0.
Definition One : nat := 1.

(** An [error] value: an [ArgumentError], or an error of another type, of
    which the text is kept.  [errors.As(err, &argErr)] finds an
    [ArgumentError] in the first only: no error of the program wraps
    one. *)
Inductive error : Type :=
| ArgumentErr (e : Errors.ArgumentError)
| OtherErr (text : string).

Definition error_text (err : error) : string :=
  match err with
  | ArgumentErr e => Errors.Error e
  | OtherErr text => text
  end.

(** [os.Open(name)] followed by [io.ReadAll(file)]. *)
Inductive opened : Type :=
| OpenError (text : string)
| ReadError (text : string)
| Content (data : string).

(** [stdin_stat] is [os.Stdin.Stat()]: [None] for an error, otherwise
    whether the mode has [os.ModeCharDevice].  [stdin_data] is
    [io.ReadAll(os.Stdin)]: the data, or the text of the error. *)
Record system : Type := {
  stdin_stat : option bool;
  stdin_data : string + string;
  open_file : string -> opened
}.

Inductive failure : Type :=
| ReadingInput (err : error)
| ParsingJSON
| GeneratingOutput.

(** [Usage]: [showUsage()], then return.  [Output text]: [text] on
    standard output, then return.  [Failure f]: a line on standard error
    ([Error reading input: ] and the text of the error, [Error parsing
    JSON: ] or [Error generating output JSON: ] and the error of
    [encoding/json]), then [os.Exit(One)]. *)
Inductive outcome : Type :=
| Usage
| Output (text : string)
| Failure (f : failure).

Definition exit_status (o : outcome) : nat :=
  match o with
  | Failure _ => One
  | _ => Zero
  end.

Definition newline : string := String (chr 10) "".

(** [strings.HasPrefix] *)
Definition HasPrefix (s prefix : string) : bool :=
  match Json.strip_prefix prefix s with
  | Some _ => true
  | None => false
  end.

(** [isStdinEmpty] checks if stdin has no data available. *)
Definition isStdinEmpty (w : system) : bool :=
  match stdin_stat w with
  | None => true
  | Some charDevice => charDevice
  end.

(** [readFromStdin] reads and validates input from standard input. *)
Definition readFromStdin (w : system) : string + error :=
  if isStdinEmpty w then inr (ArgumentErr Errors.ErrNoInputProvided)
  else
    match stdin_data w with
    | inr text => inr (OtherErr text)
    | inl data =>
        if (String.length (Strings.TrimSpace data) =? Zero)%nat
        then inr (ArgumentErr Errors.ErrEmptyInput)
        else inl data
    end.

(** [processArgument] handles a single command-line argument (JSON string
    or file). *)
Definition processArgument (w : system) (arg : string) : string + error :=
  let arg := Strings.TrimSpace arg in
  if HasPrefix arg "{" || HasPrefix arg "[" then inl arg
  else
    match open_file w arg with
    | OpenError text =>
        inr (OtherErr ("failed to open file '" +:+ arg +:+ "': " +:+ text))
    | ReadError text => inr (OtherErr text)
    | Content data => inl data
    end.

(** [getJSONInput] reads JSON input from various sources. *)
Definition getJSONInput (w : system) (args : list string) : string + error :=
  match args with
  | [] => readFromStdin w
  | [arg] => processArgument w arg
  | _ => inr (OtherErr "too many arguments provided")
  end.

Definition main (w : system) (help : bool) (args : list string) : outcome :=
  if help then Usage
  else
    match getJSONInput w args with
    | inr (ArgumentErr _) => Usage
    | inr err => Failure (ReadingInput err)
    | inl jsonData =>
        match Json.Unmarshal jsonData with
        | None => Failure ParsingJSON
        | Some data =>
            match JsonEncode.Marshal (DecodeBase64Fields data) with
            | None => Failure GeneratingOutput
            | Some output => Output (output +:+ newline)
            end
        end
    end.

End Cli.

(** ** cmd/wasm *)

Module Wasm.

(** A [js.Value] with what its method [String] returns: the string itself
    for a JavaScript string, a description between angle brackets for
    another value. *)
Inductive Value : Type :=
| JsString (s : string)
| JsOther (description : string).

Definition String_ (v : Value) : string :=
  match v with
  | JsString s => s
  | JsOther description => description
  end.

(** The map returned to JavaScript: [{error: text}], [{error: prefix +
    err.Error()}] for an error [err] of [encoding/json], or [{result:
    text}]. *)
Inductive reply : Type :=
| ReplyError (text : string)
| ReplyErrorOf (prefix : string)
| ReplyResult (text : string).

(** [decodeJSON] is the main function exposed to JavaScript. *)
Definition decodeJSON (args : list Value) : reply :=
  match args with
  | [arg] =>
      let jsonStr := String_ arg in
      match Json.Unmarshal jsonStr with
      | None => ReplyErrorOf "Invalid JSON: "
      | Some data =>
          match JsonEncode.Marshal (DecodeBase64Fields data) with
          | None => ReplyErrorOf "Error generating output JSON: "
          | Some output => ReplyResult output
          end
      end
  | _ => ReplyError "Expected exactly one argument (JSON string)"
  end.

End Wasm.

(** ** Notions of the specification *)

Module Spec.

(** Structural isomorphism of the output with the input: objects keep their
    key set, arrays their length and order, numbers, booleans and null are
    untouched, and a string leaf may have become anything. *)
Inductive same_shape : value -> value -> Prop :=
| shape_null : same_shape VNull VNull
| shape_bool b : same_shape (VBool b) (VBool b)
| shape_number f : same_shape (VNumber f) (VNumber f)
| shape_string s v : same_shape (VString s) v
| shape_array l l' :
    Forall2 same_shape l l' -> same_shape (VArray l) (VArray l')
| shape_object (m m' : gmap string value) :
    dom m = dom m' ->
    (forall k v v', m !! k = Some v -> m' !! k = Some v' -> same_shape v v') ->
    same_shape (VObject m) (VObject m').

Definition in_alphabet (c : ascii) : bool :=
  in_range 65 90 c || in_range 97 122 c || in_range 48 57 c
  || is_byte 43 c || is_byte 47 c.

Definition is_pad (c : ascii) : bool := is_byte 61 c.

(** Strict standard Base64 as the specification words it: characters of the
    alphabet [A-Z a-z 0-9 + /] in groups of four, the last group possibly
    ending in [=] or [==]; anything else is rejected. *)
Fixpoint strict_base64 (s : string) : bool :=
  match s with
  | EmptyString => true
  | String a (String b (String c (String d rest))) =>
      in_alphabet a && in_alphabet b &&
      (if in_alphabet c then
         if in_alphabet d then strict_base64 rest
         else is_pad d && Json.is_empty rest
       else is_pad c && is_pad d && Json.is_empty rest)
  | _ => false
  end.

(** The text with its CR and LF characters left out. *)
Fixpoint drop_newlines (s : string) : string :=
  match s with
  | EmptyString => ""
  | String c r =>
      if Base64.is_newline c then drop_newlines r else String c (drop_newlines r)
  end.

Definition dquote : string := String (chr 34) "".

(** A JSON value, as [json.Unmarshal] gives them and [json.Marshal]
    writes them back: strings and keys are valid UTF-8, and arrays and
    objects are nested [d] deep at most. *)
Fixpoint json_value (d : nat) (x : value) {struct x} : bool :=
  match x with
  | VString s => Utf8.Valid s
  | VArray l =>
      match d with
      | O => false
      | S d' => forallb (json_value d') l
      end
  | VObject m =>
      match d with
      | O => false
      | S d' =>
          map_fold (fun k v acc => Utf8.Valid k && json_value d' v && acc) true m
      end
  | _ => true
  end.

(** [layers n t]: the document [t] under [n] layers, each the JSON string
    literal of the Base64 text of the layer below. *)
Fixpoint layers (n : nat) (t : string) : string :=
  match n with
  | O => t
  | S n' => dquote +:+ Base64.EncodeToString (layers n' t) +:+ dquote
  end.

(** The JSON text of the document with one member, [a], of value 1, and
    the value it parses to. *)
Definition doc_a1 : string := "{" +:+ dquote +:+ "a" +:+ dquote +:+ ":1}".

Definition obj_a1 : value :=
  VObject {[ "a" := VNumber (S754_finite false 4503599627370496 (-52)) ]}.

(** [n] arrays inside one another around [x], and the text written for
    them around the text [t] of [x]. *)
Fixpoint nested (n : nat) (x : value) : value :=
  match n with
  | O => x
  | S n' => VArray [nested n' x]
  end.

Fixpoint nested_text (n : nat) (t : string) : string :=
  match n with
  | O => t
  | S n' => "[" +:+ nested_text n' t +:+ "]"
  end.

End Spec.

(** ** Character classes used in the proofs *)

(** An ASCII character that is not white space for [strings.TrimSpace]. *)
Definition nonspace_ascii (c : ascii) : bool :=
  (byte_of c <? 128)%N && negb (Strings.IsSpace (byte_of c)).

(** An ASCII character that stands for itself inside a JSON string: not a
    control character, not a double quote, not a backslash. *)
Definition plain_char (c : ascii) : bool :=
  in_range 32 127 c && negb (is_byte 34 c) && negb (is_byte 92 c).

Fixpoint plain (s : string) : bool :=
  match s with
  | EmptyString => true
  | String c r => plain_char c && plain r
  end.

(** What may follow a value inside a document: nothing, a comma, or the end
    of an array or of an object. *)
Definition delim (rest : string) : bool :=
  match rest with
  | EmptyString => true
  | String c _ => is_byte 44 c || is_byte 93 c || is_byte 125 c
  end.

(** The characters of a number literal. *)
Definition numchar (c : ascii) : bool :=
  Strconv.is_digit c || is_byte 45 c || is_byte 43 c || is_byte 46 c
  || is_byte 101 c || is_byte 69 c.

(** Every character of [s] is in the class [p]. *)
Fixpoint all_chars (p : ascii -> bool) (s : string) : bool :=
  match s with
  | EmptyString => true
  | String c r => p c && all_chars p r
  end.

Definition is_ascii (c : ascii) : bool := (byte_of c <? 128)%N.

(** The first, the last character of [t] is in the class [p]. *)
Definition starts (p : ascii -> bool) (t : string) : bool :=
  match t with
  | String c _ => p c
  | EmptyString => false
  end.

Fixpoint ends (p : ascii -> bool) (t : string) : bool :=
  match t with
  | EmptyString => false
  | String c r =>
      match r with
      | EmptyString => p c
      | _ => ends p r
      end
  end.

(** The first character of the text of a value. *)
Definition value_head (c : ascii) : bool :=
  nonspace_ascii c && negb (is_byte 93 c).

(** [a] followed by anything is as valid as what follows. *)
Definition vprefix (a : string) : Prop :=
  forall b, Utf8.Valid (a +:+ b) = Utf8.Valid b.

(** [reads r x rest]: the parser's result [r] is the value [x] with [rest]
    left, unless its bound was reached. *)
Definition reads (r : Json.res (value * string)) (x : value) (rest : string) : Prop :=
  r = Json.Ok (x, rest) \/ r = Json.OutOfFuel.

(** The literal written for the number that a literal is read as. *)
Definition rewrite_number (neg : bool) (i f : string) (eneg : bool) (e : string)
  : option string :=
  match Strconv.ParseFloat (Strconv.NumLit neg i f eneg e) with
  | Some x => JsonEncode.FormatFloat x
  | None => None
  end.

(** ** Payloads *)

(** The string gets past the early returns of [DecodeBase64String]: it is
    Base64 and its bytes are valid UTF-8. *)
Definition text_candidate (s : string) : bool :=
  IsBase64 s &&
  match Base64.DecodeString s with
  | Some decoded => Utf8.Valid decoded
  | None => false
  end.

(** A payload: a string that is not empty, is Base64, and whose bytes are
    valid UTF-8. *)
Definition is_payload (s : string) : bool :=
  negb (Json.is_empty s) && text_candidate s.

(** Some string leaf of the value is a payload. *)
Fixpoint has_payload (data : value) : bool :=
  match data with
  | VObject m => map_fold (fun _ v acc => has_payload v || acc) false m
  | VArray l => existsb has_payload l
  | VString s => is_payload s
  | _ => false
  end.

(** Every string and every key of the value is valid UTF-8. *)
Fixpoint utf8_value (data : value) : bool :=
  match data with
  | VObject m =>
      map_fold (fun k v acc => Utf8.Valid k && utf8_value v && acc) true m
  | VArray l => forallb utf8_value l
  | VString s => Utf8.Valid s
  | _ => true
  end.

(** The value is an object or an array. *)
Definition is_container (x : value) : bool :=
  match x with
  | VObject _ | VArray _ => true
  | _ => false
  end.

(** The ASCII white space of [unicode.IsSpace]: tab, line feed, vertical
    tab, form feed, carriage return, space. *)
Definition ascii_space (c : ascii) : bool :=
  in_range 9 13 c || is_byte 32 c.

(** What may follow a number literal in a text: nothing, or a character
    that continues neither its digits, nor its fraction, nor its
    exponent. *)
Definition number_stop (rest : string) : bool :=
  match rest with
  | EmptyString => true
  | String c _ =>
      negb (Strconv.is_digit c || is_byte 46 c || is_byte 101 c || is_byte 69 c)
  end.

(** ** Documents of the tests and of the help text *)

Definition plain_doc : value :=
  VObject {[ "name" := VString "not-base64";
             "tags" := VArray [VString "abc"; VNull; VBool true] ]}.

Definition doc_key_value : value := VObject {[ "key" := VString "value" ]}.

Definition doc_key_value_text : string :=
  "{" +:+ Spec.dquote +:+ "key" +:+ Spec.dquote +:+ ":"
  +:+ Spec.dquote +:+ "value" +:+ Spec.dquote +:+ "}".

Definition doc_data : value := VObject {[ "data" := VString "SGVsbG8=" ]}.

Definition doc_data_text : string :=
  "{" +:+ Spec.dquote +:+ "data" +:+ Spec.dquote +:+ ":"
  +:+ Spec.dquote +:+ "SGVsbG8=" +:+ Spec.dquote +:+ "}".

Definition doc_data_out : string :=
  "{" +:+ Spec.dquote +:+ "data" +:+ Spec.dquote +:+ ":"
  +:+ Spec.dquote +:+ "Hello" +:+ Spec.dquote +:+ "}".

(** A pipe that holds [data], where no file can be opened. *)
Definition piped (data : string) : Cli.system :=
  {| Cli.stdin_stat := Some false;
     Cli.stdin_data := inl data;
     Cli.open_file := fun _ => Cli.OpenError "no such file or directory" |}.

(** A terminal on standard input, and one file, [name], that holds
    [data]. *)
Definition with_file (name data : string) : Cli.system :=
  {| Cli.stdin_stat := Some true;
     Cli.stdin_data := inl "";
     Cli.open_file := fun n =>
       if String.eqb n name then Cli.Content data
       else Cli.OpenError "no such file or directory" |}.

(** ** Invariants of the parser, used in the proofs *)

(** [after_ascii s rest]: [rest] is what is left of [s] once some ASCII
    characters have been read. *)
Inductive after_ascii : string -> string -> Prop :=
| aa_refl s : after_ascii s s
| aa_step c s rest :
    (byte_of c < 128)%N -> after_ascii s rest -> after_ascii (String c s) rest.

#[local] Hint Constructors after_ascii : core.

(** A value parsed out of well-formed UTF-8 leaves well-formed UTF-8 and
    holds only strings shorter than the text read for it. *)
Definition value_inv (fuel : nat) : Prop :=
  forall depth s v rest,
    Json.parse_value fuel depth s = Json.Ok (v, rest) ->
    Utf8.Valid s = true ->
    Utf8.Valid rest = true /\ maxstr v + String.length rest < String.length s.

Definition elements_inv (fuel : nat) : Prop :=
  forall depth acc s v rest,
    Json.parse_elements fuel depth acc s = Json.Ok (v, rest) ->
    Utf8.Valid s = true ->
    Utf8.Valid rest = true /\ String.length rest < String.length s /\
    forall n, Forall (fun x => maxstr x <= n) acc ->
              String.length s <= n + String.length rest -> maxstr v <= n.

Definition members_inv (fuel : nat) : Prop :=
  forall depth m s v rest,
    Json.parse_members fuel depth m s = Json.Ok (v, rest) ->
    Utf8.Valid s = true ->
    Utf8.Valid rest = true /\ String.length rest < String.length s /\
    forall n, map_Forall (fun _ x => maxstr x <= n) m ->
              String.length s <= n + String.length rest -> maxstr v <= n.

(** Every call of the parser reads at least one character. *)
Definition value_consumes (fuel : nat) : Prop :=
  forall depth s v rest,
    Json.parse_value fuel depth s = Json.Ok (v, rest) ->
    String.length rest < String.length s.

Definition elements_consumes (fuel : nat) : Prop :=
  forall depth acc s v rest,
    Json.parse_elements fuel depth acc s = Json.Ok (v, rest) ->
    String.length rest < String.length s.

Definition members_consumes (fuel : nat) : Prop :=
  forall depth m s v rest,
    Json.parse_members fuel depth m s = Json.Ok (v, rest) ->
    String.length rest < String.length s.


(** * Properties *)

(** ** Induction on JSON values *)

Lemma vsize_lookup (m : gmap string value) (k : string) (v : value) :
  m !! k = Some v -> vsize v < vsize (VObject m).
Proof.
  intros Hk. cbn [vsize].
  rewrite (map_fold_delete_L _ _ k v m); [lia | intros; lia | exact Hk].
Qed.

Lemma vsize_elem (l : list value) (v : value) :
  v ∈ l -> vsize v < vsize (VArray l).
Proof.
  intros Hv. cbn [vsize].
  induction Hv as [x l | x y l _ IH]; cbn [foldr]; lia.
Qed.

Section value_induction.
Variable P : value -> Prop.
Hypothesis Hnull : P VNull.
Hypothesis Hbool : forall b, P (VBool b).
Hypothesis Hnum : forall f, P (VNumber f).
Hypothesis Hstr : forall s, P (VString s).
Hypothesis Harr : forall l, Forall P l -> P (VArray l).
Hypothesis Hobj : forall m, map_Forall (fun _ v => P v) m -> P (VObject m).

Lemma value_ind_nested : forall v, P v.
Proof.
  intros v. remember (vsize v) as n eqn:Hn.
  revert v Hn. induction n as [n IH] using lt_wf_ind.
  intros [| b | f | s | l | m] Hn; auto.
  - apply Harr, Forall_forall. intros x Hx.
    apply (IH (vsize x)); [|reflexivity].
    subst n. by apply vsize_elem.
  - apply Hobj. intros k x Hk.
    apply (IH (vsize x)); [|reflexivity].
    subst n. by apply (vsize_lookup m k).
Qed.
End value_induction.

(** ** The longest string of a tree *)

Lemma maxstr_object_le (m : gmap string value) (n : nat) :
  maxstr (VObject m) <= n <-> map_Forall (fun _ v => maxstr v <= n) m.
Proof.
  cbn [maxstr].
  induction m as [|k v m Hk Hfold IH] using map_first_key_ind.
  - rewrite map_fold_empty. split; [intros _; apply map_Forall_empty | lia].
  - rewrite map_fold_insert_first_key by done.
    rewrite map_Forall_insert by done. rewrite <- IH. lia.
Qed.

Lemma maxstr_array_le (l : list value) (n : nat) :
  maxstr (VArray l) <= n <-> Forall (fun v => maxstr v <= n) l.
Proof.
  cbn [maxstr]. induction l as [|x l IH]; cbn [foldr].
  - split; [constructor | lia].
  - rewrite Forall_cons, <- IH. lia.
Qed.

Lemma maxstr_lookup (m : gmap string value) (k : string) (v : value) :
  m !! k = Some v -> maxstr v <= maxstr (VObject m).
Proof.
  intros Hk.
  assert (map_Forall (fun _ v => maxstr v <= maxstr (VObject m)) m) as H
    by (by apply maxstr_object_le).
  exact (H k v Hk).
Qed.

Lemma maxstr_elem (l : list value) (v : value) :
  v ∈ l -> maxstr v <= maxstr (VArray l).
Proof.
  intros Hv.
  assert (Forall (fun v => maxstr v <= maxstr (VArray l)) l) as H
    by (by apply maxstr_array_le).
  rewrite Forall_forall in H. by apply H.
Qed.

(** ** Base64: a decoded text is at most three quarters of its encoding *)

Lemma length_app_string (a b : string) :
  String.length (a +:+ b) = String.length a + String.length b.
Proof. induction a as [|c a IH]; simpl; [reflexivity | by rewrite IH]. Qed.

Lemma decode_length (src : string) :
  forall (dbuf : list N) (d : string),
    Base64.decode dbuf src = Some d ->
    4 * String.length d <= 3 * (String.length src + length dbuf).
Proof.
  induction src as [|c rest IH]; intros dbuf d; cbn [Base64.decode].
  - destruct dbuf; [|discriminate]. intros [= <-]. cbn. lia.
  - destruct (Base64.decodeMap c) as [x|].
    + destruct dbuf as [|d2 [|d1 [|d0 [|d' dbuf]]]];
        try (intros H; apply IH in H; cbn [String.length length] in *; lia).
      destruct (Base64.decode [] rest) as [d'|] eqn:Hd; [|discriminate].
      intros [= <-]. apply IH in Hd. rewrite length_app_string.
      cbn [Base64.bytes3 String.length length] in *. lia.
    + destruct (Base64.is_newline c).
      { intros H. apply IH in H. cbn [String.length]. lia. }
      destruct (Ascii.eqb c Base64.padChar); [|discriminate].
      destruct dbuf as [|d1 [|d0 [|d2 [|d' dbuf]]]]; try discriminate.
      * destruct (Base64.skip_newlines rest) as [|c' rest']; [discriminate|].
        destruct (Ascii.eqb c' Base64.padChar); [|discriminate].
        destruct (Base64.skip_newlines rest'); [|discriminate].
        intros [= <-]. cbn. lia.
      * destruct (Base64.skip_newlines rest); [|discriminate].
        intros [= <-]. cbn. lia.
Qed.

Lemma DecodeString_length (s d : string) :
  Base64.DecodeString s = Some d -> 4 * String.length d <= 3 * String.length s.
Proof.
  intros H. apply decode_length in H. cbn [length] in H. lia.
Qed.

(** ** UTF-8 validity along the parser *)

Lemma Valid_ascii (c : ascii) (r : string) :
  (byte_of c < 128)%N -> Utf8.Valid (String c r) = Utf8.Valid r.
Proof.
  intros Hc. cbn [Utf8.Valid]. unfold Utf8.DecodeRune, Utf8.lead.
  destruct (N.ltb_spec (byte_of c) 128); [reflexivity | lia].
Qed.

Lemma is_byte_eq (n : N) (c : ascii) : is_byte n c = true -> byte_of c = n.
Proof. unfold is_byte. apply N.eqb_eq. Qed.

Lemma in_range_bounds (lo hi : N) (c : ascii) :
  in_range lo hi c = true -> (lo <= byte_of c <= hi)%N.
Proof.
  unfold in_range. rewrite andb_true_iff, !N.leb_le. tauto.
Qed.

Lemma after_ascii_valid (s rest : string) :
  after_ascii s rest -> Utf8.Valid s = true -> Utf8.Valid rest = true.
Proof.
  induction 1 as [|c s rest Hc _ IH]; [done|].
  rewrite Valid_ascii by done. exact IH.
Qed.

Lemma after_ascii_length (s rest : string) :
  after_ascii s rest -> String.length rest <= String.length s.
Proof. induction 1; cbn [String.length]; lia. Qed.

Lemma after_ascii_trans (a b c : string) :
  after_ascii a b -> after_ascii b c -> after_ascii a c.
Proof. induction 1; eauto. Qed.

Lemma after_ascii_byte (n : N) (c : ascii) (s rest : string) :
  is_byte n c = true -> (n < 128)%N -> after_ascii s rest ->
  after_ascii (String c s) rest.
Proof. intros Hc Hn H. apply is_byte_eq in Hc. constructor; [lia | done]. Qed.

Lemma after_ascii_range (lo hi : N) (c : ascii) (s rest : string) :
  in_range lo hi c = true -> (hi < 128)%N -> after_ascii s rest ->
  after_ascii (String c s) rest.
Proof. intros Hc Hn H. apply in_range_bounds in Hc. constructor; [lia | done]. Qed.

Lemma skip_ws_after (s : string) : after_ascii s (Json.skip_ws s).
Proof.
  induction s as [|c s IH]; cbn [Json.skip_ws]; [done|].
  destruct (Json.isSpace c) eqn:Hc; [|done].
  unfold Json.isSpace in Hc. rewrite !orb_true_iff in Hc.
  destruct Hc as [[[Hc|Hc]|Hc]|Hc]; by eapply after_ascii_byte.
Qed.

Lemma span_digits_after (s d rest : string) :
  Json.span_digits s = (d, rest) ->
  after_ascii s rest /\ String.length d + String.length rest = String.length s.
Proof.
  revert d rest. induction s as [|c s IH]; intros d rest; cbn [Json.span_digits].
  - intros [= <- <-]. done.
  - destruct (Strconv.is_digit c) eqn:Hc.
    + destruct (Json.span_digits s) as [d' rest'].
      intros [= <- <-]. destruct (IH _ _ eq_refl) as [Ha Hl].
      split; [by eapply after_ascii_range | cbn [String.length]; lia].
    + intros [= <- <-]. done.
Qed.

Lemma is_empty_length (s : string) :
  Json.is_empty s = false -> 0 < String.length s.
Proof. destruct s; [discriminate | cbn; lia]. Qed.

Lemma scan_exp_after (sign : bool) (int frac s : string) l rest :
  Json.scan_exp sign int frac s = Some (l, rest) -> after_ascii s rest.
Proof.
  unfold Json.scan_exp. destruct s as [|c r]; [by intros [= <- <-]|].
  destruct (is_byte 101 c || is_byte 69 c) eqn:Hc; [|by intros [= <- <-]].
  assert (byte_of c < 128)%N as Hc'.
  { rewrite orb_true_iff in Hc. destruct Hc as [Hc|Hc]; apply is_byte_eq in Hc; lia. }
  assert (forall r1, after_ascii r r1 ->
            (let '(es, r2) := Json.span_digits r1 in
             if Json.is_empty es then None
             else Some (Strconv.NumLit sign int frac false es, r2)) = Some (l, rest) \/
            (let '(es, r2) := Json.span_digits r1 in
             if Json.is_empty es then None
             else Some (Strconv.NumLit sign int frac true es, r2)) = Some (l, rest) ->
            after_ascii (String c r) rest) as Hk.
  { intros r1 Hr1 H. destruct (Json.span_digits r1) as [es r2] eqn:Hs.
    apply span_digits_after in Hs as [Hs _].
    assert (r2 = rest) as <-.
    { destruct (Json.is_empty es); destruct H as [H|H]; congruence. }
    constructor; [done|]. by eapply after_ascii_trans. }
  destruct r as [|c' r'].
  - intros H. apply (Hk ""); [done | by left].
  - destruct (is_byte 43 c') eqn:H43.
    + intros H. apply (Hk r'); [by eapply after_ascii_byte | by left].
    + destruct (is_byte 45 c') eqn:H45.
      * intros H. apply (Hk r'); [by eapply after_ascii_byte | by right].
      * intros H. apply (Hk (String c' r')); [done | by left].
Qed.

Lemma scan_frac_after (sign : bool) (int s : string) l rest :
  Json.scan_frac sign int s = Some (l, rest) -> after_ascii s rest.
Proof.
  unfold Json.scan_frac. destruct s as [|c r]; [apply scan_exp_after|].
  destruct (is_byte 46 c) eqn:Hc; [|apply scan_exp_after].
  destruct (Json.span_digits r) as [fs r'] eqn:Hs.
  apply span_digits_after in Hs as [Hs _].
  destruct (Json.is_empty fs); [discriminate|].
  intros H. apply scan_exp_after in H.
  eapply after_ascii_byte; [done.. |]. by eapply after_ascii_trans.
Qed.

Lemma scan_number_after (s : string) l rest :
  Json.scan_number s = Some (l, rest) ->
  after_ascii s rest /\ String.length rest < String.length s.
Proof.
  unfold Json.scan_number.
  assert (forall sign s1, after_ascii s s1 ->
    match s1 with
    | String c r =>
        if is_byte 48 c then Json.scan_frac sign (String c "") r
        else if in_range 49 57 c then
          let '(ds, r') := Json.span_digits r in Json.scan_frac sign (String c ds) r'
        else None
    | EmptyString => None
    end = Some (l, rest) ->
    after_ascii s rest /\ String.length rest < String.length s) as Hk.
  { intros sign [|c r] Hs1; [discriminate|].
    assert (forall r', after_ascii r r' -> after_ascii r' rest ->
              (byte_of c < 128)%N ->
              after_ascii s rest /\ String.length rest < String.length s) as Hfin.
    { intros r' H1 H2 Hc.
      assert (after_ascii r rest) as H3 by by eapply after_ascii_trans.
      split; [eapply after_ascii_trans; [exact Hs1 | by constructor]|].
      apply after_ascii_length in H3, Hs1. cbn [String.length] in Hs1. lia. }
    destruct (is_byte 48 c) eqn:H0.
    - intros H. apply scan_frac_after in H. apply is_byte_eq in H0.
      apply (Hfin r); [done | done | lia].
    - destruct (in_range 49 57 c) eqn:H1; [|discriminate].
      destruct (Json.span_digits r) as [ds r'] eqn:Hs.
      apply span_digits_after in Hs as [Hs _].
      intros H. apply scan_frac_after in H. apply in_range_bounds in H1.
      apply (Hfin r'); [done | done | lia]. }
  destruct s as [|c r]; [discriminate|].
  destruct (is_byte 45 c) eqn:Hc.
  - intros H. apply (Hk true r); [by eapply after_ascii_byte | exact H].
  - intros H. apply (Hk false (String c r)); [done | exact H].
Qed.

Lemma strip_prefix_after (p s rest : string) :
  Json.strip_prefix p s = Some rest ->
  (forall c, In c (list_ascii_of_string p) -> (byte_of c < 128)%N) ->
  after_ascii s rest.
Proof.
  revert s. induction p as [|a p IH]; intros s; cbn [Json.strip_prefix].
  - by intros [= <-].
  - destruct s as [|b s]; [discriminate|].
    destruct (Ascii.eqb_spec a b) as [<-|]; [|discriminate].
    intros H Hp. constructor.
    + apply Hp. cbn. by left.
    + apply IH; [done|]. intros c Hc. apply Hp. cbn. by right.
Qed.

Lemma EncodeRune_length (r : N) : String.length (Utf8.EncodeRune r) <= 4.
Proof.
  unfold Utf8.EncodeRune.
  repeat match goal with |- context [if ?b then _ else _] => destruct b end;
    cbn [String.length]; lia.
Qed.

Lemma replacement_length : String.length Json.replacement = 3.
Proof. reflexivity. Qed.

Lemma flush_length (pend : option N) : String.length (Json.flush pend) <= 3.
Proof. destruct pend; cbn [Json.flush]; [rewrite replacement_length | cbn]; lia. Qed.

Lemma emit_Some (o : string) k str rest :
  Json.emit o k = Some (str, rest) ->
  exists str', k = Some (str', rest) /\ str = o +:+ str'.
Proof.
  unfold Json.emit. destruct k as [[str' rest']|]; [|discriminate].
  intros [= <- <-]. eauto.
Qed.

Lemma hex_val_ascii (h : ascii) (a : N) :
  Json.hex_val h = Some a -> (byte_of h < 128)%N.
Proof.
  unfold Json.hex_val.
  destruct (in_range 48 57 h) eqn:H1; [apply in_range_bounds in H1; lia|].
  destruct (in_range 97 102 h) eqn:H2; [apply in_range_bounds in H2; lia|].
  destruct (in_range 65 70 h) eqn:H3; [apply in_range_bounds in H3; lia|].
  discriminate.
Qed.

Lemma getu4_ascii (h1 h2 h3 h4 : ascii) (rr : N) :
  Json.getu4 h1 h2 h3 h4 = Some rr ->
  (byte_of h1 < 128 /\ byte_of h2 < 128 /\ byte_of h3 < 128 /\ byte_of h4 < 128)%N.
Proof.
  unfold Json.getu4.
  destruct (Json.hex_val h1) eqn:E1; [|discriminate].
  destruct (Json.hex_val h2) eqn:E2; [|discriminate].
  destruct (Json.hex_val h3) eqn:E3; [|discriminate].
  destruct (Json.hex_val h4) eqn:E4; [|discriminate].
  intros _. repeat split; eapply hex_val_ascii; eassumption.
Qed.

Lemma esc_char_ascii (e x : ascii) :
  Json.esc_char e = Some x -> (byte_of e < 128)%N.
Proof.
  unfold Json.esc_char.
  repeat match goal with
         | |- context [if is_byte ?n e then _ else _] =>
             let H := fresh in
             destruct (is_byte n e) eqn:H; [apply is_byte_eq in H; lia|]
         end.
  discriminate.
Qed.

Lemma u_step_length (pend : option N) (rr : N) o p :
  Json.u_step pend rr = (o, p) ->
  String.length o + String.length (Json.flush p)
  <= 6 + String.length (Json.flush pend).
Proof.
  assert (forall o' p', Json.u_alone rr = (o', p') ->
            String.length o' + String.length (Json.flush p') <= 4) as Halone.
  { unfold Json.u_alone. intros o' p'.
    destruct (Json.is_high rr); [intros [= <- <-]; cbn; lia|].
    destruct (Json.is_low rr); intros [= <- <-]; cbn [Json.flush String.length].
    - rewrite replacement_length. lia.
    - pose proof (EncodeRune_length rr). lia. }
  unfold Json.u_step. destruct pend as [hi|].
  - destruct (Json.is_low rr).
    + intros [= <- <-]. pose proof (EncodeRune_length (Json.combine hi rr)).
      cbn [Json.flush String.length]. lia.
    + destruct (Json.u_alone rr) as [o' p']. intros [= <- <-].
      specialize (Halone o' p' eq_refl). rewrite length_app_string.
      cbn [Json.flush]. rewrite replacement_length. lia.
  - intros H. apply Halone in H. cbn [Json.flush String.length]. lia.
Qed.

(** Reading a string out of well-formed UTF-8 leaves well-formed UTF-8 and
    yields no more bytes than it reads. *)
Lemma unquote_inv (n : nat) :
  forall s pend str rest,
    String.length s <= n -> Utf8.Valid s = true ->
    Json.unquote pend s = Some (str, rest) ->
    Utf8.Valid rest = true /\
    String.length str + String.length rest + 1
    <= String.length s + String.length (Json.flush pend).
Proof.
  induction n as [n IH] using lt_wf_ind.
  intros [|c r0] pend str rest Hn Hv; [discriminate|].
  cbn [Json.unquote]. cbn [String.length] in Hn.
  destruct (is_byte 34 c) eqn:Hq.
  { intros [= <- <-]. apply is_byte_eq in Hq.
    rewrite Valid_ascii in Hv by lia. split; [done | cbn [String.length]; lia]. }
  destruct (is_byte 92 c) eqn:Hb.
  { apply is_byte_eq in Hb. rewrite Valid_ascii in Hv by lia.
    destruct r0 as [|e r1]; [discriminate|].
    destruct (is_byte 117 e) eqn:Hu.
    - apply is_byte_eq in Hu. rewrite Valid_ascii in Hv by lia.
      destruct r1 as [|h1 [|h2 [|h3 [|h4 r2]]]]; try discriminate.
      destruct (Json.getu4 h1 h2 h3 h4) as [rr|] eqn:Hg; [|discriminate].
      apply getu4_ascii in Hg as (G1 & G2 & G3 & G4).
      rewrite !Valid_ascii in Hv by done.
      destruct (Json.u_step pend rr) as [o p] eqn:Hs.
      intros H. apply emit_Some in H as (str' & H & ->).
      apply u_step_length in Hs. cbn [String.length] in Hn.
      apply (IH (String.length r2)) in H as [H1 H2]; [|lia|lia|done].
      split; [done|]. rewrite length_app_string. cbn [String.length]. lia.
    - destruct (Json.esc_char e) as [x|] eqn:He; [|discriminate].
      apply esc_char_ascii in He. rewrite Valid_ascii in Hv by done.
      intros H. apply emit_Some in H as (str' & H & ->).
      cbn [String.length] in Hn.
      apply (IH (String.length r1)) in H as [H1 H2]; [|lia|lia|done].
      split; [done|]. rewrite !length_app_string.
      cbn [String.length Json.flush] in *. lia. }
  destruct (byte_of c <? 32)%N; [discriminate|].
  cbn [Utf8.Valid] in Hv.
  destruct (Utf8.DecodeRune (String c r0)) as [[x [|[|[|[|[|k]]]]]]|];
    try discriminate.
  - intros H. apply emit_Some in H as (str' & H & ->).
    apply (IH (String.length r0)) in H as [H1 H2]; [|lia|lia|done].
    split; [done|]. rewrite !length_app_string.
    cbn [String.length Json.flush] in *. lia.
  - destruct r0 as [|c1 r1]; [discriminate|].
    intros H. apply emit_Some in H as (str' & H & ->).
    cbn [String.length] in Hn.
    apply (IH (String.length r1)) in H as [H1 H2]; [|lia|lia|done].
    split; [done|]. rewrite !length_app_string.
    cbn [String.length Json.flush] in *. lia.
  - destruct r0 as [|c1 [|c2 r2]]; try discriminate.
    intros H. apply emit_Some in H as (str' & H & ->).
    cbn [String.length] in Hn.
    apply (IH (String.length r2)) in H as [H1 H2]; [|lia|lia|done].
    split; [done|]. rewrite !length_app_string.
    cbn [String.length Json.flush] in *. lia.
  - destruct r0 as [|c1 [|c2 [|c3 r3]]]; try discriminate.
    intros H. apply emit_Some in H as (str' & H & ->).
    cbn [String.length] in Hn.
    apply (IH (String.length r3)) in H as [H1 H2]; [|lia|lia|done].
    split; [done|]. rewrite !length_app_string.
    cbn [String.length Json.flush] in *. lia.
Qed.

(** ** Every string of a parsed document is shorter than the document *)

Lemma skip_ws_cons_after (s : string) (c : ascii) (r : string) (n : N) :
  Json.skip_ws s = String c r -> is_byte n c = true -> (n < 128)%N ->
  after_ascii s r /\ String.length r < String.length s.
Proof.
  intros Hs Hc Hn. pose proof (skip_ws_after s) as Ha. rewrite Hs in Ha.
  assert (after_ascii s r) as Hr.
  { eapply after_ascii_trans; [exact Ha|]. by eapply after_ascii_byte. }
  split; [done|]. apply after_ascii_length in Ha. cbn [String.length] in Ha. lia.
Qed.

Lemma parse_value_inv_step (fuel : nat) :
  elements_inv fuel -> members_inv fuel -> value_inv (S fuel).
Proof.
  intros IHe IHm depth s v rest. cbn [Json.parse_value].
  destruct (Json.skip_ws s) as [|c r] eqn:Hs; [discriminate|].
  intros H Hv.
  pose proof (skip_ws_after s) as Hws. rewrite Hs in Hws.
  pose proof (after_ascii_valid _ _ Hws Hv) as Hv1.
  pose proof (after_ascii_length _ _ Hws) as Hl1. cbn [String.length] in Hl1.
  destruct (is_byte 123 c) eqn:C1.
  { destruct depth as [|depth']; [discriminate|].
    apply is_byte_eq in C1. rewrite Valid_ascii in Hv1 by lia.
    destruct (Json.skip_ws r) as [|c' r'] eqn:Hs'; [discriminate|].
    pose proof (skip_ws_after r) as Hws'.
    pose proof (after_ascii_valid _ _ Hws' Hv1) as Hv2.
    pose proof (after_ascii_length _ _ Hws') as Hl2.
    rewrite Hs' in Hws', Hv2, Hl2. cbn [String.length] in Hl2.
    destruct (is_byte 125 c') eqn:C2.
    - injection H as <- <-. apply is_byte_eq in C2.
      rewrite Valid_ascii in Hv2 by lia. split; [done|].
      cbn [maxstr]. rewrite map_fold_empty. lia.
    - apply IHm in H as (H1 & H2 & H3); [assumption|].
      split; [done|]. cbn [String.length] in H2.
      specialize (H3 (String.length (String c' r') - String.length rest)).
      cbn [String.length] in H3.
      assert (maxstr v <= S (String.length r') - String.length rest) as Hm.
      { apply H3; [apply map_Forall_empty | lia]. }
      lia. }
  destruct (is_byte 91 c) eqn:C3.
  { destruct depth as [|depth']; [discriminate|].
    apply is_byte_eq in C3. rewrite Valid_ascii in Hv1 by lia.
    destruct (Json.skip_ws r) as [|c' r'] eqn:Hs'; [discriminate|].
    pose proof (skip_ws_after r) as Hws'.
    pose proof (after_ascii_valid _ _ Hws' Hv1) as Hv2.
    pose proof (after_ascii_length _ _ Hws') as Hl2.
    rewrite Hs' in Hws', Hv2, Hl2. cbn [String.length] in Hl2.
    destruct (is_byte 93 c') eqn:C2.
    - injection H as <- <-. apply is_byte_eq in C2.
      rewrite Valid_ascii in Hv2 by lia. split; [done|].
      cbn [maxstr foldr]. lia.
    - apply IHe in H as (H1 & H2 & H3); [assumption|].
      split; [done|]. cbn [String.length] in H2.
      specialize (H3 (String.length (String c' r') - String.length rest)).
      cbn [String.length] in H3.
      assert (maxstr v <= S (String.length r') - String.length rest) as Hm.
      { apply H3; [constructor | lia]. }
      lia. }
  destruct (is_byte 34 c) eqn:C4.
  { apply is_byte_eq in C4. rewrite Valid_ascii in Hv1 by lia.
    destruct (Json.unquote None r) as [[str rest']|] eqn:Hu; [|discriminate].
    injection H as <- <-.
    apply (unquote_inv (String.length r)) in Hu as [H1 H2]; [|lia|done].
    split; [done|]. cbn [maxstr Json.flush String.length] in *. lia. }
  assert (forall p x, Json.strip_prefix p r = Some rest ->
            (forall a, In a (list_ascii_of_string p) -> (byte_of a < 128)%N) ->
            (byte_of c < 128)%N -> v = x -> maxstr x = 0 ->
            Utf8.Valid rest = true /\
            maxstr v + String.length rest < String.length s) as Hlit.
  { intros p x Hp Hall Hc -> Hx. apply strip_prefix_after in Hp; [|done].
    rewrite Valid_ascii in Hv1 by done.
    split; [by eapply after_ascii_valid|].
    apply after_ascii_length in Hp. lia. }
  destruct (is_byte 116 c) eqn:C5.
  { destruct (Json.strip_prefix "rue" r) as [rest'|] eqn:Hp; [|discriminate].
    injection H as <- <-. apply is_byte_eq in C5.
    apply (Hlit "rue" (VBool true)); [done| |lia|done|done].
    intros a Ha. cbn in Ha. intuition subst; vm_compute; reflexivity. }
  destruct (is_byte 102 c) eqn:C6.
  { destruct (Json.strip_prefix "alse" r) as [rest'|] eqn:Hp; [|discriminate].
    injection H as <- <-. apply is_byte_eq in C6.
    apply (Hlit "alse" (VBool false)); [done| |lia|done|done].
    intros a Ha. cbn in Ha. intuition subst; vm_compute; reflexivity. }
  destruct (is_byte 110 c) eqn:C7.
  { destruct (Json.strip_prefix "ull" r) as [rest'|] eqn:Hp; [|discriminate].
    injection H as <- <-. apply is_byte_eq in C7.
    apply (Hlit "ull" VNull); [done| |lia|done|done].
    intros a Ha. cbn in Ha. intuition subst; vm_compute; reflexivity. }
  destruct (Json.scan_number (String c r)) as [[l rest']|] eqn:Hn; [|discriminate].
  destruct (Strconv.ParseFloat l); [|discriminate].
  injection H as <- <-. apply scan_number_after in Hn as [Hn1 Hn2].
  split; [by eapply after_ascii_valid|]. cbn [maxstr String.length] in *. lia.
Qed.

Lemma parse_elements_inv_step (fuel : nat) :
  value_inv fuel -> elements_inv fuel -> elements_inv (S fuel).
Proof.
  intros IHv IHe depth acc s v rest. cbn [Json.parse_elements].
  destruct (Json.parse_value fuel depth s) as [[v1 rest1]| |] eqn:Hp;
    try discriminate.
  intros H Hv. destruct (IHv _ _ _ _ Hp Hv) as [Hv1 Hl1].
  destruct (Json.skip_ws rest1) as [|c r] eqn:Hs; [discriminate|].
  destruct (is_byte 44 c) eqn:C1.
  { destruct (skip_ws_cons_after _ _ _ _ Hs C1) as [Ha Hl]; [lia|].
    destruct (IHe _ _ _ _ _ H (after_ascii_valid _ _ Ha Hv1)) as (H1 & H2 & H3).
    split; [done|]. split; [lia|].
    intros n Hacc Hn. apply H3; [|lia].
    constructor; [lia | done]. }
  destruct (is_byte 93 c) eqn:C2; [|discriminate].
  destruct (skip_ws_cons_after _ _ _ _ Hs C2) as [Ha Hl]; [lia|].
  injection H as <- <-.
  split; [by eapply after_ascii_valid|]. split; [lia|].
  intros n Hacc Hn. apply maxstr_array_le.
  apply Forall_app. split; [by apply Forall_rev | constructor; [lia | constructor]].
Qed.

Lemma parse_members_inv_step (fuel : nat) :
  value_inv fuel -> members_inv fuel -> members_inv (S fuel).
Proof.
  intros IHv IHm depth m s v rest. cbn [Json.parse_members].
  destruct (Json.skip_ws s) as [|q r] eqn:Hs; [discriminate|].
  destruct (is_byte 34 q) eqn:Cq; [|discriminate].
  intros H Hv.
  destruct (skip_ws_cons_after _ _ _ _ Hs Cq) as [Ha Hl]; [lia|].
  pose proof (after_ascii_valid _ _ Ha Hv) as Hvr.
  destruct (Json.unquote None r) as [[key r1]|] eqn:Hu; [|discriminate].
  apply (unquote_inv (String.length r)) in Hu as [Hv1 Hl1]; [|lia|done].
  cbn [Json.flush String.length] in Hl1.
  destruct (Json.skip_ws r1) as [|c r2] eqn:Hs1; [discriminate|].
  destruct (is_byte 58 c) eqn:Cc; [|discriminate].
  destruct (skip_ws_cons_after _ _ _ _ Hs1 Cc) as [Ha2 Hl2]; [lia|].
  pose proof (after_ascii_valid _ _ Ha2 Hv1) as Hv2.
  destruct (Json.parse_value fuel depth r2) as [[v1 rest1]| |] eqn:Hp;
    try discriminate.
  destruct (IHv _ _ _ _ Hp Hv2) as [Hv3 Hl3].
  destruct (Json.skip_ws rest1) as [|c' r3] eqn:Hs3; [discriminate|].
  destruct (is_byte 44 c') eqn:C1.
  { destruct (skip_ws_cons_after _ _ _ _ Hs3 C1) as [Ha3 Hl4]; [lia|].
    destruct (IHm _ _ _ _ _ H (after_ascii_valid _ _ Ha3 Hv3)) as (H1 & H2 & H3).
    split; [done|]. split; [lia|].
    intros n Hacc Hn. apply H3; [|lia].
    apply map_Forall_insert_2; [lia | done]. }
  destruct (is_byte 125 c') eqn:C2; [|discriminate].
  destruct (skip_ws_cons_after _ _ _ _ Hs3 C2) as [Ha3 Hl4]; [lia|].
  injection H as <- <-.
  split; [by eapply after_ascii_valid|]. split; [lia|].
  intros n Hacc Hn. apply maxstr_object_le.
  apply map_Forall_insert_2; [lia | done].
Qed.

Lemma parse_inv (fuel : nat) :
  value_inv fuel /\ elements_inv fuel /\ members_inv fuel.
Proof.
  induction fuel as [|fuel (IHv & IHe & IHm)].
  - unfold value_inv, elements_inv, members_inv.
    repeat split; intros; discriminate.
  - auto using parse_value_inv_step, parse_elements_inv_step,
      parse_members_inv_step.
Qed.

Lemma Unmarshal_maxstr (t : string) (v : value) :
  Utf8.Valid t = true -> Json.Unmarshal t = Some v ->
  maxstr v < String.length t.
Proof.
  unfold Json.Unmarshal. intros Hv.
  destruct (Json.parse_value _ _ t) as [[v' rest]| |] eqn:Hp; try discriminate.
  destruct (Json.is_empty (Json.skip_ws rest)); [|discriminate].
  intros [= <-]. destruct (proj1 (parse_inv _) _ _ _ _ Hp Hv) as [_ Hl]. lia.
Qed.

(** ** Trimming keeps UTF-8 well formed *)

Lemma lead_range (c0 : ascii) (k : nat) (lo hi : N) :
  Utf8.lead c0 = Some (k, (lo, hi)) ->
  (1 <= k <= 4) /\ (k = 1 \/ (128 <= lo /\ hi <= 191)%N).
Proof.
  unfold Utf8.lead.
  repeat match goal with
         | |- context [if ?b then _ else _] => destruct b
         end; intros [= <- <- <-]; lia.
Qed.

(** What a successful [DecodeRune] says about the bytes it read: they are
    [k] bytes, all but the first are continuation bytes, and the result
    does not depend on what follows them. *)
Lemma DecodeRune_inv (s : string) (x : N) (k : nat) :
  Utf8.DecodeRune s = Some (x, k) ->
  match k with
  | 1 => exists c0 r0, s = String c0 r0 /\ (byte_of c0 < 128)%N /\
           forall r', Utf8.DecodeRune (String c0 r') = Some (x, 1)
  | 2 => exists c0 c1 r1, s = String c0 (String c1 r1) /\
           Utf8.is_cont c1 = true /\
           forall r', Utf8.DecodeRune (String c0 (String c1 r')) = Some (x, 2)
  | 3 => exists c0 c1 c2 r2, s = String c0 (String c1 (String c2 r2)) /\
           Utf8.is_cont c1 = true /\ Utf8.is_cont c2 = true /\
           forall r', Utf8.DecodeRune (String c0 (String c1 (String c2 r')))
                      = Some (x, 3)
  | 4 => exists c0 c1 c2 c3 r3,
           s = String c0 (String c1 (String c2 (String c3 r3))) /\
           Utf8.is_cont c1 = true /\ Utf8.is_cont c2 = true /\
           Utf8.is_cont c3 = true /\
           forall r', Utf8.DecodeRune
                        (String c0 (String c1 (String c2 (String c3 r'))))
                      = Some (x, 4)
  | _ => False
  end.
Proof.
  destruct s as [|c0 r0]; [discriminate|]. unfold Utf8.DecodeRune.
  destruct (Utf8.lead c0) as [[size [lo hi]]|] eqn:Hl; [|discriminate].
  destruct (lead_range _ _ _ _ Hl) as [Hsz Hr].
  destruct size as [|[|size]]; [lia | |].
  { intros [= <- <-]. exists c0, r0. split; [done|].
    split; [|intros r'; by rewrite Hl].
    revert Hl. unfold Utf8.lead.
    destruct (N.ltb_spec (byte_of c0) 128); [done|].
    repeat match goal with
           | |- context [if ?b then _ else _] => destruct b
           end; discriminate. }
  destruct Hr as [Hr|[Hlo Hhi]]; [lia|].
  destruct r0 as [|c1 r1]; [discriminate|].
  destruct (in_range lo hi c1) eqn:H1; [|discriminate].
  assert (Utf8.is_cont c1 = true) as Hc1.
  { apply in_range_bounds in H1. unfold Utf8.is_cont, in_range.
    apply andb_true_iff. rewrite !N.leb_le. lia. }
  destruct size as [|size].
  { intros [= <- <-]. exists c0, c1, r1. repeat split; [done|].
    intros r'. by rewrite Hl, H1. }
  destruct r1 as [|c2 r2]; [discriminate|].
  destruct (Utf8.is_cont c2) eqn:H2; [|discriminate].
  destruct size as [|size].
  { intros [= <- <-]. exists c0, c1, c2, r2. repeat split; [done..|].
    intros r'. by rewrite Hl, H1, H2. }
  destruct r2 as [|c3 r3]; [discriminate|].
  destruct (Utf8.is_cont c3) eqn:H3; [|discriminate].
  destruct size as [|size]; [|lia].
  intros [= <- <-]. exists c0, c1, c2, c3, r3. repeat split; [done..|].
  intros r'. by rewrite Hl, H1, H2, H3.
Qed.

Lemma DecodeRune_cont (c : ascii) (r : string) :
  Utf8.is_cont c = true -> Utf8.DecodeRune (String c r) = None.
Proof.
  intros Hc. apply in_range_bounds in Hc.
  unfold Utf8.DecodeRune, Utf8.lead, in_range, is_byte.
  repeat match goal with
         | |- context [(?a <? ?b)%N] => destruct (N.ltb_spec a b); try lia
         | |- context [(?a <=? ?b)%N] => destruct (N.leb_spec a b); try lia
         | |- context [(?a =? ?b)%N] => destruct (N.eqb_spec a b); try lia
         end; reflexivity.
Qed.

Lemma trim_left_cont (c : ascii) (r : string) :
  Utf8.is_cont c = true -> Strings.trim_left (String c r) = String c r.
Proof.
  intros Hc. cbn [Strings.trim_left]. by rewrite DecodeRune_cont.
Qed.

Lemma all_space_cont (c : ascii) (r : string) :
  Utf8.is_cont c = true -> Strings.all_space (String c r) = false.
Proof.
  intros Hc. unfold Strings.all_space. by rewrite trim_left_cont.
Qed.

Lemma trim_left_inv (n : nat) :
  forall s, String.length s <= n -> Utf8.Valid s = true ->
    Utf8.Valid (Strings.trim_left s) = true /\
    String.length (Strings.trim_left s) <= String.length s.
Proof.
  induction n as [n IH] using lt_wf_ind.
  intros [|c0 r0] Hn Hv; [done|].
  assert (forall r, String.length r < String.length (String c0 r0) ->
            Utf8.Valid r = true ->
            Utf8.Valid (Strings.trim_left r) = true /\
            String.length (Strings.trim_left r) <= String.length (String c0 r0))
    as Hrec.
  { intros r Hr Hvr. destruct (IH (String.length r)) with (s := r) as [H1 H2];
      [lia | lia | done | split; [done | lia]]. }
  pose proof Hv as Hv0.
  cbn [Strings.trim_left]. cbn [Utf8.Valid] in Hv.
  destruct (Utf8.DecodeRune (String c0 r0)) as [[x [|[|[|[|[|k]]]]]]|];
    try discriminate.
  - destruct (Strings.IsSpace x); [|split; [exact Hv0 | done]].
    apply Hrec; [cbn; lia | done].
  - destruct r0 as [|c1 r1]; [discriminate|].
    destruct (Strings.IsSpace x); [|split; [exact Hv0 | done]].
    apply Hrec; [cbn; lia | done].
  - destruct r0 as [|c1 [|c2 r2]]; try discriminate.
    destruct (Strings.IsSpace x); [|split; [exact Hv0 | done]].
    apply Hrec; [cbn; lia | done].
  - destruct r0 as [|c1 [|c2 [|c3 r3]]]; try discriminate.
    destruct (Strings.IsSpace x); [|split; [exact Hv0 | done]].
    apply Hrec; [cbn; lia | done].
Qed.

Lemma trim_right_length (s : string) :
  String.length (Strings.trim_right s) <= String.length s.
Proof.
  induction s as [|c r IH]; cbn [Strings.trim_right]; [done|].
  destruct (Strings.all_space (String c r)); cbn [String.length]; lia.
Qed.

Lemma trim_right_valid (n : nat) :
  forall s, String.length s <= n -> Utf8.Valid s = true ->
    Utf8.Valid (Strings.trim_right s) = true.
Proof.
  induction n as [n IH] using lt_wf_ind.
  intros [|c0 r0] Hn Hv; [done|].
  cbn [Strings.trim_right].
  destruct (Strings.all_space (String c0 r0)); [done|].
  cbn [Utf8.Valid] in Hv. cbn [String.length] in Hn.
  destruct (Utf8.DecodeRune (String c0 r0)) as [[x k]|] eqn:Hd; [|discriminate].
  pose proof (DecodeRune_inv _ _ _ Hd) as Hinv.
  destruct k as [|[|[|[|[|k]]]]]; try discriminate.
  - destruct Hinv as (a0 & b0 & [= <- <-] & _ & Hk).
    cbn [Utf8.Valid]. rewrite Hk. apply (IH (String.length r0)); [lia | lia | done].
  - destruct Hinv as (a0 & a1 & b1 & [= <- ->] & C1 & Hk).
    cbn [Strings.trim_right]. rewrite (all_space_cont _ _ C1).
    cbn [Utf8.Valid]. rewrite Hk. cbn [String.length] in Hn.
    apply (IH (String.length b1)); [lia | lia | done].
  - destruct Hinv as (a0 & a1 & a2 & b2 & [= <- ->] & C1 & C2 & Hk).
    cbn [Strings.trim_right].
    rewrite (all_space_cont _ _ C1), (all_space_cont _ _ C2).
    cbn [Utf8.Valid]. rewrite Hk. cbn [String.length] in Hn.
    apply (IH (String.length b2)); [lia | lia | done].
  - destruct Hinv as (a0 & a1 & a2 & a3 & b3 & [= <- ->] & C1 & C2 & C3 & Hk).
    cbn [Strings.trim_right].
    rewrite (all_space_cont _ _ C1), (all_space_cont _ _ C2),
      (all_space_cont _ _ C3).
    cbn [Utf8.Valid]. rewrite Hk. cbn [String.length] in Hn.
    apply (IH (String.length b3)); [lia | lia | done].
Qed.

Lemma TrimSpace_valid (d : string) :
  Utf8.Valid d = true -> Utf8.Valid (Strings.TrimSpace d) = true.
Proof.
  intros Hv. unfold Strings.TrimSpace.
  apply (trim_right_valid (String.length (Strings.trim_left d))); [done|].
  by apply (trim_left_inv (String.length d)).
Qed.

Lemma TrimSpace_length (d : string) :
  Utf8.Valid d = true ->
  String.length (Strings.TrimSpace d) <= String.length d.
Proof.
  intros Hv. unfold Strings.TrimSpace.
  pose proof (trim_right_length (Strings.trim_left d)).
  destruct (trim_left_inv (String.length d) d) as [_ ?]; [done | done | lia].
Qed.

(** ** The recursion of the decoder is well founded *)

(** The document found inside a Base64 string holds only strings that are
    shorter than that Base64 string. *)
Lemma parsed_smaller (s decoded : string) (jsonObj : value) :
  Base64.DecodeString s = Some decoded ->
  Utf8.Valid decoded = true ->
  Json.Unmarshal (Strings.TrimSpace decoded) = Some jsonObj ->
  maxstr jsonObj < String.length s.
Proof.
  intros Hd Hv Hu.
  apply Unmarshal_maxstr in Hu; [|by apply TrimSpace_valid].
  pose proof (TrimSpace_length _ Hv). apply DecodeString_length in Hd. lia.
Qed.

Lemma DecodeBase64Fields_body_ext (f g : string -> value) (n : nat) (data : value) :
  maxstr data <= n ->
  (forall s, String.length s <= n -> f s = g s) ->
  DecodeBase64Fields_body f data = DecodeBase64Fields_body g data.
Proof.
  intros Hn Hfg. revert Hn.
  induction data as [| | | s | l IH | m IH] using value_ind_nested;
    intros Hn; cbn [DecodeBase64Fields_body]; try reflexivity.
  - apply Hfg. exact Hn.
  - f_equal. apply Forall_fmap_ext. apply maxstr_array_le in Hn.
    rewrite Forall_forall in IH, Hn |- *. intros x Hx. apply IH; auto.
  - f_equal. apply map_fmap_ext. intros k x Hk.
    apply maxstr_object_le in Hn. apply (IH k x Hk). exact (Hn k x Hk).
Qed.

Lemma DecodeBase64String_body_ext (f g : value -> value) (s : string) :
  (forall obj, maxstr obj < String.length s -> f obj = g obj) ->
  DecodeBase64String_body f s = DecodeBase64String_body g s.
Proof.
  intros Hfg. unfold DecodeBase64String_body.
  destruct (IsBase64 s); cbn [negb]; [|reflexivity].
  destruct (Base64.DecodeString s) as [decoded|] eqn:Hd; [|reflexivity].
  destruct (Utf8.Valid decoded) eqn:Hv; cbn [negb]; [|reflexivity].
  cbv zeta. destruct (IsValidJSON _); [|reflexivity].
  destruct (Json.Unmarshal _) as [jsonObj|] eqn:Hu; [|reflexivity].
  apply Hfg. by eapply parsed_smaller.
Qed.

Lemma unroll_stable (n : nat) :
  forall m data, maxstr data < n -> maxstr data < m ->
    unroll n data = unroll m data.
Proof.
  induction n as [|n IH]; intros [|m] data Hn Hm; try lia.
  cbn [unroll]. apply (DecodeBase64Fields_body_ext _ _ (maxstr data)); [done|].
  intros s Hs. apply DecodeBase64String_body_ext.
  intros obj Hobj. apply IH; lia.
Qed.

(** The defining equations of the two functions, as the source has them. *)
Lemma DecodeBase64Fields_unfold (data : value) :
  DecodeBase64Fields data = DecodeBase64Fields_body DecodeBase64String data.
Proof.
  unfold DecodeBase64Fields, DecodeBase64String. cbn [unroll].
  apply (DecodeBase64Fields_body_ext _ _ (maxstr data)); [done|].
  intros s Hs. apply DecodeBase64String_body_ext.
  intros obj Hobj. unfold DecodeBase64Fields. apply unroll_stable; lia.
Qed.

Lemma DecodeBase64Fields_object (m : gmap string value) :
  DecodeBase64Fields (VObject m) = VObject (DecodeBase64InMap m).
Proof.
  rewrite DecodeBase64Fields_unfold. cbn [DecodeBase64Fields_body].
  unfold DecodeBase64InMap. f_equal. apply map_fmap_ext.
  intros k x _. symmetry. apply DecodeBase64Fields_unfold.
Qed.

Lemma DecodeBase64Fields_array (l : list value) :
  DecodeBase64Fields (VArray l) = VArray (DecodeBase64InSlice l).
Proof.
  rewrite DecodeBase64Fields_unfold. cbn [DecodeBase64Fields_body].
  unfold DecodeBase64InSlice. f_equal. apply Forall_fmap_ext, Forall_forall.
  intros x _. symmetry. apply DecodeBase64Fields_unfold.
Qed.

Lemma DecodeBase64Fields_string (s : string) :
  DecodeBase64Fields (VString s) = DecodeBase64String s.
Proof. by rewrite DecodeBase64Fields_unfold. Qed.

(** The five ways [DecodeBase64String] returns. *)
Lemma DecodeBase64String_not_base64 (s : string) :
  IsBase64 s = false -> DecodeBase64String s = VString s.
Proof.
  intros H. unfold DecodeBase64String, DecodeBase64String_body. by rewrite H.
Qed.

Lemma DecodeBase64String_binary (s decoded : string) :
  Base64.DecodeString s = Some decoded -> Utf8.Valid decoded = false ->
  DecodeBase64String s = VString s.
Proof.
  intros Hd Hv. unfold DecodeBase64String, DecodeBase64String_body.
  rewrite Hd, Hv. by destruct (IsBase64 s).
Qed.

Lemma DecodeBase64String_text (s decoded : string) :
  IsBase64 s = true -> Base64.DecodeString s = Some decoded ->
  Utf8.Valid decoded = true ->
  IsValidJSON (Strings.TrimSpace decoded) = false ->
  DecodeBase64String s = VString (Strings.TrimSpace decoded).
Proof.
  intros Hb Hd Hv Hj. unfold DecodeBase64String, DecodeBase64String_body.
  rewrite Hb, Hd, Hv. cbn [negb]. cbv zeta. by rewrite Hj.
Qed.

Lemma DecodeBase64String_json (s decoded : string) (jsonObj : value) :
  IsBase64 s = true -> Base64.DecodeString s = Some decoded ->
  Utf8.Valid decoded = true ->
  Json.Unmarshal (Strings.TrimSpace decoded) = Some jsonObj ->
  DecodeBase64String s = DecodeBase64Fields jsonObj.
Proof.
  intros Hb Hd Hv Hj. unfold DecodeBase64String, DecodeBase64String_body.
  rewrite Hb, Hd, Hv. cbn [negb]. cbv zeta. unfold IsValidJSON. by rewrite Hj.
Qed.

Lemma IsBase64_DecodeString (s : string) :
  IsBase64 s = true -> exists decoded, Base64.DecodeString s = Some decoded.
Proof.
  unfold IsBase64. destruct (negb _); [discriminate|].
  destruct (Base64.DecodeString s); [eauto | discriminate].
Qed.

(** Well-foundedness of the call relation: a call on a parsed document
    lowers the length of the longest string, a call on a child keeps it
    and lowers the number of nodes. *)
Lemma calls_maxstr_vsize (y x : value) :
  calls y x ->
  maxstr y < maxstr x \/ (maxstr y <= maxstr x /\ vsize y < vsize x).
Proof.
  intros [l y' Hy | m k y' Hk | s decoded y' Hb Hd Hv Hu].
  - right. split; [by apply maxstr_elem | by apply vsize_elem].
  - right. split; [by eapply maxstr_lookup | by eapply vsize_lookup].
  - left. cbn [maxstr]. by eapply parsed_smaller.
Qed.

Lemma calls_wf : well_founded calls.
Proof.
  assert (forall n k x, maxstr x <= n -> vsize x <= k -> Acc calls x) as H.
  { induction n as [n IHn] using lt_wf_ind.
    induction k as [k IHk] using lt_wf_ind.
    intros x Hn Hk. constructor. intros y Hy.
    destruct (calls_maxstr_vsize _ _ Hy) as [Hlt | [Hle Hlt]].
    - apply (IHn (maxstr y)) with (k := vsize y); lia.
    - apply (IHk (vsize y)); lia. }
  intros x. by apply (H (maxstr x) (vsize x)).
Qed.

(** The function computes what the evaluation relation derives. *)
Lemma decodes_DecodeBase64Fields (data : value) :
  decodes data (DecodeBase64Fields data).
Proof.
  induction data as [data IH] using (well_founded_induction calls_wf).
  destruct data as [| b | f | s | l | m].
  - constructor.
  - constructor.
  - constructor.
  - rewrite DecodeBase64Fields_string.
    destruct (IsBase64 s) eqn:Hb;
      [|rewrite DecodeBase64String_not_base64 by done; by constructor].
    destruct (IsBase64_DecodeString s Hb) as [decoded Hd].
    destruct (Utf8.Valid decoded) eqn:Hv;
      [|rewrite (DecodeBase64String_binary s decoded) by done;
        by econstructor].
    destruct (Json.Unmarshal (Strings.TrimSpace decoded)) as [jsonObj|] eqn:Hu.
    + rewrite (DecodeBase64String_json s decoded jsonObj) by done.
      eapply decodes_json; eauto. apply IH. by econstructor.
    + rewrite (DecodeBase64String_text s decoded) by
        (try done; unfold IsValidJSON; by rewrite Hu).
      eapply decodes_text; eauto. unfold IsValidJSON. by rewrite Hu.
  - rewrite DecodeBase64Fields_array. constructor.
    unfold DecodeBase64InSlice. apply Forall2_fmap_r, Forall_Forall2_diag.
    apply Forall_forall. intros x Hx. apply IH. by constructor.
  - rewrite DecodeBase64Fields_object. constructor.
    + unfold DecodeBase64InMap. by rewrite dom_fmap_L.
    + unfold DecodeBase64InMap. intros k v v' Hk Hk'.
      rewrite lookup_fmap, Hk in Hk'. injection Hk' as <-.
      apply IH. by econstructor.
Qed.

Lemma decodes_det (data : value) :
  forall v, decodes data v -> v = DecodeBase64Fields data.
Proof.
  induction data as [data IH] using (well_founded_induction calls_wf).
  intros v Hv. inversion Hv; subst.
  - done.
  - done.
  - done.
  - rewrite DecodeBase64Fields_array. f_equal. unfold DecodeBase64InSlice.
    match goal with H : Forall2 decodes _ _ |- _ => rename H into HF end.
    assert (forall x, x ∈ l -> forall v, decodes x v -> v = DecodeBase64Fields x)
      as IH' by (intros x Hx; apply IH; by constructor).
    clear IH Hv. induction HF as [|x y l l' Hxy HF IHF]; [done|].
    cbn [fmap list_fmap]. f_equal.
    + apply IH'; [by left | done].
    + apply IHF. intros z Hz. apply IH'. by right.
  - rewrite DecodeBase64Fields_object. f_equal. unfold DecodeBase64InMap.
    apply map_eq. intros k. rewrite lookup_fmap.
    match goal with H : dom m = dom _ |- _ => rename H into Hdom end.
    destruct (m !! k) as [x|] eqn:Hk.
    + assert (is_Some (m' !! k)) as [x' Hk'].
      { apply elem_of_dom. rewrite <- Hdom. apply elem_of_dom. eauto. }
      rewrite Hk'. cbn. f_equal. apply IH; [by econstructor | eauto].
    + apply not_elem_of_dom. rewrite <- Hdom. by apply not_elem_of_dom.
  - rewrite DecodeBase64Fields_string. by rewrite DecodeBase64String_not_base64.
  - rewrite DecodeBase64Fields_string.
    by erewrite DecodeBase64String_binary.
  - rewrite DecodeBase64Fields_string.
    by erewrite DecodeBase64String_text.
  - rewrite DecodeBase64Fields_string.
    erewrite DecodeBase64String_json by done.
    apply IH; [by econstructor | done].
Qed.

(** ** Base64: decoding an encoding *)

Section base64_arith.
Local Open Scope N_scope.
Import Base64.

Lemma lor_shiftl_add (x a k : N) :
  (a < 2 ^ k)%N -> N.lor (N.shiftl x k) a = (x * 2 ^ k + a)%N.
Proof.
  intros Ha. rewrite N.shiftl_mul_pow2.
  assert (N.land (x * 2 ^ k) a = 0%N) as Hdisj.
  { apply N.bits_inj. intros n. rewrite N.land_spec, N.bits_0.
    destruct (N.lt_ge_cases n k) as [Hn|Hn].
    - by rewrite N.mul_pow2_bits_low.
    - destruct (N.eq_dec a 0%N) as [->|Hne]; [by rewrite N.bits_0, andb_false_r|].
      rewrite (N.bits_above_log2 a n), andb_false_r; [done|].
      apply N.log2_lt_pow2; [lia|].
      eapply N.lt_le_trans; [exact Ha|]. by apply N.pow_le_mono_r. }
  rewrite <- N.lxor_lor by done. symmetry. by apply N.add_nocarry_lxor.
Qed.

Lemma land_shiftr_mod (val k j : N) :
  N.land (N.shiftr val k) (N.ones j) = ((val / 2 ^ k) mod 2 ^ j)%N.
Proof. by rewrite N.land_ones, N.shiftr_div_pow2. Qed.

Lemma byte_of_bound (c : ascii) : (byte_of c < 256)%N.
Proof. apply N_ascii_bounded. Qed.

Lemma chr_byte_of (c : ascii) : chr (byte_of c) = c.
Proof. apply ascii_N_embedding. Qed.

Ltac pow2 :=
  change (2 ^ 0)%N with 1%N in *; change (2 ^ 6)%N with 64%N in *;
  change (2 ^ 8)%N with 256%N in *; change (2 ^ 12)%N with 4096%N in *;
  change (2 ^ 16)%N with 65536%N in *; change (2 ^ 18)%N with 262144%N in *.

Lemma enc_val_arith (b0 b1 b2 : ascii) :
  enc_val b0 b1 b2 = byte_of b0 * 65536 + byte_of b1 * 256 + byte_of b2.
Proof.
  unfold enc_val.
  pose proof (byte_of_bound b0). pose proof (byte_of_bound b1).
  pose proof (byte_of_bound b2).
  assert (N.lor (N.shiftl (byte_of b0) 16) (N.shiftl (byte_of b1) 8)
          = N.shiftl (byte_of b0 * 256 + byte_of b1) 8) as ->.
  { change 16 with (8 + 8). rewrite <- N.shiftl_shiftl, <- N.shiftl_lor.
    f_equal. rewrite lor_shiftl_add by (pow2; lia). by pow2. }
  rewrite lor_shiftl_add by (pow2; lia). pow2. lia.
Qed.

Lemma quantum_val_arith (d0 d1 d2 d3 : N) :
  d1 < 64 -> d2 < 64 -> d3 < 64 ->
  quantum_val d0 d1 d2 d3 = ((d0 * 64 + d1) * 64 + d2) * 64 + d3.
Proof.
  intros H1 H2 H3. unfold quantum_val.
  assert (N.lor (N.shiftl d0 18) (N.shiftl d1 12)
          = N.shiftl (d0 * 64 + d1) 12) as ->.
  { change 18 with (6 + 12). rewrite <- N.shiftl_shiftl, <- N.shiftl_lor.
    f_equal. rewrite lor_shiftl_add by (pow2; lia). by pow2. }
  assert (N.lor (N.shiftl (d0 * 64 + d1) 12) (N.shiftl d2 6)
          = N.shiftl ((d0 * 64 + d1) * 64 + d2) 6) as ->.
  { change 12 with (6 + 6). rewrite <- N.shiftl_shiftl, <- N.shiftl_lor.
    f_equal. rewrite lor_shiftl_add by (pow2; lia). by pow2. }
  rewrite lor_shiftl_add by (pow2; lia). by pow2.
Qed.

Lemma decodeMap_encode (i : N) :
  (i < 64)%N -> Base64.decodeMap (Base64.encode i) = Some i.
Proof.
  intros Hi. destruct i as [|p]; [reflexivity|].
  do 6 (try (destruct p as [p|p|]; try lia; try reflexivity)).
Qed.

Lemma sextet_arith (val k : N) : sextet val k = ((val / 2 ^ k) mod 64)%N.
Proof. unfold sextet. change 63%N with (N.ones 6). apply land_shiftr_mod. Qed.

Lemma sextet_bound (val k : N) : (sextet val k < 64)%N.
Proof. rewrite sextet_arith. by apply N.mod_lt. Qed.

Lemma decodeMap_enc_at (val k : N) :
  Base64.decodeMap (Base64.enc_at val k) = Some (sextet val k).
Proof. apply decodeMap_encode, sextet_bound. Qed.

Lemma byte_at_arith (val k : N) :
  Base64.byte_at val k = chr ((val / 2 ^ k) mod 256)%N.
Proof.
  unfold Base64.byte_at. change 255%N with (N.ones 8).
  by rewrite land_shiftr_mod.
Qed.

Lemma sextets_recompose (V : N) :
  V < 16777216 ->
  (((V / 262144) mod 64 * 64 + (V / 4096) mod 64) * 64 + (V / 64) mod 64) * 64
  + (V / 1) mod 64 = V.
Proof.
  intros HV. rewrite N.div_1_r.
  change 262144 with (64 * (64 * 64)). change 4096 with (64 * 64).
  rewrite <- !N.Div0.div_div.
  pose proof (N.div_mod V 64 ltac:(lia)).
  pose proof (N.div_mod (V / 64) 64 ltac:(lia)).
  pose proof (N.div_mod (V / 64 / 64) 64 ltac:(lia)).
  pose proof (N.mod_lt V 64 ltac:(lia)).
  pose proof (N.mod_lt (V / 64) 64 ltac:(lia)).
  pose proof (N.mod_lt (V / 64 / 64) 64 ltac:(lia)).
  assert (V / 64 / 64 / 64 < 64).
  { rewrite !N.Div0.div_div. apply N.Div0.div_lt_upper_bound. lia. }
  rewrite (N.mod_small (V / 64 / 64 / 64)) by assumption.
  remember (V / 64) as A. remember (A / 64) as B. remember (B / 64) as C.
  remember (V mod 64) as m3. remember (A mod 64) as m2.
  remember (B mod 64) as m1. lia.
Qed.

Lemma bytes_split (x0 x1 x2 : N) :
  x0 < 256 -> x1 < 256 -> x2 < 256 ->
  let W := x0 * 65536 + x1 * 256 + x2 in
  (W / 65536) mod 256 = x0 /\ (W / 256) mod 256 = x1 /\ (W / 1) mod 256 = x2.
Proof.
  intros H0 H1 H2 W. rewrite N.div_1_r.
  change 65536 with (256 * 256) at 1. rewrite <- N.Div0.div_div.
  assert (W mod 256 = x2) as E2.
  { subst W.
    replace (x0 * 65536 + x1 * 256 + x2) with (x2 + (x0 * 256 + x1) * 256) by lia.
    rewrite N.Div0.mod_add. by apply N.mod_small. }
  assert (W / 256 = x0 * 256 + x1) as E1.
  { subst W.
    replace (x0 * 65536 + x1 * 256 + x2) with (x2 + (x0 * 256 + x1) * 256) by lia.
    rewrite N.div_add by lia. rewrite N.div_small by assumption. lia. }
  rewrite E1.
  assert ((x0 * 256 + x1) mod 256 = x1) as E3.
  { replace (x0 * 256 + x1) with (x1 + x0 * 256) by lia.
    rewrite N.Div0.mod_add. by apply N.mod_small. }
  assert ((x0 * 256 + x1) / 256 = x0) as E4.
  { replace (x0 * 256 + x1) with (x1 + x0 * 256) by lia.
    rewrite N.div_add by lia. rewrite N.div_small by assumption. lia. }
  rewrite E4. rewrite N.mod_small by assumption. auto.
Qed.

Lemma enc_val_bound (b0 b1 b2 : ascii) : enc_val b0 b1 b2 < 16777216.
Proof.
  rewrite enc_val_arith.
  pose proof (byte_of_bound b0). pose proof (byte_of_bound b1).
  pose proof (byte_of_bound b2). lia.
Qed.

Lemma quantum_of_sextets (val : N) :
  val < 16777216 ->
  quantum_val (sextet val 18) (sextet val 12) (sextet val 6) (sextet val 0) = val.
Proof.
  intros Hval. rewrite quantum_val_arith by apply sextet_bound.
  rewrite !sextet_arith. pow2. by apply sextets_recompose.
Qed.

Lemma byte_at_enc_val (b0 b1 b2 : ascii) :
  let val := enc_val b0 b1 b2 in
  byte_at val 16 = b0 /\ byte_at val 8 = b1 /\ byte_at val 0 = b2.
Proof.
  cbv zeta. rewrite !byte_at_arith, enc_val_arith. pow2.
  destruct (bytes_split (byte_of b0) (byte_of b1) (byte_of b2))
    as (-> & -> & ->); try apply byte_of_bound.
  by rewrite !chr_byte_of.
Qed.

Lemma bytes3_sextets (b0 b1 b2 : ascii) :
  let val := enc_val b0 b1 b2 in
  bytes3 (sextet val 18) (sextet val 12) (sextet val 6) (sextet val 0)
  = String b0 (String b1 (String b2 "")).
Proof.
  cbv zeta. unfold bytes3.
  rewrite quantum_of_sextets by apply enc_val_bound.
  destruct (byte_at_enc_val b0 b1 b2) as (-> & -> & ->). reflexivity.
Qed.

Lemma sextet_pad_0 (b0 b1 : ascii) : sextet (enc_val b0 b1 "000") 0 = 0.
Proof.
  rewrite sextet_arith, enc_val_arith. pow2. rewrite N.div_1_r.
  change (byte_of "000") with 0.
  replace (byte_of b0 * 65536 + byte_of b1 * 256 + 0)
    with ((byte_of b0 * 1024 + byte_of b1 * 4) * 64) by lia.
  apply N.Div0.mod_mul.
Qed.

Lemma sextet_pad_6 (b0 : ascii) : sextet (enc_val b0 "000" "000") 6 = 0.
Proof.
  rewrite sextet_arith, enc_val_arith. pow2.
  change (byte_of "000") with 0.
  replace (byte_of b0 * 65536 + 0 * 256 + 0) with (byte_of b0 * 1024 * 64) by lia.
  rewrite N.div_mul by lia.
  replace (byte_of b0 * 1024) with (byte_of b0 * 16 * 64) by lia.
  apply N.Div0.mod_mul.
Qed.

Lemma bytes2_sextets (b0 b1 : ascii) :
  let val := enc_val b0 b1 "000" in
  bytes2 (sextet val 18) (sextet val 12) (sextet val 6)
  = String b0 (String b1 "").
Proof.
  cbv zeta. unfold bytes2.
  set (val := enc_val b0 b1 "000").
  replace (quantum_val (sextet val 18) (sextet val 12) (sextet val 6) 0)
    with val.
  2:{ rewrite <- (quantum_of_sextets val) at 1 by apply enc_val_bound.
      unfold val. by rewrite sextet_pad_0. }
  subst val.
  destruct (byte_at_enc_val b0 b1 "000") as (-> & -> & _). reflexivity.
Qed.

Lemma bytes1_sextets (b0 : ascii) :
  let val := enc_val b0 "000" "000" in
  bytes1 (sextet val 18) (sextet val 12) = String b0 "".
Proof.
  cbv zeta. unfold bytes1.
  set (val := enc_val b0 "000" "000").
  replace (quantum_val (sextet val 18) (sextet val 12) 0 0) with val.
  2:{ rewrite <- (quantum_of_sextets val) at 1 by apply enc_val_bound.
      unfold val. by rewrite sextet_pad_0, sextet_pad_6. }
  subst val.
  destruct (byte_at_enc_val b0 "000" "000") as (-> & _ & _). reflexivity.
Qed.

End base64_arith.

Lemma string_ind3 (P : string -> Prop) :
  P "" ->
  (forall b0, P (String b0 "")) ->
  (forall b0 b1, P (String b0 (String b1 ""))) ->
  (forall b0 b1 b2 rest, P rest -> P (String b0 (String b1 (String b2 rest)))) ->
  forall s, P s.
Proof.
  intros H0 H1 H2 H3.
  assert (forall n s, String.length s <= n -> P s) as H.
  { induction n as [n IH] using lt_wf_ind.
    intros [|b0 [|b1 [|b2 rest]]] Hn; auto.
    apply H3. apply (IH (String.length rest)); cbn [String.length] in *; lia. }
  intros s. by apply (H (String.length s)).
Qed.

Lemma decode_EncodeToString (src : string) :
  Base64.decode [] (Base64.EncodeToString src) = Some src.
Proof.
  induction src as [|b0|b0 b1|b0 b1 b2 rest IH] using string_ind3.
  - reflexivity.
  - cbn [Base64.EncodeToString]. cbv zeta. cbn [Base64.decode].
    rewrite !decodeMap_enc_at. by rewrite bytes1_sextets.
  - cbn [Base64.EncodeToString]. cbv zeta. cbn [Base64.decode].
    rewrite !decodeMap_enc_at. by rewrite bytes2_sextets.
  - cbn [Base64.EncodeToString]. cbv zeta. cbn [Base64.decode].
    rewrite !decodeMap_enc_at. rewrite IH, bytes3_sextets. reflexivity.
Qed.

Lemma EncodeToString_length (src : string) :
  String.length (Base64.EncodeToString src) mod 4 = 0.
Proof.
  assert (exists k, String.length (Base64.EncodeToString src) = k * 4)
    as [k ->]; [|apply Nat.Div0.mod_mul].
  induction src as [|b0|b0 b1|b0 b1 b2 rest [k IH]] using string_ind3.
  - by exists 0.
  - by exists 1.
  - by exists 1.
  - exists (S k). cbn [Base64.EncodeToString]. cbv zeta.
    cbn [String.length]. rewrite IH. lia.
Qed.

Lemma DecodeString_EncodeToString (src : string) :
  Base64.DecodeString (Base64.EncodeToString src) = Some src.
Proof. apply decode_EncodeToString. Qed.

Lemma IsBase64_EncodeToString (src : string) :
  IsBase64 (Base64.EncodeToString src) = true.
Proof.
  unfold IsBase64, base64BlockSize, validBase64Mod.
  rewrite EncodeToString_length, DecodeString_EncodeToString. reflexivity.
Qed.

(** A Base64 text of a document is resolved to what the decoder makes of
    the document. *)
Lemma unwrap_layer (t : string) (x : value) :
  Utf8.Valid t = true -> Strings.TrimSpace t = t ->
  Json.Unmarshal t = Some x ->
  DecodeBase64Fields (VString (Base64.EncodeToString t)) = DecodeBase64Fields x.
Proof.
  intros Hv Ht Hu. rewrite DecodeBase64Fields_string.
  apply (DecodeBase64String_json _ t).
  - apply IsBase64_EncodeToString.
  - apply DecodeString_EncodeToString.
  - exact Hv.
  - by rewrite Ht.
Qed.

(** * The claims of the specification *)

(** ** Scalars *)

(** C8: a number, a boolean or null is returned exactly as it is, same type
    and same value. *)
Theorem C8_scalar_identity :
  (forall f, DecodeBase64Fields (VNumber f) = VNumber f) /\
  (forall b, DecodeBase64Fields (VBool b) = VBool b) /\
  DecodeBase64Fields VNull = VNull.
Proof. repeat split; intros; by rewrite DecodeBase64Fields_unfold. Qed.

(** ** The empty string *)

(** C10: the empty string has length 0, a multiple of 4, and decodes to no
    bytes; these are valid UTF-8 and trim to the empty text, which is not
    JSON; so the empty string is returned as it is. *)
Theorem C10_empty_string :
  IsBase64 "" = true /\
  Base64.DecodeString "" = Some "" /\
  Utf8.Valid "" = true /\
  Strings.TrimSpace "" = "" /\
  IsValidJSON "" = false /\
  DecodeBase64String "" = VString "" /\
  DecodeBase64Fields (VString "") = VString "".
Proof. repeat split; vm_compute; reflexivity. Qed.

(** ** Binary payloads *)

(** C5: a Base64 candidate whose decoded bytes are not valid UTF-8 is
    returned unchanged. *)
Theorem C5_binary_unchanged (s decoded : string) :
  IsBase64 s = true ->
  Base64.DecodeString s = Some decoded ->
  Utf8.Valid decoded = false ->
  DecodeBase64Fields (VString s) = VString s.
Proof.
  intros _ Hd Hv. rewrite DecodeBase64Fields_string.
  by apply (DecodeBase64String_binary s decoded).
Qed.

(** The payload of [TestBase64BinaryData]: the bytes FF FE 00 01 80 81. *)
Lemma C5_binary_unchanged_witness :
  let decoded := String (chr 255) (String (chr 254) (String (chr 0)
                   (String (chr 1) (String (chr 128) (String (chr 129) ""))))) in
  IsBase64 "//4AAYCB" = true /\
  Base64.DecodeString "//4AAYCB" = Some decoded /\
  Utf8.Valid decoded = false /\
  DecodeBase64Fields (VString "//4AAYCB") = VString "//4AAYCB".
Proof.
  cbv zeta. do 3 (split; [vm_compute; reflexivity|]).
  apply (C5_binary_unchanged "//4AAYCB"
           (String (chr 255) (String (chr 254) (String (chr 0)
              (String (chr 1) (String (chr 128) (String (chr 129) "")))))));
    vm_compute; reflexivity.
Defined.

(** ** Plain text *)

(** C6: a Base64 candidate whose decoded bytes are valid UTF-8 but, once
    trimmed, are not JSON is replaced by the trimmed text. *)
Theorem C6_text_replaces (s decoded : string) :
  IsBase64 s = true ->
  Base64.DecodeString s = Some decoded ->
  Utf8.Valid decoded = true ->
  Json.Unmarshal (Strings.TrimSpace decoded) = None ->
  DecodeBase64Fields (VString s) = VString (Strings.TrimSpace decoded).
Proof.
  intros Hb Hd Hv Hu. rewrite DecodeBase64Fields_string.
  apply DecodeBase64String_text; try done.
  unfold IsValidJSON. by rewrite Hu.
Qed.

(** "IEhlbGxvIFdvcmxkCgk=" encodes " Hello World", a line feed and a tab. *)
Lemma C6_text_replaces_witness :
  let decoded := " Hello World" +:+ String (chr 10) (String (chr 9) "") in
  IsBase64 "IEhlbGxvIFdvcmxkCgk=" = true /\
  Base64.DecodeString "IEhlbGxvIFdvcmxkCgk=" = Some decoded /\
  Utf8.Valid decoded = true /\
  Json.Unmarshal (Strings.TrimSpace decoded) = None /\
  Strings.TrimSpace decoded = "Hello World" /\
  DecodeBase64Fields (VString "IEhlbGxvIFdvcmxkCgk=")
  = VString (Strings.TrimSpace decoded).
Proof.
  cbv zeta. do 5 (split; [vm_compute; reflexivity|]).
  apply (C6_text_replaces "IEhlbGxvIFdvcmxkCgk="
           (" Hello World" +:+ String (chr 10) (String (chr 9) "")));
    vm_compute; reflexivity.
Defined.

(** ** Shape *)

(** C4: the output has the shape of the input at every object and array:
    same key set, same length, elements in the same order; numbers,
    booleans and null are untouched; only a string leaf may change, and it
    may become an object, an array, a number, a boolean, null or another
    string. *)
Theorem C4_shape_preserved :
  (forall data, Spec.same_shape data (DecodeBase64Fields data)) /\
  (exists s m, DecodeBase64Fields (VString s) = VObject m) /\
  (exists s l, DecodeBase64Fields (VString s) = VArray l) /\
  (exists s f, DecodeBase64Fields (VString s) = VNumber f) /\
  (exists s b, DecodeBase64Fields (VString s) = VBool b) /\
  (exists s, DecodeBase64Fields (VString s) = VNull) /\
  (exists s s', s' <> s /\ DecodeBase64Fields (VString s) = VString s').
Proof.
  split.
  { induction data as [| | | s | l IH | m IH] using value_ind_nested.
    - by rewrite DecodeBase64Fields_unfold; constructor.
    - by rewrite DecodeBase64Fields_unfold; constructor.
    - by rewrite DecodeBase64Fields_unfold; constructor.
    - constructor.
    - rewrite DecodeBase64Fields_array. constructor.
      unfold DecodeBase64InSlice. apply Forall2_fmap_r.
      by apply Forall_Forall2_diag.
    - rewrite DecodeBase64Fields_object. constructor.
      + unfold DecodeBase64InMap. by rewrite dom_fmap_L.
      + unfold DecodeBase64InMap. intros k v v' Hk Hk'.
        rewrite lookup_fmap, Hk in Hk'. injection Hk' as <-.
        by apply (IH k). }
  repeat split.
  - exists "e30=", ∅. vm_compute. reflexivity.
  - exists "W10=", []. vm_compute. reflexivity.
  - exists "MQ==", (S754_finite false 4503599627370496 (-52)).
    vm_compute. reflexivity.
  - exists "dHJ1ZQ==", true. vm_compute. reflexivity.
  - exists "bnVsbA==". vm_compute. reflexivity.
  - exists "SGVsbG8=", "Hello". split; [discriminate | vm_compute; reflexivity].
Qed.

(** ** Termination *)

(** C9: the decoder terminates on every input.  A Base64 text decodes to at
    most three quarters of its length, so to strictly less when it is not
    empty; a document parsed out of the decoded text holds only strings
    shorter than the Base64 text; hence the relation "is called on" between
    the arguments of [DecodeBase64Fields] is well founded, and every input
    has a terminating run. *)
Theorem C9_termination :
  (forall s decoded,
     Base64.DecodeString s = Some decoded ->
     4 * String.length decoded <= 3 * String.length s /\
     (s <> "" -> String.length decoded < String.length s)) /\
  (forall s y, calls y (VString s) -> maxstr y < String.length s) /\
  well_founded calls /\
  (forall data, exists v, decodes data v).
Proof.
  split; [|split; [|split]].
  - intros s decoded Hd. pose proof (DecodeString_length _ _ Hd) as Hl.
    split; [exact Hl|]. intros Hne.
    destruct s; [done | cbn [String.length] in *; lia].
  - intros s y Hc. inversion Hc; subst. by eapply parsed_smaller.
  - apply calls_wf.
  - intros data. exists (DecodeBase64Fields data).
    apply decodes_DecodeBase64Fields.
Qed.

Lemma C9_termination_witness :
  Base64.DecodeString "SGVsbG8=" = Some "Hello" /\
  4 * String.length "Hello" <= 3 * String.length "SGVsbG8=" /\
  String.length "Hello" < String.length "SGVsbG8=".
Proof.
  split; [reflexivity|].
  destruct (proj1 C9_termination "SGVsbG8=" "Hello" eq_refl) as [H1 H2].
  split; [exact H1 | apply H2; discriminate].
Defined.

(** ** Totality *)

(** C7, as the code has it: the decoder is total and has no error channel,
    every input has exactly one result.  A string that fails the Base64
    test and a candidate whose decoded bytes are not valid UTF-8 are passed
    through unchanged; a candidate whose decoded text is valid UTF-8 but
    does not parse as JSON is not an error either, and is replaced by that
    text, trimmed. *)
Theorem C7_total :
  (forall data, exists v,
     decodes data v /\ forall v', decodes data v' -> v' = v) /\
  (forall s, IsBase64 s = false -> DecodeBase64Fields (VString s) = VString s) /\
  (forall s decoded,
     Base64.DecodeString s = Some decoded -> Utf8.Valid decoded = false ->
     DecodeBase64Fields (VString s) = VString s) /\
  (forall s decoded,
     IsBase64 s = true -> Base64.DecodeString s = Some decoded ->
     Utf8.Valid decoded = true ->
     Json.Unmarshal (Strings.TrimSpace decoded) = None ->
     DecodeBase64Fields (VString s) = VString (Strings.TrimSpace decoded)).
Proof.
  split; [|split; [|split]].
  - intros data. exists (DecodeBase64Fields data).
    split; [apply decodes_DecodeBase64Fields | apply decodes_det].
  - intros s Hb. rewrite DecodeBase64Fields_string.
    by apply DecodeBase64String_not_base64.
  - intros s decoded Hd Hv. rewrite DecodeBase64Fields_string.
    by apply (DecodeBase64String_binary s decoded).
  - intros s decoded Hb Hd Hv Hu. rewrite DecodeBase64Fields_string.
    apply DecodeBase64String_text; try done.
    unfold IsValidJSON. by rewrite Hu.
Qed.

Lemma C7_total_witness :
  IsBase64 "Hello@World" = false /\
  DecodeBase64Fields (VString "Hello@World") = VString "Hello@World".
Proof.
  split; [reflexivity|].
  apply (proj1 (proj2 C7_total) "Hello@World"). reflexivity.
Defined.

(** C7, as the specification words it, fails: "SGVsbG8gV29ybGQ=" is a
    Base64 candidate whose decoded text, "Hello World", cannot be parsed
    as JSON, and it is not passed through unchanged. *)
Lemma C7_counterexample :
  IsBase64 "SGVsbG8gV29ybGQ=" = true /\
  Base64.DecodeString "SGVsbG8gV29ybGQ=" = Some "Hello World" /\
  Json.Unmarshal (Strings.TrimSpace "Hello World") = None /\
  DecodeBase64Fields (VString "SGVsbG8gV29ybGQ=") <> VString "SGVsbG8gV29ybGQ=".
Proof.
  repeat split; try (vm_compute; reflexivity).
  vm_compute. discriminate.
Qed.

(** ** Which strings are Base64 candidates *)

Lemma in_alphabet_decodeMap (c : ascii) :
  Spec.in_alphabet c = Base64.succeeds (option_map (fun _ => "") (Base64.decodeMap c)).
Proof. destruct c as [[] [] [] [] [] [] [] []]; reflexivity. Qed.

Lemma newline_decodeMap (c : ascii) :
  Base64.is_newline c = true -> Base64.decodeMap c = None.
Proof. destruct c as [[] [] [] [] [] [] [] []]; (discriminate || reflexivity). Qed.

Lemma succeeds_prepend (p : string) (o : option string) :
  Base64.succeeds (Base64.prepend p o) = Base64.succeeds o.
Proof. by destruct o. Qed.

Lemma drop_newlines_length (s : string) :
  String.length (Spec.drop_newlines s) <= String.length s.
Proof.
  induction s as [|c r IH]; cbn [Spec.drop_newlines]; [done|].
  destruct (Base64.is_newline c); cbn [String.length]; lia.
Qed.

Lemma drop_newlines_fixed (c : ascii) (r : string) :
  Spec.drop_newlines (String c r) = String c r ->
  Base64.is_newline c = false /\ Spec.drop_newlines r = r.
Proof.
  cbn [Spec.drop_newlines]. destruct (Base64.is_newline c).
  - intros H. pose proof (drop_newlines_length r) as Hl.
    rewrite H in Hl. cbn [String.length] in Hl. lia.
  - by intros [= ->].
Qed.

Lemma drop_newlines_idem (s : string) :
  Spec.drop_newlines (Spec.drop_newlines s) = Spec.drop_newlines s.
Proof.
  induction s as [|c r IH]; cbn [Spec.drop_newlines]; [done|].
  destruct (Base64.is_newline c) eqn:Hc; [done|].
  cbn [Spec.drop_newlines]. by rewrite Hc, IH.
Qed.

Lemma drop_skip_newlines (s : string) :
  Spec.drop_newlines (Base64.skip_newlines s) = Spec.drop_newlines s.
Proof.
  induction s as [|c r IH]; cbn [Base64.skip_newlines Spec.drop_newlines]; [done|].
  destruct (Base64.is_newline c) eqn:Hc; [done|].
  cbn [Spec.drop_newlines]. by rewrite Hc.
Qed.

Lemma skip_newlines_cons (s : string) (c : ascii) (r : string) :
  Base64.skip_newlines s = String c r ->
  Base64.is_newline c = false /\
  Spec.drop_newlines s = String c (Spec.drop_newlines r).
Proof.
  intros H. assert (Base64.is_newline c = false) as Hc.
  { induction s as [|a s IH]; cbn [Base64.skip_newlines] in H; [discriminate|].
    destruct (Base64.is_newline a) eqn:Ha; [by apply IH|].
    by injection H as <- <-. }
  split; [done|]. rewrite <- drop_skip_newlines, H.
  cbn [Spec.drop_newlines]. by rewrite Hc.
Qed.

Lemma skip_newlines_empty (s : string) :
  Base64.skip_newlines s = "" -> Spec.drop_newlines s = "".
Proof. intros H. by rewrite <- drop_skip_newlines, H. Qed.

Lemma skip_newlines_fixed (s : string) :
  Spec.drop_newlines s = s -> Base64.skip_newlines s = s.
Proof.
  destruct s as [|c r]; [done|]. intros H.
  apply drop_newlines_fixed in H as [Hc _].
  cbn [Base64.skip_newlines]. by rewrite Hc.
Qed.

(** CR and LF do not count: a text decodes exactly when the text without
    them does. *)
Lemma decode_drop_newlines (s : string) :
  forall dbuf,
    Base64.succeeds (Base64.decode dbuf s)
    = Base64.succeeds (Base64.decode dbuf (Spec.drop_newlines s)).
Proof.
  induction s as [|c rest IH]; intros dbuf; [done|].
  cbn [Base64.decode Spec.drop_newlines].
  destruct (Base64.is_newline c) eqn:Hnl.
  { rewrite (newline_decodeMap c Hnl). apply IH. }
  cbn [Base64.decode]. rewrite Hnl.
  destruct (Base64.decodeMap c) as [d|].
  { destruct dbuf as [|d2 [|d1 [|d0 [|? ?]]]]; try apply IH.
    by rewrite !succeeds_prepend. }
  destruct (Ascii.eqb c Base64.padChar); [|done].
  pose proof (drop_newlines_idem rest) as Hidem.
  apply skip_newlines_fixed in Hidem. rewrite Hidem.
  destruct dbuf as [|d1 [|d0 [|d2 [|? ?]]]]; try done.
  - destruct (Base64.skip_newlines rest) as [|c' rest'] eqn:Hs.
    + by rewrite (skip_newlines_empty _ Hs).
    + apply skip_newlines_cons in Hs as [Hc' ->].
      destruct (Ascii.eqb c' Base64.padChar); [|done].
      pose proof (drop_newlines_idem rest') as Hidem'.
      apply skip_newlines_fixed in Hidem'. rewrite Hidem'.
      destruct (Base64.skip_newlines rest') as [|c2 r2] eqn:Hs'.
      * by rewrite (skip_newlines_empty _ Hs').
      * by apply skip_newlines_cons in Hs' as [_ ->].
  - destruct (Base64.skip_newlines rest) as [|c' rest'] eqn:Hs.
    + by rewrite (skip_newlines_empty _ Hs).
    + by apply skip_newlines_cons in Hs as [_ ->].
Qed.

Lemma is_pad_eqb (c : ascii) : Spec.is_pad c = Ascii.eqb c Base64.padChar.
Proof. destruct c as [[] [] [] [] [] [] [] []]; reflexivity. Qed.

Lemma is_empty_succeeds (r : string) (p : string) :
  Base64.succeeds match r with
                  | EmptyString => Some p
                  | String _ _ => None
                  end = Json.is_empty r.
Proof. by destruct r. Qed.

(** Without CR and LF, the Go decoder accepts exactly the strict texts. *)
Lemma decode_strict (n : nat) :
  forall f, String.length f <= n -> Spec.drop_newlines f = f ->
    Base64.succeeds (Base64.decode [] f) = Spec.strict_base64 f.
Proof.
  induction n as [n IH] using lt_wf_ind. intros f Hn Hf.
  destruct f as [|a r]; [done|].
  apply drop_newlines_fixed in Hf as [Ha Hr].
  cbn [Base64.decode]. rewrite Ha.
  assert (Spec.strict_base64 (String a r)
          = Spec.in_alphabet a &&
            match r with
            | String b (String c (String d rest)) =>
                Spec.in_alphabet b &&
                (if Spec.in_alphabet c then
                   if Spec.in_alphabet d then Spec.strict_base64 rest
                   else Spec.is_pad d && Json.is_empty rest
                 else Spec.is_pad c && Spec.is_pad d && Json.is_empty rest)
            | _ => false
            end) as ->.
  { cbn [Spec.strict_base64]. destruct r as [|b [|c [|d rest]]];
      rewrite ?andb_false_r, ?andb_assoc; reflexivity. }
  rewrite (in_alphabet_decodeMap a).
  destruct (Base64.decodeMap a) as [d0|]; cbn [option_map Base64.succeeds andb];
    [|by destruct (Ascii.eqb a Base64.padChar)].
  destruct r as [|b r]; [done|].
  apply drop_newlines_fixed in Hr as [Hb Hr].
  cbn [Base64.decode]. rewrite Hb.
  destruct r as [|c r].
  { destruct (Base64.decodeMap b); [done|].
    by destruct (Ascii.eqb b Base64.padChar). }
  apply drop_newlines_fixed in Hr as [Hc Hr].
  destruct r as [|d rest].
  { destruct (Base64.decodeMap b) as [d1|];
      [|by destruct (Ascii.eqb b Base64.padChar)].
    cbn [Base64.decode]. rewrite Hc.
    destruct (Base64.decodeMap c); [done|].
    by destruct (Ascii.eqb c Base64.padChar). }
  apply drop_newlines_fixed in Hr as [Hd Hr].
  rewrite (in_alphabet_decodeMap b), (in_alphabet_decodeMap c),
    (in_alphabet_decodeMap d), !is_pad_eqb.
  destruct (Base64.decodeMap b) as [d1|];
    cbn [option_map Base64.succeeds andb];
    [|by destruct (Ascii.eqb b Base64.padChar)].
  cbn [Base64.decode]. rewrite Hc.
  destruct (Base64.decodeMap c) as [d2|]; cbn [option_map Base64.succeeds].
  - cbn [Base64.decode]. rewrite Hd.
    destruct (Base64.decodeMap d) as [d3|]; cbn [option_map Base64.succeeds].
    + rewrite succeeds_prepend. apply (IH (String.length rest)); [|done|done].
      cbn [String.length] in Hn. lia.
    + destruct (Ascii.eqb d Base64.padChar); [|done].
      rewrite (skip_newlines_fixed _ Hr). cbn [andb]. apply is_empty_succeeds.
  - destruct (Ascii.eqb c Base64.padChar); [|done].
    cbn [andb]. cbn [Base64.skip_newlines]. rewrite Hd.
    destruct (Ascii.eqb d Base64.padChar); [|done].
    rewrite (skip_newlines_fixed _ Hr). cbn [andb]. apply is_empty_succeeds.
Qed.

Lemma IsBase64_spec (s : string) :
  IsBase64 s = true <->
  String.length s mod 4 = 0 /\
  Spec.strict_base64 (Spec.drop_newlines s) = true.
Proof.
  unfold IsBase64, base64BlockSize, validBase64Mod, Base64.DecodeString.
  assert (Base64.succeeds (Base64.decode [] s)
          = Spec.strict_base64 (Spec.drop_newlines s)) as Hs.
  { rewrite decode_drop_newlines.
    apply (decode_strict (String.length (Spec.drop_newlines s))); [done|].
    apply drop_newlines_idem. }
  rewrite <- Hs. destruct (Nat.eqb_spec (String.length s mod 4) 0) as [Hl|Hl];
    cbn [negb].
  - destruct (Base64.decode [] s); cbn [Base64.succeeds]; intuition congruence.
  - intuition congruence.
Qed.

(** C1, as the code has it: a string is a Base64 candidate if and only if
    its length is a multiple of 4 and, once its CR and LF characters are
    left out, it is strict standard Base64 (groups of four characters of
    the alphabet, the last group possibly ending in [=] or [==]); a string
    that is not a candidate, so any string whose length is not a multiple
    of 4, is returned unchanged. *)
Theorem C1_candidate (s : string) :
  (IsBase64 s = true <->
   String.length s mod 4 = 0 /\
   Spec.strict_base64 (Spec.drop_newlines s) = true) /\
  (IsBase64 s = false -> DecodeBase64Fields (VString s) = VString s) /\
  (String.length s mod 4 <> 0 -> DecodeBase64Fields (VString s) = VString s).
Proof.
  assert (IsBase64 s = false -> DecodeBase64Fields (VString s) = VString s)
    as Hid.
  { intros Hb. rewrite DecodeBase64Fields_string.
    by apply DecodeBase64String_not_base64. }
  split; [apply IsBase64_spec|]. split; [exact Hid|].
  intros Hl. apply Hid. destruct (IsBase64 s) eqn:Hb; [|done].
  apply IsBase64_spec in Hb as [Hb _]. done.
Qed.

Lemma C1_candidate_witness :
  IsBase64 "abc" = false /\
  DecodeBase64Fields (VString "abc") = VString "abc".
Proof.
  split; [reflexivity|].
  apply (proj1 (proj2 (C1_candidate "abc"))). reflexivity.
Defined.

(** C1, as the specification words it, fails on four line feeds: their
    number is a multiple of 4 and a line feed is not a character of the
    alphabet, so the text is not strict standard Base64; but the decoder of
    the Go library ignores line feeds, the text is a candidate, and it is
    replaced by the empty text it decodes to. *)
Lemma C1_counterexample :
  let s := String (chr 10) (String (chr 10) (String (chr 10) (String (chr 10) ""))) in
  Spec.strict_base64 s = false /\
  IsBase64 s = true /\
  ~ (IsBase64 s = true <->
     String.length s mod 4 = 0 /\ Spec.strict_base64 s = true) /\
  DecodeBase64Fields (VString s) = VString "" /\
  DecodeBase64Fields (VString s) <> VString s.
Proof.
  cbv zeta. split; [reflexivity|]. split; [reflexivity|].
  split; [|split; [vm_compute; reflexivity | vm_compute; discriminate]].
  intros [H _]. specialize (H eq_refl). destruct H as [_ H].
  vm_compute in H. discriminate.
Qed.

(** ** Texts that trimming leaves alone *)

Lemma DecodeRune_ascii (c : ascii) (r : string) :
  (byte_of c < 128)%N -> Utf8.DecodeRune (String c r) = Some (byte_of c, 1).
Proof.
  intros Hc. unfold Utf8.DecodeRune, Utf8.lead.
  destruct (N.ltb_spec (byte_of c) 128); [reflexivity | lia].
Qed.

Lemma nonspace_ascii_inv (c : ascii) :
  nonspace_ascii c = true ->
  (byte_of c < 128)%N /\ Strings.IsSpace (byte_of c) = false.
Proof.
  unfold nonspace_ascii. rewrite andb_true_iff, negb_true_iff, N.ltb_lt. tauto.
Qed.

Lemma nonspace_not_cont (c : ascii) :
  nonspace_ascii c = true -> Utf8.is_cont c = false.
Proof.
  intros [Hc _]%nonspace_ascii_inv. unfold Utf8.is_cont, in_range.
  apply andb_false_iff. left. apply N.leb_gt. lia.
Qed.

Lemma trim_left_nonspace (c : ascii) (r : string) :
  nonspace_ascii c = true -> Strings.trim_left (String c r) = String c r.
Proof.
  intros [Hc Hs]%nonspace_ascii_inv. cbn [Strings.trim_left].
  by rewrite DecodeRune_ascii, Hs.
Qed.

Lemma trim_left_last (n : nat) :
  forall w c, String.length w <= n -> nonspace_ascii c = true ->
    Strings.trim_left (w +:+ String c "") <> "".
Proof.
  induction n as [n IH] using lt_wf_ind. intros w c Hn Hc.
  destruct w as [|a w].
  { change ("" +:+ String c "") with (String c "").
    by rewrite trim_left_nonspace. }
  change (String a w +:+ String c "") with (String a (w +:+ String c "")).
  cbn [Strings.trim_left]. cbn [String.length] in Hn.
  pose proof (nonspace_not_cont c Hc) as Hnc.
  destruct (Utf8.DecodeRune (String a (w +:+ String c ""))) as [[x k]|] eqn:Hd;
    [|done].
  pose proof (DecodeRune_inv _ _ _ Hd) as Hinv.
  destruct k as [|[|[|[|[|k]]]]]; try done.
  - destruct (Strings.IsSpace x); [|done]. apply (IH (String.length w)); [lia|done|done].
  - destruct Hinv as (a0 & a1 & b1 & Heq & C1 & _).
    destruct w as [|w0 w]; simpl in Heq; simplify_eq; try congruence.
    destruct (Strings.IsSpace x); [|done].
    cbn [String.length] in Hn. apply (IH (String.length w)); [lia|done|done].
  - destruct Hinv as (a0 & a1 & a2 & b2 & Heq & C1 & C2 & _).
    destruct w as [|w0 [|w1 w]]; simpl in Heq; simplify_eq; try congruence.
    destruct (Strings.IsSpace x); [|done].
    cbn [String.length] in Hn. apply (IH (String.length w)); [lia|done|done].
  - destruct Hinv as (a0 & a1 & a2 & a3 & b3 & Heq & C1 & C2 & C3 & _).
    destruct w as [|w0 [|w1 [|w2 w]]]; simpl in Heq; simplify_eq;
      try congruence.
    destruct (Strings.IsSpace x); [|done].
    cbn [String.length] in Hn. apply (IH (String.length w)); [lia|done|done].
Qed.

Lemma all_space_last (w : string) (c : ascii) :
  nonspace_ascii c = true -> Strings.all_space (w +:+ String c "") = false.
Proof.
  intros Hc. unfold Strings.all_space.
  pose proof (trim_left_last (String.length w) w c (le_n _) Hc) as H.
  by destruct (Strings.trim_left (w +:+ String c "")).
Qed.

Lemma trim_right_last (w : string) (c : ascii) :
  nonspace_ascii c = true ->
  Strings.trim_right (w +:+ String c "") = w +:+ String c "".
Proof.
  intros Hc. induction w as [|a w IH].
  - pose proof (all_space_last "" c Hc) as H.
    change ("" +:+ String c "") with (String c "") in *.
    cbn [Strings.trim_right]. by rewrite H.
  - change (String a w +:+ String c "") with (String a (w +:+ String c "")).
    cbn [Strings.trim_right].
    change (String a (w +:+ String c "")) with (String a w +:+ String c "") at 1.
    by rewrite (all_space_last _ c Hc), IH.
Qed.

(** A text between two ASCII characters that are not white space is its
    own trimming. *)
Lemma TrimSpace_between (a : ascii) (w : string) (c : ascii) :
  nonspace_ascii a = true -> nonspace_ascii c = true ->
  Strings.TrimSpace (String a (w +:+ String c "")) = String a (w +:+ String c "").
Proof.
  intros Ha Hc. unfold Strings.TrimSpace. rewrite trim_left_nonspace by done.
  apply (trim_right_last (String a w) c Hc).
Qed.

(** ** JSON string literals of plain ASCII texts *)

Lemma plain_char_inv (c : ascii) :
  plain_char c = true ->
  (32 <= byte_of c < 128)%N /\ is_byte 34 c = false /\ is_byte 92 c = false.
Proof.
  unfold plain_char. rewrite !andb_true_iff, !negb_true_iff.
  intros [[H1%in_range_bounds H2] H3]. repeat split; try done; lia.
Qed.

Lemma plain_valid (s rest : string) :
  plain s = true -> Utf8.Valid (s +:+ rest) = Utf8.Valid rest.
Proof.
  induction s as [|c s IH]; [done|]. cbn [plain].
  intros [Hc Hs]%andb_true_iff. apply plain_char_inv in Hc as (Hc & _ & _).
  change (String c s +:+ rest) with (String c (s +:+ rest)).
  rewrite Valid_ascii by lia. by apply IH.
Qed.

Lemma unquote_plain (s rest : string) :
  plain s = true ->
  Json.unquote None (s +:+ Spec.dquote +:+ rest) = Some (s, rest).
Proof.
  induction s as [|c s IH]; [done|]. cbn [plain].
  intros [Hc Hs]%andb_true_iff. apply plain_char_inv in Hc as (Hc & Hq & Hb).
  change (String c s +:+ Spec.dquote +:+ rest)
    with (String c (s +:+ Spec.dquote +:+ rest)).
  cbn [Json.unquote]. rewrite Hq, Hb.
  destruct (N.ltb_spec (byte_of c) 32); [lia|].
  rewrite DecodeRune_ascii by lia. rewrite (IH Hs). reflexivity.
Qed.

Lemma parse_value_string (s : string) (fuel depth : nat) :
  plain s = true ->
  Json.parse_value (S fuel) depth (Spec.dquote +:+ s +:+ Spec.dquote)
  = Json.Ok (VString s, "").
Proof.
  intros Hs.
  change (Spec.dquote +:+ s +:+ Spec.dquote)
    with (String (chr 34) (s +:+ Spec.dquote +:+ "")).
  cbn [Json.parse_value Json.skip_ws].
  change (Json.isSpace (chr 34)) with false. cbv iota.
  change (is_byte 123 (chr 34)) with false.
  change (is_byte 91 (chr 34)) with false.
  change (is_byte 34 (chr 34)) with true. cbv iota.
  by rewrite unquote_plain.
Qed.

Lemma Unmarshal_string (s : string) :
  plain s = true ->
  Json.Unmarshal (Spec.dquote +:+ s +:+ Spec.dquote) = Some (VString s).
Proof.
  intros Hs. unfold Json.Unmarshal.
  replace (2 * String.length (Spec.dquote +:+ s +:+ Spec.dquote) + 2)
    with (S (2 * String.length (Spec.dquote +:+ s +:+ Spec.dquote) + 1)) by lia.
  by rewrite parse_value_string.
Qed.

Lemma encode_plain (i : N) :
  (i < 64)%N -> plain_char (Base64.encode i) = true.
Proof.
  intros Hi. destruct i as [|p]; [reflexivity|].
  do 6 (try (destruct p as [p|p|]; try lia; try reflexivity)).
Qed.

Lemma enc_at_plain (val k : N) : plain_char (Base64.enc_at val k) = true.
Proof. apply encode_plain, sextet_bound. Qed.

Lemma EncodeToString_plain (src : string) :
  plain (Base64.EncodeToString src) = true.
Proof.
  induction src as [|b0|b0 b1|b0 b1 b2 rest IH] using string_ind3;
    cbn [Base64.EncodeToString]; cbv zeta; cbn [plain];
    rewrite ?enc_at_plain, ?IH; reflexivity.
Qed.

(** What the decoder makes of the JSON string literal of a Base64 text. *)
Lemma quoted_layer (b : string) :
  plain b = true ->
  let t := Spec.dquote +:+ b +:+ Spec.dquote in
  Utf8.Valid t = true /\ Strings.TrimSpace t = t /\
  Json.Unmarshal t = Some (VString b).
Proof.
  intros Hb t. split; [|split].
  - unfold t.
    change (Spec.dquote +:+ b +:+ Spec.dquote)
      with (String (chr 34) (b +:+ Spec.dquote)).
    rewrite Valid_ascii by (vm_compute; reflexivity).
    by rewrite plain_valid.
  - unfold t. apply (TrimSpace_between (chr 34) b (chr 34)); reflexivity.
  - by apply Unmarshal_string.
Qed.

(** ** Nested layers *)

(** C2, as the code has it: a Base64 text is unwrapped further only when
    what it encodes parses as JSON.  Any number of layers around a JSON
    document resolve in one call when every layer is the Base64 text of a
    JSON text: here of the JSON string literal holding the layer below. *)
Theorem C2_layers (n : nat) (t : string) (x : value) :
  Utf8.Valid t = true -> Strings.TrimSpace t = t ->
  Json.Unmarshal t = Some x ->
  DecodeBase64Fields (VString (Base64.EncodeToString (Spec.layers n t)))
  = DecodeBase64Fields x.
Proof.
  intros Hv Ht Hu. induction n as [|n IH]; cbn [Spec.layers].
  - by apply unwrap_layer.
  - destruct (quoted_layer (Base64.EncodeToString (Spec.layers n t)))
      as (H1 & H2 & H3); [apply EncodeToString_plain|].
    rewrite (unwrap_layer _ _ H1 H2 H3). exact IH.
Qed.

Lemma C2_layers_witness :
  Utf8.Valid Spec.doc_a1 = true /\
  Strings.TrimSpace Spec.doc_a1 = Spec.doc_a1 /\
  Json.Unmarshal Spec.doc_a1 = Some Spec.obj_a1 /\
  DecodeBase64Fields Spec.obj_a1 = Spec.obj_a1 /\
  DecodeBase64Fields
    (VString (Base64.EncodeToString (Spec.layers 2 Spec.doc_a1)))
  = DecodeBase64Fields Spec.obj_a1.
Proof.
  do 4 (split; [vm_compute; reflexivity|]).
  apply (C2_layers 2 Spec.doc_a1 Spec.obj_a1); vm_compute; reflexivity.
Defined.

(** C2, as the specification words it, fails: the Base64 text of the Base64
    text of the document is decoded once, to the inner Base64 text; that
    text is not JSON, so it is returned as a string and not unwrapped. *)
Lemma C2_counterexample :
  let inner := Base64.EncodeToString Spec.doc_a1 in
  let s := Base64.EncodeToString inner in
  inner = "eyJhIjoxfQ==" /\ s = "ZXlKaElqb3hmUT09" /\
  Json.Unmarshal Spec.doc_a1 = Some Spec.obj_a1 /\
  DecodeBase64Fields (VString s) = VString inner /\
  DecodeBase64Fields (VString s) <> Spec.obj_a1.
Proof.
  cbv zeta. do 4 (split; [vm_compute; reflexivity|]).
  vm_compute. discriminate.
Qed.

(** ** The fuel of the parser is never used up *)

Lemma unquote_consumes (n : nat) :
  forall s pend str rest,
    String.length s <= n ->
    Json.unquote pend s = Some (str, rest) ->
    String.length rest < String.length s.
Proof.
  induction n as [n IH] using lt_wf_ind.
  intros [|c r0] pend str rest Hn; [discriminate|].
  cbn [Json.unquote]. cbn [String.length] in Hn.
  assert (forall r o p, String.length r <= String.length r0 ->
            Json.emit o (Json.unquote p r) = Some (str, rest) ->
            String.length rest < String.length (String c r0)) as Hrec.
  { intros r o p Hr H. apply emit_Some in H as (str' & H & _).
    apply (IH (String.length r)) in H; [|lia|lia].
    cbn [String.length]. lia. }
  destruct (is_byte 34 c); [intros [= <- <-]; cbn [String.length]; lia|].
  destruct (is_byte 92 c).
  { destruct r0 as [|e r1]; [discriminate|].
    destruct (is_byte 117 e).
    - destruct r1 as [|h1 [|h2 [|h3 [|h4 r2]]]]; try discriminate.
      destruct (Json.getu4 h1 h2 h3 h4) as [rr|]; [|discriminate].
      destruct (Json.u_step pend rr) as [o p].
      apply Hrec. cbn [String.length]. lia.
    - destruct (Json.esc_char e); [|discriminate].
      apply Hrec. cbn [String.length]. lia. }
  destruct (byte_of c <? 32)%N; [discriminate|].
  destruct (Utf8.DecodeRune (String c r0)) as [[x [|[|[|[|[|k]]]]]]|];
    try (apply Hrec; lia).
  - destruct r0 as [|c1 r1]; [discriminate|].
    apply Hrec. cbn [String.length]. lia.
  - destruct r0 as [|c1 [|c2 r2]]; try discriminate.
    apply Hrec. cbn [String.length]. lia.
  - destruct r0 as [|c1 [|c2 [|c3 r3]]]; try discriminate.
    apply Hrec. cbn [String.length]. lia.
Qed.

Lemma skip_ws_length (s : string) :
  String.length (Json.skip_ws s) <= String.length s.
Proof. apply after_ascii_length, skip_ws_after. Qed.

Lemma parse_consumes (fuel : nat) :
  value_consumes fuel /\ elements_consumes fuel /\ members_consumes fuel.
Proof.
  induction fuel as [|fuel (IHv & IHe & IHm)].
  { unfold value_consumes, elements_consumes, members_consumes.
    repeat split; intros; discriminate. }
  split; [|split].
  - intros depth s v rest. cbn [Json.parse_value].
    pose proof (skip_ws_length s) as Hs.
    destruct (Json.skip_ws s) as [|c r]; [discriminate|].
    cbn [String.length] in Hs.
    destruct (is_byte 123 c).
    { destruct depth as [|depth']; [discriminate|].
      pose proof (skip_ws_length r) as Hr.
      destruct (Json.skip_ws r) as [|c' r']; [discriminate|].
      destruct (is_byte 125 c').
      - intros [= <- <-]. cbn [String.length] in Hr. lia.
      - intros H. apply IHm in H. lia. }
    destruct (is_byte 91 c).
    { destruct depth as [|depth']; [discriminate|].
      pose proof (skip_ws_length r) as Hr.
      destruct (Json.skip_ws r) as [|c' r']; [discriminate|].
      destruct (is_byte 93 c').
      - intros [= <- <-]. cbn [String.length] in Hr. lia.
      - intros H. apply IHe in H. lia. }
    destruct (is_byte 34 c).
    { destruct (Json.unquote None r) as [[str rest']|] eqn:Hu; [|discriminate].
      intros [= <- <-].
      apply (unquote_consumes (String.length r)) in Hu; lia. }
    assert (forall p, Json.strip_prefix p r = Some rest ->
              String.length rest < String.length s) as Hlit.
    { intros p. revert r Hs. induction p as [|a p IHp]; intros r Hs.
      - intros [= <-]. lia.
      - cbn [Json.strip_prefix]. destruct r as [|b r]; [discriminate|].
        destruct (Ascii.eqb a b); [|discriminate].
        apply IHp. cbn [String.length] in Hs. lia. }
    destruct (is_byte 116 c).
    { destruct (Json.strip_prefix "rue" r) eqn:Hp; [|discriminate].
      intros [= <- <-]. by apply (Hlit "rue"). }
    destruct (is_byte 102 c).
    { destruct (Json.strip_prefix "alse" r) eqn:Hp; [|discriminate].
      intros [= <- <-]. by apply (Hlit "alse"). }
    destruct (is_byte 110 c).
    { destruct (Json.strip_prefix "ull" r) eqn:Hp; [|discriminate].
      intros [= <- <-]. by apply (Hlit "ull"). }
    destruct (Json.scan_number (String c r)) as [[l rest']|] eqn:Hn;
      [|discriminate].
    destruct (Strconv.ParseFloat l); [|discriminate].
    intros [= <- <-]. apply scan_number_after in Hn as [_ Hn].
    cbn [String.length] in Hn. lia.
  - intros depth acc s v rest. cbn [Json.parse_elements].
    destruct (Json.parse_value fuel depth s) as [[v1 rest1]| |] eqn:Hp;
      try discriminate.
    apply IHv in Hp. pose proof (skip_ws_length rest1) as Hs.
    destruct (Json.skip_ws rest1) as [|c r]; [discriminate|].
    cbn [String.length] in Hs.
    destruct (is_byte 44 c); [intros H; apply IHe in H; lia|].
    destruct (is_byte 93 c); [|discriminate].
    intros [= <- <-]. lia.
  - intros depth m s v rest. cbn [Json.parse_members].
    pose proof (skip_ws_length s) as Hs.
    destruct (Json.skip_ws s) as [|q r]; [discriminate|].
    cbn [String.length] in Hs.
    destruct (is_byte 34 q); [|discriminate].
    destruct (Json.unquote None r) as [[key r1]|] eqn:Hu; [|discriminate].
    apply (unquote_consumes (String.length r)) in Hu; [|lia].
    pose proof (skip_ws_length r1) as Hs1.
    destruct (Json.skip_ws r1) as [|c r2]; [discriminate|].
    cbn [String.length] in Hs1.
    destruct (is_byte 58 c); [|discriminate].
    destruct (Json.parse_value fuel depth r2) as [[v1 rest1]| |] eqn:Hp;
      try discriminate.
    apply IHv in Hp. pose proof (skip_ws_length rest1) as Hs2.
    destruct (Json.skip_ws rest1) as [|c' r3]; [discriminate|].
    cbn [String.length] in Hs2.
    destruct (is_byte 44 c'); [intros H; apply IHm in H; lia|].
    destruct (is_byte 125 c'); [|discriminate].
    intros [= <- <-]. lia.
Qed.

Lemma parse_fuel (fuel : nat) :
  (forall depth s, 2 * String.length s < fuel ->
     Json.parse_value fuel depth s <> Json.OutOfFuel) /\
  (forall depth acc s, 2 * String.length s + 1 < fuel ->
     Json.parse_elements fuel depth acc s <> Json.OutOfFuel) /\
  (forall depth m s, 2 * String.length s + 1 < fuel ->
     Json.parse_members fuel depth m s <> Json.OutOfFuel).
Proof.
  induction fuel as [|fuel (IHv & IHe & IHm)]; [repeat split; intros; lia|].
  destruct (parse_consumes fuel) as (Cv & Ce & Cm).
  split; [|split].
  - intros depth s Hf. cbn [Json.parse_value].
    pose proof (skip_ws_length s) as Hs.
    destruct (Json.skip_ws s) as [|c r]; [discriminate|].
    cbn [String.length] in Hs.
    destruct (is_byte 123 c).
    { destruct depth as [|depth']; [discriminate|].
      pose proof (skip_ws_length r) as Hr.
      destruct (Json.skip_ws r) as [|c' r']; [discriminate|].
      destruct (is_byte 125 c'); [discriminate|]. apply IHm. lia. }
    destruct (is_byte 91 c).
    { destruct depth as [|depth']; [discriminate|].
      pose proof (skip_ws_length r) as Hr.
      destruct (Json.skip_ws r) as [|c' r']; [discriminate|].
      destruct (is_byte 93 c'); [discriminate|]. apply IHe. lia. }
    destruct (is_byte 34 c); [by destruct (Json.unquote None r) as [[? ?]|]|].
    destruct (is_byte 116 c); [by destruct (Json.strip_prefix "rue" r)|].
    destruct (is_byte 102 c); [by destruct (Json.strip_prefix "alse" r)|].
    destruct (is_byte 110 c); [by destruct (Json.strip_prefix "ull" r)|].
    destruct (Json.scan_number (String c r)) as [[l rest']|]; [|discriminate].
    by destruct (Strconv.ParseFloat l).
  - intros depth acc s Hf. cbn [Json.parse_elements].
    destruct (Json.parse_value fuel depth s) as [[v1 rest1]| |] eqn:Hp;
      [|discriminate|by apply IHv in Hp; [|lia]].
    apply Cv in Hp. pose proof (skip_ws_length rest1) as Hs.
    destruct (Json.skip_ws rest1) as [|c r]; [discriminate|].
    cbn [String.length] in Hs.
    destruct (is_byte 44 c); [apply IHe; lia|].
    by destruct (is_byte 93 c).
  - intros depth m s Hf. cbn [Json.parse_members].
    pose proof (skip_ws_length s) as Hs.
    destruct (Json.skip_ws s) as [|q r]; [discriminate|].
    cbn [String.length] in Hs.
    destruct (is_byte 34 q); [|discriminate].
    destruct (Json.unquote None r) as [[key r1]|] eqn:Hu; [|discriminate].
    apply (unquote_consumes (String.length r)) in Hu; [|lia].
    pose proof (skip_ws_length r1) as Hs1.
    destruct (Json.skip_ws r1) as [|c r2]; [discriminate|].
    cbn [String.length] in Hs1.
    destruct (is_byte 58 c); [|discriminate].
    destruct (Json.parse_value fuel depth r2) as [[v1 rest1]| |] eqn:Hp;
      [|discriminate|by apply IHv in Hp; [|lia]].
    apply Cv in Hp. pose proof (skip_ws_length rest1) as Hs2.
    destruct (Json.skip_ws rest1) as [|c' r3]; [discriminate|].
    cbn [String.length] in Hs2.
    destruct (is_byte 44 c'); [apply IHm; lia|].
    by destruct (is_byte 125 c').
Qed.

(** [json.Unmarshal] gives its parser enough fuel: a [None] is an error of
    the text, never an exhausted bound. *)
Lemma Unmarshal_fuel (data : string) (depth : nat) :
  Json.parse_value (2 * String.length data + 2) depth data <> Json.OutOfFuel.
Proof. apply (proj1 (parse_fuel _)). lia. Qed.

(** ** Marshal: strings *)

Lemma append_assoc (a b c : string) : (a +:+ b) +:+ c = a +:+ (b +:+ c).
Proof.
  induction a as [|x a IH]; [done|].
  change (String x ((a +:+ b) +:+ c) = String x (a +:+ b +:+ c)). by f_equal.
Qed.

Lemma unquote_escape_ascii (c : ascii) (k : string) :
  (byte_of c <? 128)%N = true -> JsonEncode.htmlSafe c = false ->
  Json.unquote None (JsonEncode.escape_ascii c +:+ k)
  = Json.emit (String c "") (Json.unquote None k).
Proof.
  destruct c as [[] [] [] [] [] [] [] []]; intros H1 H2;
    try discriminate H1; try discriminate H2; reflexivity.
Qed.

Lemma htmlSafe_plain (c : ascii) :
  JsonEncode.htmlSafe c = true -> plain_char c = true.
Proof.
  unfold JsonEncode.htmlSafe, plain_char.
  rewrite !andb_true_iff, !negb_true_iff, !orb_false_iff. tauto.
Qed.

Section rune_2028.
Local Open Scope N_scope.

Lemma decode3_value (c0 c1 c2 : ascii) :
  N.lor (N.lor (N.shiftl (N.land (byte_of c0) 15) 12)
               (N.shiftl (Utf8.low6 c1) 6)) (Utf8.low6 c2)
  = (byte_of c0 mod 16) * 4096 + (byte_of c1 mod 64) * 64 + byte_of c2 mod 64.
Proof.
  unfold Utf8.low6.
  change 15 with (N.ones 4). change 63 with (N.ones 6).
  rewrite !N.land_ones.
  change (2 ^ 4) with 16. change (2 ^ 6) with 64.
  assert (byte_of c1 mod 64 < 64) by (by apply N.mod_lt).
  assert (byte_of c2 mod 64 < 64) by (by apply N.mod_lt).
  assert (N.lor (N.shiftl (byte_of c0 mod 16) 12)
                (N.shiftl (byte_of c1 mod 64) 6)
          = N.shiftl ((byte_of c0 mod 16) * 64 + byte_of c1 mod 64) 6) as ->.
  { rewrite <- (N.shiftl_shiftl _ 6 6), <- N.shiftl_lor.
    f_equal. by rewrite lor_shiftl_add. }
  rewrite lor_shiftl_add by done.
  change (2 ^ 6) with 64. lia.
Qed.

(** The only encodings of U+2028 and U+2029. *)
Lemma DecodeRune_line_separator (c0 c1 c2 : ascii) (r2 : string) (x : N) :
  Utf8.DecodeRune (String c0 (String c1 (String c2 r2))) = Some (x, 3%nat) ->
  x = 8232 \/ x = 8233 ->
  c0 = chr 226 /\ c1 = chr 128 /\ c2 = chr (x - 8064).
Proof.
  unfold Utf8.DecodeRune.
  destruct (Utf8.lead c0) as [[size [lo hi]]|] eqn:Hl; [|discriminate].
  destruct (decide (size = 3%nat)) as [->|Hne];
    [|intros; repeat case_match; simplify_eq].
  destruct (in_range lo hi c1) eqn:H1; [|discriminate].
  destruct (Utf8.is_cont c2) eqn:H2; [|discriminate].
  rewrite decode3_value. intros [= Hx] Hcase.
  apply in_range_bounds in H1, H2.
  assert (224 <= byte_of c0 <= 239 /\ 128 <= lo /\ hi <= 191) as (B0 & Blo & Bhi).
  { revert Hl. unfold Utf8.lead, in_range, is_byte.
    repeat match goal with
           | |- context [(?a <? ?b)] => destruct (N.ltb_spec a b)
           | |- context [(?a <=? ?b)] => destruct (N.leb_spec a b)
           | |- context [(?a =? ?b)] => destruct (N.eqb_spec a b)
           end; cbn [andb]; intros [= <- <-]; lia. }
  pose proof (N.mod_lt (byte_of c0) 16 ltac:(lia)).
  pose proof (N.mod_lt (byte_of c1) 64 ltac:(lia)).
  pose proof (N.mod_lt (byte_of c2) 64 ltac:(lia)).
  pose proof (N.div_mod (byte_of c0) 16 ltac:(lia)).
  pose proof (N.div_mod (byte_of c1) 64 ltac:(lia)).
  pose proof (N.div_mod (byte_of c2) 64 ltac:(lia)).
  generalize dependent (byte_of c0 mod 16). generalize dependent (byte_of c0 / 16).
  generalize dependent (byte_of c1 mod 64). generalize dependent (byte_of c1 / 64).
  generalize dependent (byte_of c2 mod 64). generalize dependent (byte_of c2 / 64).
  intros q2 r2' ? ? q1 r1' ? ? q0 r0' ? ? ?.
  assert (r0' = 2 /\ r1' = 0 /\ r2' = x - 8192) as (-> & -> & ->) by lia.
  assert (byte_of c0 = 226 /\ byte_of c1 = 128 /\ byte_of c2 = x - 8064)
    as (E0 & E1 & E2) by lia.
  rewrite <- (chr_byte_of c0), <- (chr_byte_of c1), <- (chr_byte_of c2).
  by rewrite E0, E1, E2.
Qed.

End rune_2028.

Lemma unquote_copy1 (c : ascii) (rest : string) :
  plain_char c = true ->
  Json.unquote None (String c rest) = Json.emit (String c "") (Json.unquote None rest).
Proof.
  intros (Hc & Hq & Hb)%plain_char_inv.
  cbn [Json.unquote]. rewrite Hq, Hb.
  destruct (N.ltb_spec (byte_of c) 32); [lia|].
  by rewrite DecodeRune_ascii by lia.
Qed.

Lemma high_not_special (c : ascii) :
  (128 <= byte_of c)%N ->
  is_byte 34 c = false /\ is_byte 92 c = false /\ (byte_of c <? 32)%N = false.
Proof.
  intros H. unfold is_byte. repeat split.
  - apply N.eqb_neq. lia.
  - apply N.eqb_neq. lia.
  - apply N.ltb_ge. lia.
Qed.

Lemma emit_Some_eq (o str rest : string) :
  Json.emit o (Some (str, rest)) = Some (o +:+ str, rest).
Proof. reflexivity. Qed.

Lemma unquote_appendString (n : nat) :
  forall s k,
    String.length s <= n -> Utf8.Valid s = true ->
    Json.unquote None (JsonEncode.appendString s +:+ String JsonEncode.dquote k)
    = Some (s, k).
Proof.
  induction n as [n IH] using lt_wf_ind. intros s k Hn Hv.
  destruct s as [|c r0]; [reflexivity|].
  cbn [String.length] in Hn. cbn [JsonEncode.appendString].
  destruct (N.ltb_spec (byte_of c) 128) as [Hc|Hc].
  - cbn [Utf8.Valid] in Hv. rewrite DecodeRune_ascii in Hv by done.
    rewrite append_assoc.
    assert (Json.unquote None (JsonEncode.appendString r0 +:+ String JsonEncode.dquote k)
            = Some (r0, k)) as IH0 by (apply (IH (String.length r0)); [lia|done..]).
    destruct (JsonEncode.htmlSafe c) eqn:Hs.
    + change (String c "" +:+ ?x) with (String c x).
      rewrite unquote_copy1 by (by apply htmlSafe_plain). by rewrite IH0.
    + rewrite unquote_escape_ascii by (done || by apply N.ltb_lt). by rewrite IH0.
  - destruct (high_not_special c Hc) as (Hq & Hb & Hl).
    cbn [Utf8.Valid] in Hv.
    destruct (Utf8.DecodeRune (String c r0)) as [[x [|[|[|[|[|size]]]]]]|] eqn:Hd;
      try discriminate Hv.
    + apply DecodeRune_inv in Hd as (c0 & r' & [= <- <-] & Hlt & _). lia.
    + apply DecodeRune_inv in Hd as (c0 & c1 & r1 & [= <- ->] & _ & Hloc).
      change (String c (String c1 (JsonEncode.appendString r1)) +:+ ?x)
        with (String c (String c1 (JsonEncode.appendString r1 +:+ x))).
      cbn [Json.unquote]. rewrite Hq, Hb, Hl, Hloc.
      rewrite (IH (String.length r1)); [done| |done..]; cbn [String.length] in Hn; lia.
    + pose proof Hd as Hd'.
      apply DecodeRune_inv in Hd as (c0 & c1 & c2 & r2 & [= <- ->] & _ & _ & Hloc).
      cbn [String.length] in Hn. rewrite append_assoc.
      assert (Json.unquote None (JsonEncode.appendString r2 +:+ String JsonEncode.dquote k)
              = Some (r2, k)) as IH2 by (apply (IH (String.length r2)); [lia|done..]).
      destruct ((x =? 8232) || (x =? 8233))%N eqn:Hx.
      * apply orb_true_iff in Hx. rewrite !N.eqb_eq in Hx.
        destruct (DecodeRune_line_separator _ _ _ _ _ Hd' Hx) as (-> & -> & ->).
        destruct Hx as [->| ->].
        -- change (Json.unquote None (String JsonEncode.backslash ("u202" +:+ String (JsonEncode.hex_at (N.land 8232 15)) "") +:+ ?y))
             with (Json.emit (Utf8.EncodeRune 8232) (Json.unquote None y)).
           by rewrite IH2.
        -- change (Json.unquote None (String JsonEncode.backslash ("u202" +:+ String (JsonEncode.hex_at (N.land 8233 15)) "") +:+ ?y))
             with (Json.emit (Utf8.EncodeRune 8233) (Json.unquote None y)).
           by rewrite IH2.
      * change (String c (String c1 (String c2 "")) +:+ ?x)
          with (String c (String c1 (String c2 x))).
        cbn [Json.unquote]. rewrite Hq, Hb, Hl, Hloc. by rewrite IH2.
    + apply DecodeRune_inv in Hd as (c0 & c1 & c2 & c3 & r3 & [= <- ->] & _ & _ & _ & Hloc).
      cbn [String.length] in Hn.
      change (String c (String c1 (String c2 (String c3 (JsonEncode.appendString r3)))) +:+ ?x)
        with (String c (String c1 (String c2 (String c3 (JsonEncode.appendString r3 +:+ x))))).
      cbn [Json.unquote]. rewrite Hq, Hb, Hl, Hloc.
      rewrite (IH (String.length r3)); [done|lia|lia|done].
Qed.

(** ** Marshal: numbers *)

Lemma append_nil_r (a : string) : a +:+ "" = a.
Proof.
  induction a as [|x a IH]; [done|].
  change (String x (a +:+ "") = String x a). by f_equal.
Qed.

Lemma all_chars_app (p : ascii -> bool) (a b : string) :
  all_chars p (a +:+ b) = all_chars p a && all_chars p b.
Proof.
  induction a as [|x a IH]; [done|].
  change (String x a +:+ b) with (String x (a +:+ b)).
  cbn [all_chars]. by rewrite IH, andb_assoc.
Qed.

Lemma delim_inv (c : ascii) (r : string) :
  delim (String c r) = true ->
  Strconv.is_digit c = false /\ is_byte 46 c = false /\
  is_byte 101 c = false /\ is_byte 69 c = false /\ Json.isSpace c = false.
Proof.
  cbn [delim]. unfold is_byte, Strconv.is_digit, in_range, Json.isSpace, is_byte.
  rewrite !orb_true_iff, !N.eqb_eq. intros H.
  repeat split;
    repeat (apply orb_false_iff; split);
    try (apply andb_false_iff; rewrite !N.leb_gt); try (apply N.eqb_neq); lia.
Qed.

Lemma span_digits_local (s : string) :
  forall d r rest,
    Json.span_digits s = (d, r) -> delim rest = true ->
    Json.span_digits (s +:+ rest) = (d, r +:+ rest).
Proof.
  induction s as [|c s IH]; intros d r rest.
  - intros [= <- <-] Hr. destruct rest as [|c r]; [done|].
    apply delim_inv in Hr as (Hd & _).
    change ("" +:+ String c r) with (String c r).
    cbn [Json.span_digits]. by rewrite Hd.
  - change (String c s +:+ rest) with (String c (s +:+ rest)).
    cbn [Json.span_digits]. destruct (Strconv.is_digit c).
    + destruct (Json.span_digits s) as [d' r'] eqn:Hs. intros [= <- <-] Hr.
      by rewrite (IH d' r' rest eq_refl Hr).
    + by intros [= <- <-] _.
Qed.

Lemma span_digits_chars (s : string) :
  forall d r, Json.span_digits s = (d, r) ->
    s = d +:+ r /\ all_chars Strconv.is_digit d = true.
Proof.
  induction s as [|c s IH]; intros d r.
  - by intros [= <- <-].
  - cbn [Json.span_digits]. destruct (Strconv.is_digit c) eqn:Hc.
    + destruct (Json.span_digits s) as [d' r'] eqn:Hs. intros [= <- <-].
      destruct (IH d' r' eq_refl) as [-> Hd]. split; [done|].
      cbn [all_chars]. by rewrite Hc.
    + by intros [= <- <-].
Qed.

Lemma scan_exp_local (sign : bool) (i f s : string) (l : Strconv.numlit) (r rest : string) :
  Json.scan_exp sign i f s = Some (l, r) -> delim rest = true ->
  Json.scan_exp sign i f (s +:+ rest) = Some (l, r +:+ rest).
Proof.
  destruct s as [|c s].
  - intros [= <- <-] Hr. destruct rest as [|c r]; [done|].
    apply delim_inv in Hr as (_ & _ & He & HE & _).
    change ("" +:+ String c r) with (String c r).
    cbn [Json.scan_exp]. by rewrite He, HE.
  - change (String c s +:+ rest) with (String c (s +:+ rest)).
    cbn [Json.scan_exp]. destruct (is_byte 101 c || is_byte 69 c).
    + intros H Hr.
      assert (forall eneg r1,
                (let '(es, r2) := Json.span_digits r1 in
                 if Json.is_empty es then None
                 else Some (Strconv.NumLit sign i f eneg es, r2)) = Some (l, r) ->
                (let '(es, r2) := Json.span_digits (r1 +:+ rest) in
                 if Json.is_empty es then None
                 else Some (Strconv.NumLit sign i f eneg es, r2)) = Some (l, r +:+ rest))
        as Hk.
      { intros eneg r1. destruct (Json.span_digits r1) as [es r2] eqn:Hs.
        rewrite (span_digits_local _ _ _ _ Hs Hr).
        destruct (Json.is_empty es); [done|]. by intros [= <- <-]. }
      destruct s as [|c' s'].
      * discriminate H.
      * change (String c' s' +:+ rest) with (String c' (s' +:+ rest)).
        revert H. cbv beta iota.
        destruct (is_byte 43 c'); [exact (Hk _ _)|].
        destruct (is_byte 45 c'); [exact (Hk _ _)|].
        exact (Hk false (String c' s')).
    + by intros [= <- <-] _.
Qed.

Lemma scan_frac_local (sign : bool) (i s : string) (l : Strconv.numlit) (r rest : string) :
  Json.scan_frac sign i s = Some (l, r) -> delim rest = true ->
  Json.scan_frac sign i (s +:+ rest) = Some (l, r +:+ rest).
Proof.
  destruct s as [|c s].
  - intros H Hr. cbn [Json.scan_frac] in H.
    pose proof (scan_exp_local _ _ _ _ _ _ _ H Hr) as H'.
    change ("" +:+ rest) with rest in *.
    destruct rest as [|c r']; [done|].
    pose proof Hr as Hr'. apply delim_inv in Hr' as (_ & Hp & _).
    cbn [Json.scan_frac]. by rewrite Hp.
  - change (String c s +:+ rest) with (String c (s +:+ rest)).
    cbn [Json.scan_frac]. destruct (is_byte 46 c).
    + destruct (Json.span_digits s) as [fs r'] eqn:Hs. intros H Hr.
      rewrite (span_digits_local _ _ _ _ Hs Hr).
      destruct (Json.is_empty fs); [done|]. by apply scan_exp_local.
    + intros H Hr. by apply (scan_exp_local _ _ _ (String c s)).
Qed.

Lemma scan_number_local (s : string) (l : Strconv.numlit) (r rest : string) :
  Json.scan_number s = Some (l, r) -> delim rest = true ->
  Json.scan_number (s +:+ rest) = Some (l, r +:+ rest).
Proof.
  intros H Hr. unfold Json.scan_number in *.
  assert (forall sign s1,
            match s1 with
            | String c r0 =>
                if is_byte 48 c then Json.scan_frac sign (String c "") r0
                else if in_range 49 57 c then
                  let '(ds, r') := Json.span_digits r0 in
                  Json.scan_frac sign (String c ds) r'
                else None
            | EmptyString => None
            end = Some (l, r) ->
            match s1 +:+ rest with
            | String c r0 =>
                if is_byte 48 c then Json.scan_frac sign (String c "") r0
                else if in_range 49 57 c then
                  let '(ds, r') := Json.span_digits r0 in
                  Json.scan_frac sign (String c ds) r'
                else None
            | EmptyString => None
            end = Some (l, r +:+ rest)) as Hk.
  { intros sign [|c r0]; [done|].
    change (String c r0 +:+ rest) with (String c (r0 +:+ rest)).
    cbv beta iota.
    destruct (is_byte 48 c);
      [intros H'; exact (scan_frac_local _ _ _ _ _ _ H' Hr)|].
    destruct (in_range 49 57 c); [|done].
    destruct (Json.span_digits r0) as [ds r'] eqn:Hs.
    rewrite (span_digits_local _ _ _ _ Hs Hr). intros H'.
    exact (scan_frac_local _ _ _ _ _ _ H' Hr). }
  destruct s as [|c s]; [discriminate H|].
  change (String c s +:+ rest) with (String c (s +:+ rest)).
  revert H. cbv beta iota.
  destruct (is_byte 45 c); [exact (Hk _ _)|].
  exact (Hk false (String c s)).
Qed.

Lemma all_chars_impl (p q : ascii -> bool) (s : string) :
  (forall c, p c = true -> q c = true) ->
  all_chars p s = true -> all_chars q s = true.
Proof.
  intros Hpq. induction s as [|c s IH]; [done|]. cbn [all_chars].
  rewrite !andb_true_iff. intros [Hc Hs]. auto.
Qed.

Lemma digit_numchar (c : ascii) : Strconv.is_digit c = true -> numchar c = true.
Proof. unfold numchar. by intros ->. Qed.

Lemma scan_exp_chars (sign : bool) (i f s : string) (l : Strconv.numlit) (r : string) :
  Json.scan_exp sign i f s = Some (l, r) ->
  exists p, s = p +:+ r /\ all_chars numchar p = true.
Proof.
  destruct s as [|c s]; [intros [= <- <-]; by exists ""|].
  cbn [Json.scan_exp]. destruct (is_byte 101 c || is_byte 69 c) eqn:Hc;
    [|intros [= <- <-]; by exists ""].
  assert (numchar c = true) as Hn.
  { unfold numchar. apply orb_true_iff in Hc as [-> | ->];
      by rewrite ?orb_true_r. }
  assert (forall eneg r1 pre,
            s = pre +:+ r1 -> all_chars numchar pre = true ->
            (let '(es, r2) := Json.span_digits r1 in
             if Json.is_empty es then None
             else Some (Strconv.NumLit sign i f eneg es, r2)) = Some (l, r) ->
            exists p, String c s = p +:+ r /\ all_chars numchar p = true) as Hk.
  { intros eneg r1 pre -> Hpre. destruct (Json.span_digits r1) as [es r2] eqn:Hs.
    apply span_digits_chars in Hs as [-> Hes].
    destruct (Json.is_empty es); [done|]. intros [= <- <-].
    exists (String c (pre +:+ es)). split.
    - change (String c (pre +:+ es) +:+ r2) with (String c ((pre +:+ es) +:+ r2)).
      by rewrite append_assoc.
    - cbn [all_chars]. rewrite Hn, all_chars_app, Hpre.
      by rewrite (all_chars_impl _ _ _ digit_numchar Hes). }
  destruct s as [|c' s']; [discriminate|].
  destruct (is_byte 43 c') eqn:H43.
  { apply (Hk false s' (String c' "")); [done|].
    cbn [all_chars]. unfold numchar. by rewrite H43, ?orb_true_r. }
  destruct (is_byte 45 c') eqn:H45.
  { apply (Hk true s' (String c' "")); [done|].
    cbn [all_chars]. unfold numchar. by rewrite H45, ?orb_true_r. }
  by apply (Hk false (String c' s') "").
Qed.

Lemma scan_frac_chars (sign : bool) (i s : string) (l : Strconv.numlit) (r : string) :
  Json.scan_frac sign i s = Some (l, r) ->
  exists p, s = p +:+ r /\ all_chars numchar p = true.
Proof.
  destruct s as [|c s]; [apply scan_exp_chars|].
  cbn [Json.scan_frac]. destruct (is_byte 46 c) eqn:Hc; [|apply scan_exp_chars].
  destruct (Json.span_digits s) as [fs r'] eqn:Hs.
  apply span_digits_chars in Hs as [-> Hfs].
  destruct (Json.is_empty fs); [done|].
  intros (p & -> & Hp)%scan_exp_chars.
  exists (String c (fs +:+ p)). split.
  - change (String c (fs +:+ p) +:+ r) with (String c ((fs +:+ p) +:+ r)).
    by rewrite append_assoc.
  - cbn [all_chars]. rewrite all_chars_app, Hp.
    rewrite (all_chars_impl _ _ _ digit_numchar Hfs).
    unfold numchar. by rewrite Hc, ?orb_true_r.
Qed.

Lemma scan_number_chars (s : string) (l : Strconv.numlit) (r : string) :
  Json.scan_number s = Some (l, r) ->
  exists c p, s = String c p +:+ r /\ all_chars numchar (String c p) = true.
Proof.
  unfold Json.scan_number.
  assert (forall sign s1,
            match s1 with
            | String c r0 =>
                if is_byte 48 c then Json.scan_frac sign (String c "") r0
                else if in_range 49 57 c then
                  let '(ds, r') := Json.span_digits r0 in
                  Json.scan_frac sign (String c ds) r'
                else None
            | EmptyString => None
            end = Some (l, r) ->
            exists c p, s1 = String c p +:+ r /\
                        all_chars numchar (String c p) = true) as Hk.
  { intros sign [|c r0]; [done|].
    assert (forall ds r', r0 = ds +:+ r' ->
              all_chars Strconv.is_digit ds = true ->
              Strconv.is_digit c = true ->
              Json.scan_frac sign (String c ds) r' = Some (l, r) ->
              exists c0 p, String c r0 = String c0 p +:+ r /\
                           all_chars numchar (String c0 p) = true) as Hfin.
    { intros ds r' -> Hds Hc (p & -> & Hp)%scan_frac_chars.
      exists c, (ds +:+ p). split.
      - change (String c (ds +:+ p) +:+ r) with (String c ((ds +:+ p) +:+ r)).
        by rewrite append_assoc.
      - cbn [all_chars]. rewrite all_chars_app, Hp.
        rewrite (all_chars_impl _ _ _ digit_numchar Hds).
        by rewrite (digit_numchar _ Hc). }
    destruct (is_byte 48 c) eqn:H0.
    - apply (Hfin "" r0); [done..|].
      apply is_byte_eq in H0. unfold Strconv.is_digit, in_range.
      apply andb_true_iff. rewrite !N.leb_le. lia.
    - destruct (in_range 49 57 c) eqn:H1; [|done].
      destruct (Json.span_digits r0) as [ds r'] eqn:Hs.
      apply span_digits_chars in Hs as [-> Hds].
      apply (Hfin ds r'); [done..|].
      apply in_range_bounds in H1. unfold Strconv.is_digit, in_range.
      apply andb_true_iff. rewrite !N.leb_le. lia. }
  destruct s as [|c s]; [done|]. cbv beta iota.
  destruct (is_byte 45 c) eqn:Hc; [|exact (Hk false (String c s))].
  intros (c0 & p & -> & Hp)%Hk.
  exists c, (String c0 p). split; [done|].
  cbn [all_chars] in *. unfold numchar at 1. by rewrite Hc, Hp, ?orb_true_r.
Qed.

Lemma numchar_inv (c : ascii) :
  numchar c = true ->
  nonspace_ascii c = true /\ Json.isSpace c = false /\
  is_byte 93 c = false /\ is_byte 125 c = false /\
  is_byte 123 c = false /\ is_byte 91 c = false /\
  is_byte 34 c = false /\ is_byte 116 c = false /\ is_byte 102 c = false /\
  is_byte 110 c = false.
Proof.
  destruct c as [[] [] [] [] [] [] [] []]; intros H; try discriminate H;
    repeat split; reflexivity.
Qed.

Lemma float_eqb_eq (a b : spec_float) : JsonEncode.float_eqb a b = true -> a = b.
Proof.
  destruct a as [s| | |s m e], b as [s'| | |s' m' e']; try discriminate; cbn.
  - by intros ->%Bool.eqb_prop.
  - rewrite !andb_true_iff. intros [[->%Bool.eqb_prop ->%Pos.eqb_eq] ->%Z.eqb_eq].
    done.
Qed.

(** What [floatEncoder] writes: [%f], and [%e] below 1e-6 and from 1e21
    on; a literal out of range has no number to write. *)
Example FormatFloat_examples :
  rewrite_number false "1" "" false "" = Some "1" /\
  rewrite_number true "0" "" false "" = Some "-0" /\
  rewrite_number false "0" "1" false "" = Some "0.1" /\
  rewrite_number false "100" "0" false "" = Some "100" /\
  rewrite_number true "12" "50" false "1" = Some "-125" /\
  rewrite_number false "0" "000001" false "" = Some "0.000001" /\
  rewrite_number false "0" "0000001" false "" = Some "1e-7" /\
  rewrite_number false "1" "" false "20" = Some "100000000000000000000" /\
  rewrite_number false "1" "" false "21" = Some "1e+21" /\
  rewrite_number false "0" "30000000000000004" false "" = Some "0.30000000000000004" /\
  rewrite_number false "5" "" true "324" = Some "5e-324" /\
  rewrite_number false "1" "7976931348623157" false "308"
  = Some "1.7976931348623157e+308" /\
  rewrite_number false "1" "" false "309" = None.
Proof. vm_compute. repeat split. Qed.

Lemma FormatFloat_reads_back (f : spec_float) (lit : string) :
  JsonEncode.FormatFloat f = Some lit -> JsonEncode.reads_back lit f = true.
Proof.
  unfold JsonEncode.FormatFloat. destruct (JsonEncode.layout f) as [lit'|]; [|done].
  destruct (JsonEncode.reads_back lit' f) eqn:H; [|done]. by intros [= <-].
Qed.

(** A literal that reads back as [f] is parsed to [f] wherever a value may
    stand. *)
Lemma parse_value_number (lit : string) (f : spec_float) (fuel depth : nat) (rest : string) :
  JsonEncode.reads_back lit f = true -> delim rest = true ->
  Json.parse_value (S fuel) depth (lit +:+ rest) = Json.Ok (VNumber f, rest).
Proof.
  unfold JsonEncode.reads_back.
  destruct (Json.scan_number lit) as [[l [|? ?]]|] eqn:Hs; try done.
  destruct (Strconv.ParseFloat l) as [f'|] eqn:Hp; [|done].
  intros <-%float_eqb_eq Hr.
  pose proof (scan_number_local _ _ _ _ Hs Hr) as Hs'.
  apply scan_number_chars in Hs as (c & p & -> & Hc).
  rewrite append_nil_r in *.
  cbn [all_chars] in Hc. apply andb_true_iff in Hc as [Hc _].
  apply numchar_inv in Hc as (_ & Hsp & _ & _ & H1 & H2 & H3 & H4 & H5 & H6).
  change (String c p +:+ rest) with (String c (p +:+ rest)) in *.
  cbn [Json.parse_value Json.skip_ws]. rewrite Hsp, H1, H2, H3, H4, H5, H6.
  change ("" +:+ rest) with rest in Hs'. by rewrite Hs', Hp.
Qed.

(** ** Marshal: arrays and objects *)

Lemma Forall2_elem_of_r {A B : Type} (P : A -> B -> Prop) (l : list A) (k : list B) (y : B) :
  Forall2 P l k -> y ∈ k -> exists x, x ∈ l /\ P x y.
Proof.
  induction 1 as [|x y' l k Hxy _ IH]; intros Hy.
  - by apply elem_of_nil in Hy.
  - apply elem_of_cons in Hy as [->|Hy].
    + exists x. split; [left | done].
    + destruct (IH Hy) as (x' & Hx' & HP). exists x'. split; [by right | done].
Qed.

Lemma Forall2_elem_of_l {A B : Type} (P : A -> B -> Prop) (l : list A) (k : list B) (x : A) :
  Forall2 P l k -> x ∈ l -> exists y, y ∈ k /\ P x y.
Proof.
  induction 1 as [|x' y l k Hxy _ IH]; intros Hx.
  - by apply elem_of_nil in Hx.
  - apply elem_of_cons in Hx as [->|Hx].
    + exists y. split; [left | done].
    + destruct (IH Hx) as (y' & Hy' & HP). exists y'. split; [by right | done].
Qed.

Lemma Marshal_array_inv (l : list value) (t : string) :
  JsonEncode.Marshal (VArray l) = Some t ->
  exists ts, Forall2 (fun v t' => JsonEncode.Marshal v = Some t') l ts /\
             t = "[" +:+ JsonEncode.join ts +:+ "]".
Proof.
  cbn [JsonEncode.Marshal].
  destruct (mapM id (JsonEncode.Marshal <$> l)) as [ts|] eqn:Hm; [|done].
  intros [= <-]. exists ts. split; [|done].
  apply mapM_Some in Hm. by apply Forall2_fmap_l in Hm.
Qed.

Lemma Marshal_object_inv (m : gmap string value) (t : string) :
  JsonEncode.Marshal (VObject m) = Some t ->
  exists kts,
    t = "{" +:+ JsonEncode.join (JsonEncode.member <$> kts) +:+ "}" /\
    Forall (fun kt => exists v, m !! kt.1 = Some v /\
                                JsonEncode.Marshal v = Some kt.2) kts /\
    (forall k, is_Some (m !! k) -> k ∈ kts.*1).
Proof.
  cbn [JsonEncode.Marshal].
  destruct (mapM _ _) as [kts|] eqn:Hm; [|done].
  intros [= <-]. exists kts. split; [done|].
  apply mapM_Some in Hm.
  set (L := merge_sort JsonEncode.key_le _) in Hm.
  assert (forall k o, (k, o) ∈ L <-> (JsonEncode.Marshal <$> m) !! k = Some o) as HL.
  { intros k o. unfold L. rewrite merge_sort_Permutation.
    apply elem_of_map_to_list. }
  split.
  - apply Forall_forall. intros [k t'] Hkt.
    destruct (Forall2_elem_of_r _ _ _ _ Hm Hkt) as ([k' o] & Hin & Hkey).
    unfold JsonEncode.keyed in Hkey. cbn in Hkey.
    destruct o as [t''|]; [|done]. injection Hkey as -> ->.
    apply HL in Hin. apply lookup_fmap_Some in Hin as (v & Hv & Hk).
    exists v. by split.
  - intros k [v Hv].
    assert ((k, JsonEncode.Marshal v) ∈ L) as Hin.
    { apply HL. by rewrite lookup_fmap, Hv. }
    destruct (Forall2_elem_of_l _ _ _ _ Hm Hin) as ([k' t'] & Hin' & Hkey).
    unfold JsonEncode.keyed in Hkey. cbn in Hkey.
    destruct (JsonEncode.Marshal v) as [t''|]; [|done]. injection Hkey as <- <-.
    apply list_elem_of_fmap. by exists (k, t'').
Qed.

(** ** Marshal: the text is valid UTF-8 without white space around it *)

Lemma vprefix_nil : vprefix "".
Proof. by intros b. Qed.

Lemma vprefix_app (a b : string) : vprefix a -> vprefix b -> vprefix (a +:+ b).
Proof. intros Ha Hb c. by rewrite append_assoc, Ha, Hb. Qed.

Lemma vprefix_cons (c : ascii) (a : string) :
  is_ascii c = true -> vprefix a -> vprefix (String c a).
Proof.
  intros Hc%N.ltb_lt Ha b.
  change (String c a +:+ b) with (String c (a +:+ b)).
  by rewrite Valid_ascii, Ha.
Qed.

Lemma vprefix_ascii (s : string) : all_chars is_ascii s = true -> vprefix s.
Proof.
  induction s as [|c s IH]; [intros _; apply vprefix_nil|].
  cbn [all_chars]. intros [Hc Hs]%andb_true_iff. apply vprefix_cons; auto.
Qed.

Lemma escape_ascii_ascii (c : ascii) :
  is_ascii c = true -> all_chars is_ascii (JsonEncode.escape_ascii c) = true.
Proof. destruct c as [[] [] [] [] [] [] [] []]; intros H; try discriminate H; reflexivity. Qed.

Lemma vprefix_appendString (n : nat) :
  forall s, String.length s <= n -> vprefix (JsonEncode.appendString s).
Proof.
  induction n as [n IH] using lt_wf_ind. intros s Hn.
  destruct s as [|c r0]; [apply vprefix_nil|].
  cbn [String.length] in Hn. cbn [JsonEncode.appendString].
  assert (forall r, String.length r <= String.length r0 ->
            vprefix (JsonEncode.appendString r)) as IH'.
  { intros r Hr. apply (IH (String.length r)); lia. }
  destruct (byte_of c <? 128)%N eqn:Hc.
  { apply vprefix_app; [|by apply IH'].
    destruct (JsonEncode.htmlSafe c).
    - apply vprefix_cons; [done | apply vprefix_nil].
    - by apply vprefix_ascii, escape_ascii_ascii. }
  assert (vprefix (String JsonEncode.backslash "ufffd" +:+ JsonEncode.appendString r0))
    as Hbad by (apply vprefix_app; [by apply vprefix_ascii | by apply IH']).
  destruct (Utf8.DecodeRune (String c r0)) as [[x [|[|[|[|[|size]]]]]]|] eqn:Hd;
    try exact Hbad.
  - apply DecodeRune_inv in Hd as (c0 & c1 & r1 & [= <- ->] & _ & Hloc).
    intros b.
    change (String c (String c1 (JsonEncode.appendString r1)) +:+ b)
      with (String c (String c1 (JsonEncode.appendString r1 +:+ b))).
    cbn [Utf8.Valid]. rewrite Hloc. apply IH'. cbn [String.length]. lia.
  - pose proof Hd as Hd'.
    apply DecodeRune_inv in Hd as (c0 & c1 & c2 & r2 & [= <- ->] & _ & _ & Hloc).
    apply vprefix_app; [|apply IH'; cbn [String.length]; lia].
    destruct ((x =? 8232) || (x =? 8233))%N eqn:Hx.
    + apply orb_true_iff in Hx. rewrite !N.eqb_eq in Hx.
      destruct Hx as [->| ->]; by apply vprefix_ascii.
    + intros b.
      change (String c (String c1 (String c2 "")) +:+ b)
        with (String c (String c1 (String c2 b))).
      cbn [Utf8.Valid]. by rewrite Hloc.
  - apply DecodeRune_inv in Hd as (c0 & c1 & c2 & c3 & r3 & [= <- ->] & _ & _ & _ & Hloc).
    intros b.
    change (String c (String c1 (String c2 (String c3 (JsonEncode.appendString r3)))) +:+ b)
      with (String c (String c1 (String c2 (String c3 (JsonEncode.appendString r3 +:+ b))))).
    cbn [Utf8.Valid]. rewrite Hloc. apply IH'. cbn [String.length]. lia.
Qed.

Lemma vprefix_quote (s : string) : vprefix (JsonEncode.quote s).
Proof.
  unfold JsonEncode.quote. apply vprefix_cons; [done|].
  apply vprefix_app; [by apply (vprefix_appendString (String.length s))|].
  by apply vprefix_ascii.
Qed.

Lemma numchar_ascii (c : ascii) : numchar c = true -> is_ascii c = true.
Proof.
  intros (H & _)%numchar_inv. unfold nonspace_ascii in H.
  by apply andb_true_iff in H as [H _].
Qed.

Lemma reads_back_chars (lit : string) (f : spec_float) :
  JsonEncode.reads_back lit f = true ->
  exists c p, lit = String c p /\ all_chars numchar (String c p) = true.
Proof.
  unfold JsonEncode.reads_back.
  destruct (Json.scan_number lit) as [[l [|? ?]]|] eqn:Hs; try done.
  intros _. apply scan_number_chars in Hs as (c & p & -> & Hc).
  rewrite append_nil_r. eauto.
Qed.

Lemma vprefix_join (ts : list string) :
  Forall vprefix ts -> vprefix (JsonEncode.join ts).
Proof.
  induction 1 as [|t ts Ht Hts IH]; [apply vprefix_nil|].
  cbn [JsonEncode.join]. destruct ts as [|t' ts']; [done|].
  apply vprefix_app; [done|]. apply vprefix_app; [by apply vprefix_ascii | done].
Qed.

Lemma Marshal_vprefix : forall x t, JsonEncode.Marshal x = Some t -> vprefix t.
Proof.
  induction x as [| b | f | s | l IH | m IH] using value_ind_nested; intros t.
  - intros [= <-]. by apply vprefix_ascii.
  - intros [= <-]. destruct b; by apply vprefix_ascii.
  - intros H%FormatFloat_reads_back%reads_back_chars.
    destruct H as (c & p & -> & Hc). apply vprefix_ascii.
    exact (all_chars_impl _ _ _ numchar_ascii Hc).
  - intros [= <-]. apply vprefix_quote.
  - intros (ts & Hts & ->)%Marshal_array_inv.
    apply vprefix_cons; [done|]. apply vprefix_app; [|by apply vprefix_ascii].
    apply vprefix_join. clear -IH Hts.
    induction Hts as [|v t l ts Hvt _ IHl]; [constructor|].
    apply Forall_cons in IH as [Hv Hl]. constructor; eauto.
  - intros (kts & -> & Hkts & _)%Marshal_object_inv.
    apply vprefix_cons; [done|]. apply vprefix_app; [|by apply vprefix_ascii].
    apply vprefix_join. apply Forall_fmap, Forall_forall. intros [k t] Hin.
    rewrite Forall_forall in Hkts. destruct (Hkts _ Hin) as (v & Hv & Ht).
    unfold JsonEncode.member. cbn [fst snd] in *.
    apply vprefix_app; [apply vprefix_quote|].
    apply vprefix_app; [by apply vprefix_ascii|].
    exact (IH _ _ Hv _ Ht).
Qed.

Lemma Marshal_valid (x : value) (t : string) :
  JsonEncode.Marshal x = Some t -> Utf8.Valid t = true.
Proof.
  intros H%Marshal_vprefix. specialize (H ""). by rewrite append_nil_r in H.
Qed.

Lemma ends_app (p : ascii -> bool) (a b : string) :
  ends p b = true -> ends p (a +:+ b) = true.
Proof.
  intros Hb. induction a as [|c a IH]; [done|].
  change (String c a +:+ b) with (String c (a +:+ b)).
  cbn [ends]. destruct (a +:+ b); [discriminate IH | exact IH].
Qed.

Lemma ends_inv (p : ascii -> bool) (t : string) :
  ends p t = true -> exists w c, t = w +:+ String c "" /\ p c = true.
Proof.
  induction t as [|a t IH]; [done|]. cbn [ends].
  destruct t as [|b t'].
  - intros Ha. by exists "", a.
  - intros (w & c & -> & Hc)%IH. by exists (String a w), c.
Qed.

Lemma all_chars_ends (p : ascii -> bool) (c : ascii) (s : string) :
  all_chars p (String c s) = true -> ends p (String c s) = true.
Proof.
  revert c. induction s as [|b s IH]; intros c; cbn [all_chars ends].
  - by rewrite andb_true_r.
  - intros [_ H]%andb_true_iff. by apply IH.
Qed.

Lemma TrimSpace_tight (t : string) :
  starts nonspace_ascii t = true -> ends nonspace_ascii t = true ->
  Strings.TrimSpace t = t.
Proof.
  intros Hs (w & c & -> & Hc)%ends_inv. unfold Strings.TrimSpace.
  destruct (w +:+ String c "") as [|a r] eqn:Heq; [done|].
  rewrite trim_left_nonspace by done. rewrite <- Heq.
  by apply trim_right_last.
Qed.

Lemma value_head_nonspace (c : ascii) :
  value_head c = true -> nonspace_ascii c = true.
Proof. unfold value_head. by intros [? _]%andb_true_iff. Qed.

Lemma numchar_head (c : ascii) : numchar c = true -> value_head c = true.
Proof.
  intros (H & _ & H93 & _)%numchar_inv. unfold value_head. by rewrite H, H93.
Qed.

Lemma numchar_nonspace (c : ascii) : numchar c = true -> nonspace_ascii c = true.
Proof. by intros (H & _)%numchar_inv. Qed.

(** The text of a value starts and ends with an ASCII character that is
    not white space. *)
Lemma Marshal_tight (x : value) (t : string) :
  JsonEncode.Marshal x = Some t ->
  starts value_head t = true /\ ends nonspace_ascii t = true.
Proof.
  destruct x as [| b | f | s | l | m].
  - by intros [= <-].
  - intros [= <-]. by destruct b.
  - intros H%FormatFloat_reads_back%reads_back_chars.
    destruct H as (c & p & -> & Hc). split.
    + cbn [starts all_chars] in *. apply andb_true_iff in Hc as [Hc _].
      by apply numchar_head.
    + apply all_chars_ends. exact (all_chars_impl _ _ _ numchar_nonspace Hc).
  - intros [= <-]. split; [done|]. unfold JsonEncode.quote.
    change (String JsonEncode.dquote (JsonEncode.appendString s +:+ String JsonEncode.dquote ""))
      with (String JsonEncode.dquote (JsonEncode.appendString s) +:+ String JsonEncode.dquote "").
    by apply ends_app.
  - intros (ts & _ & ->)%Marshal_array_inv. split; [done|].
    change ("[" +:+ JsonEncode.join ts +:+ "]")
      with (String "[" (JsonEncode.join ts) +:+ "]").
    by apply ends_app.
  - intros (kts & -> & _)%Marshal_object_inv. split; [done|].
    change ("{" +:+ ?a +:+ "}") with (String "{" a +:+ "}").
    by apply ends_app.
Qed.

Lemma Marshal_TrimSpace (x : value) (t : string) :
  JsonEncode.Marshal x = Some t -> Strings.TrimSpace t = t.
Proof.
  intros [Hs He]%Marshal_tight. apply TrimSpace_tight; [|done].
  destruct t as [|c t]; [done|]. by apply value_head_nonspace.
Qed.

(** ** Marshal, then Unmarshal *)

Lemma json_value_array (d : nat) (l : list value) :
  Spec.json_value d (VArray l) = true ->
  exists d', d = S d' /\ Forall (fun v => Spec.json_value d' v = true) l.
Proof.
  destruct d as [|d']; [done|]. cbn [Spec.json_value]. intros H.
  exists d'. split; [done|].
  induction l as [|v l IH]; [constructor|].
  cbn [forallb] in H. apply andb_true_iff in H as [Hv Hl]. constructor; auto.
Qed.

Lemma json_value_object (d : nat) (m : gmap string value) :
  Spec.json_value d (VObject m) = true ->
  exists d', d = S d' /\
    map_Forall (fun k v => Utf8.Valid k = true /\ Spec.json_value d' v = true) m.
Proof.
  destruct d as [|d']; [done|]. cbn [Spec.json_value]. intros H.
  exists d'. split; [done|]. revert H.
  induction m as [|k v m Hk Hfold IH] using map_first_key_ind.
  - intros _. apply map_Forall_empty.
  - rewrite map_fold_insert_first_key by done.
    rewrite !andb_true_iff. intros [[Hkv Hv] Hm].
    apply map_Forall_insert; [done|]. auto.
Qed.

Lemma nonspace_not_json_space (c : ascii) :
  nonspace_ascii c = true -> Json.isSpace c = false.
Proof.
  destruct c as [[] [] [] [] [] [] [] []]; intros H; try discriminate H; reflexivity.
Qed.

Lemma skip_ws_starts (t rest : string) :
  starts value_head t = true ->
  exists c t', t = String c t' /\ is_byte 93 c = false /\
               Json.skip_ws (t +:+ rest) = String c (t' +:+ rest).
Proof.
  destruct t as [|c t']; [done|]. cbn [starts]. unfold value_head.
  intros [Hc H93]%andb_true_iff. apply negb_true_iff in H93.
  exists c, t'. repeat split; [done|].
  change (String c t' +:+ rest) with (String c (t' +:+ rest)).
  cbn [Json.skip_ws]. by rewrite nonspace_not_json_space.
Qed.

Lemma parse_elements_join (d : nat) (l : list value) (ts : list string) :
  Forall2 (fun v t =>
             forall fuel rest, delim rest = true ->
               reads (Json.parse_value fuel d (t +:+ rest)) v rest) l ts ->
  l <> [] ->
  forall fuel acc rest,
    reads (Json.parse_elements fuel d acc (JsonEncode.join ts +:+ "]" +:+ rest))
          (VArray (rev acc ++ l)) rest.
Proof.
  induction 1 as [|v t l ts Hv Hl IH]; [done|]. intros _ fuel acc rest.
  destruct fuel as [|fuel]; [by right|].
  cbn [Json.parse_elements JsonEncode.join].
  destruct Hl as [|v' t' l' ts' Hv' Hl'].
  - destruct (Hv fuel ("]" +:+ rest) eq_refl) as [-> | ->]; [|by right].
    left. reflexivity.
  - rewrite !append_assoc.
    destruct (Hv fuel ("," +:+ JsonEncode.join (t' :: ts') +:+ "]" +:+ rest) eq_refl)
      as [-> | ->]; [|by right].
    change (Json.skip_ws ("," +:+ ?x)) with (String "," x).
    change (is_byte 44 ",") with true. cbv iota.
    specialize (IH ltac:(done) fuel (v :: acc) rest).
    cbn [rev] in IH. by rewrite <- app_assoc in IH.
Qed.

Lemma join_cons (t : string) (ts : list string) :
  ts <> [] -> JsonEncode.join (t :: ts) = t +:+ "," +:+ JsonEncode.join ts.
Proof. by destruct ts. Qed.

Lemma member_text (k t rest : string) :
  JsonEncode.member (k, t) +:+ rest
  = String JsonEncode.dquote
      (JsonEncode.appendString k +:+ String JsonEncode.dquote (":" +:+ t +:+ rest)).
Proof.
  unfold JsonEncode.member, JsonEncode.quote. cbn [fst snd].
  rewrite !append_assoc.
  change (String JsonEncode.dquote
            ((JsonEncode.appendString k +:+ String JsonEncode.dquote "")
             +:+ ":" +:+ t +:+ rest)
          = String JsonEncode.dquote
              (JsonEncode.appendString k
               +:+ String JsonEncode.dquote "" +:+ ":" +:+ t +:+ rest)).
  by rewrite append_assoc.
Qed.

Lemma parse_members_join (d : nat) (m : gmap string value) (kts : list (string * string)) :
  Forall (fun kt =>
            Utf8.Valid kt.1 = true /\
            exists v, m !! kt.1 = Some v /\
              forall fuel rest, delim rest = true ->
                reads (Json.parse_value fuel d (kt.2 +:+ rest)) v rest) kts ->
  kts <> [] ->
  forall fuel acc rest,
    let r := Json.parse_members fuel d acc
               (JsonEncode.join (JsonEncode.member <$> kts) +:+ "}" +:+ rest) in
    r = Json.OutOfFuel \/
    exists m', r = Json.Ok (VObject m', rest) /\
      forall k, m' !! k = if decide (k ∈ kts.*1) then m !! k else acc !! k.
Proof.
  induction 1 as [|[k t] kts (Hk & v & Hmk & Hv) Hkts IH]; [done|].
  intros _ fuel acc rest. cbv zeta.
  destruct fuel as [|fuel]; [by left|].
  cbn [fst snd] in *. rewrite fmap_cons.
  assert (forall tail,
            delim tail = true ->
            Json.skip_ws tail = tail ->
            Json.parse_members (S fuel) d acc (JsonEncode.member (k, t) +:+ tail)
            = match Json.parse_value fuel d (t +:+ tail) with
              | Json.Ok (v, rest) =>
                  match tail with
                  | String c' r3 =>
                      if is_byte 44 c' then
                        Json.parse_members fuel d (<[k := v]> acc) r3
                      else if is_byte 125 c' then
                        Json.Ok (VObject (<[k := v]> acc), r3)
                      else Json.SyntaxError
                  | EmptyString => Json.SyntaxError
                  end
              | Json.SyntaxError => Json.SyntaxError
              | Json.OutOfFuel => Json.OutOfFuel
              end) as Hstep.
  { intros tail Hd Hws. rewrite member_text.
    cbn [Json.parse_members Json.skip_ws].
    change (Json.isSpace JsonEncode.dquote) with false. cbv iota.
    change (is_byte 34 JsonEncode.dquote) with true. cbv iota.
    rewrite (unquote_appendString (String.length k)) by done.
    change (Json.skip_ws (":" +:+ ?x)) with (String ":" x).
    change (is_byte 58 ":") with true. cbv iota.
    destruct (Hv fuel tail Hd) as [-> | ->]; [|done].
    by rewrite Hws. }
  destruct kts as [|kt' kts'].
  - cbn [fmap list_fmap JsonEncode.join].
    rewrite (Hstep ("}" +:+ rest)) by done.
    destruct (Hv fuel ("}" +:+ rest) eq_refl) as [-> | ->]; [|by left].
    right. exists (<[k := v]> acc). split; [done|].
    intros k'. cbn [fmap list_fmap fst].
    destruct (decide (k' = k)) as [->|Hne].
    + rewrite lookup_insert_eq. by rewrite decide_True by (by left).
    + rewrite lookup_insert_ne by done.
      by rewrite decide_False by (by intros ?%list_elem_of_singleton).
  - specialize (IH ltac:(done) fuel (<[k := v]> acc) rest). cbv zeta in IH.
    set (kts := kt' :: kts') in *.
    rewrite join_cons by done. rewrite !append_assoc.
    rewrite (Hstep ("," +:+ JsonEncode.join (JsonEncode.member <$> kts)
                    +:+ "}" +:+ rest)) by done.
    destruct (Hv fuel ("," +:+ JsonEncode.join (JsonEncode.member <$> kts)
                       +:+ "}" +:+ rest) eq_refl)
      as [-> | ->]; [|by left].
    change (is_byte 44 ",") with true. cbv iota.
    destruct IH as [Hout|(m' & Hok & Hm')]; [by left|].
    right. exists m'. split; [exact Hok|].
    intros k'. rewrite Hm'.
    rewrite fmap_cons. cbn [fst].
    destruct (decide (k' ∈ kts.*1)) as [Hin|Hnin].
    + by rewrite decide_True by (by right).
    + destruct (decide (k' = k)) as [->|Hne'].
      * rewrite lookup_insert_eq. by rewrite decide_True by (by left).
      * rewrite lookup_insert_ne by done.
        by rewrite decide_False by (by intros [?|?]%elem_of_cons).
Qed.

(** The text that [Marshal] writes for a JSON value is read by the parser
    as that value, wherever a value may stand. *)
Lemma parse_Marshal :
  forall x t d,
    JsonEncode.Marshal x = Some t -> Spec.json_value d x = true ->
    forall fuel rest, delim rest = true ->
      reads (Json.parse_value fuel d (t +:+ rest)) x rest.
Proof.
  induction x as [| b | f | s | l IH | m IH] using value_ind_nested;
    intros t d Ht Hj fuel rest Hr;
    (destruct fuel as [|fuel]; [by right|]).
  - left. injection Ht as <-. reflexivity.
  - left. injection Ht as <-. by destruct b.
  - left. apply FormatFloat_reads_back in Ht. by apply parse_value_number.
  - left. injection Ht as <-. cbn [Spec.json_value] in Hj.
    unfold JsonEncode.quote.
    change (String JsonEncode.dquote ?a +:+ rest)
      with (String JsonEncode.dquote (a +:+ rest)).
    rewrite append_assoc.
    change (String JsonEncode.dquote "" +:+ rest) with (String JsonEncode.dquote rest).
    cbn [Json.parse_value Json.skip_ws].
    change (Json.isSpace JsonEncode.dquote) with false. cbv iota.
    change (is_byte 123 JsonEncode.dquote) with false.
    change (is_byte 91 JsonEncode.dquote) with false.
    change (is_byte 34 JsonEncode.dquote) with true. cbv iota.
    by rewrite (unquote_appendString (String.length s)).
  - apply Marshal_array_inv in Ht as (ts & Hts & ->).
    apply json_value_array in Hj as (d' & -> & Hl).
    change ("[" +:+ JsonEncode.join ts +:+ "]")
      with (String "[" (JsonEncode.join ts +:+ "]")).
    change (String "[" ?a +:+ rest) with (String "[" (a +:+ rest)).
    rewrite append_assoc.
    cbn [Json.parse_value Json.skip_ws].
    change (Json.isSpace "[") with false. cbv iota.
    change (is_byte 123 "[") with false. change (is_byte 91 "[") with true.
    cbv iota.
    destruct Hts as [|v t l ts Hv Hts]; [by left|].
    destruct (Marshal_tight _ _ Hv) as [Hhead _].
    assert (exists c r, Json.skip_ws (JsonEncode.join (t :: ts) +:+ "]" +:+ rest)
                        = String c r /\ is_byte 93 c = false /\
                        String c r = JsonEncode.join (t :: ts) +:+ "]" +:+ rest)
      as (c & r & -> & -> & ->).
    { destruct t as [|c t']; [done|]. cbn [starts] in Hhead.
      unfold value_head in Hhead. apply andb_true_iff in Hhead as [Hc H93].
      apply negb_true_iff in H93. apply nonspace_not_json_space in Hc.
      exists c. cbn [JsonEncode.join]. destruct ts as [|t2 ts].
      - exists (t' +:+ "]" +:+ rest).
        change (String c t' +:+ ?x) with (String c (t' +:+ x)).
        cbn [Json.skip_ws]. by rewrite Hc.
      - exists ((t' +:+ "," +:+ JsonEncode.join (t2 :: ts)) +:+ "]" +:+ rest).
        change ((String c t' +:+ ?y) +:+ ?x) with (String c ((t' +:+ y) +:+ x)).
        cbn [Json.skip_ws]. by rewrite Hc. }
    pose proof (parse_elements_join d' (v :: l) (t :: ts)) as Hloop.
    apply (Hloop); [|done].
    clear Hloop Hhead. apply Forall_cons in IH as [IHv IHl].
    apply Forall_cons in Hl as [Hjv Hjl]. constructor; [by eauto|].
    clear -Hts IHl Hjl. induction Hts as [|v t l ts Hv _ IHts]; [constructor|].
    apply Forall_cons in IHl as [IHv IHl]. apply Forall_cons in Hjl as [Hjv Hjl].
    constructor; [by eauto | by auto].
  - apply Marshal_object_inv in Ht as (kts & -> & Hkts & Hdom).
    apply json_value_object in Hj as (d' & -> & Hm).
    change ("{" +:+ ?a +:+ "}") with (String "{" (a +:+ "}")).
    change (String "{" ?a +:+ rest) with (String "{" (a +:+ rest)).
    rewrite append_assoc.
    cbn [Json.parse_value Json.skip_ws].
    change (Json.isSpace "{") with false. cbv iota.
    change (is_byte 123 "{") with true. cbv iota.
    destruct kts as [|[k t] kts].
    { left. assert (m = ∅) as ->; [|done].
      apply map_eq. intros k. rewrite lookup_empty.
      destruct (m !! k) eqn:Hk; [|done].
      specialize (Hdom k ltac:(eauto)). by apply elem_of_nil in Hdom. }
    set (kts' := (k, t) :: kts) in *.
    assert (exists r, Json.skip_ws (JsonEncode.join (JsonEncode.member <$> kts')
                                    +:+ "}" +:+ rest)
                      = String JsonEncode.dquote r /\
                      String JsonEncode.dquote r
                      = JsonEncode.join (JsonEncode.member <$> kts') +:+ "}" +:+ rest)
      as (r & -> & ->).
    { unfold kts'. rewrite fmap_cons. cbn [JsonEncode.join].
      destruct (JsonEncode.member <$> kts) as [|mt mts].
      - rewrite member_text. eexists. split; [|reflexivity].
        cbn [Json.skip_ws]. by change (Json.isSpace JsonEncode.dquote) with false.
      - rewrite append_assoc, member_text. eexists. split; [|reflexivity].
        cbn [Json.skip_ws]. by change (Json.isSpace JsonEncode.dquote) with false. }
    change (is_byte 125 JsonEncode.dquote) with false. cbv iota.
    destruct (parse_members_join d' m kts') with (fuel := fuel) (acc := (∅ : gmap string value)) (rest := rest)
      as [Hout|(m' & Hok & Hm')]; [| done | by right | ].
    { apply Forall_forall. intros [k1 t1] Hin.
      rewrite Forall_forall in Hkts. destruct (Hkts _ Hin) as (v & Hv & Ht).
      cbn [fst snd] in *. destruct (Hm _ _ Hv) as [Hk1 Hjv].
      split; [done|]. exists v. split; [done|]. intros fuel' rest' Hr'.
      exact (IH _ _ Hv _ _ Ht Hjv fuel' rest' Hr'). }
    left. rewrite Hok. do 3 f_equal. apply map_eq. intros k0. rewrite Hm'.
    destruct (decide (k0 ∈ kts'.*1)) as [Hin|Hnin]; [done|].
    rewrite lookup_empty. destruct (m !! k0) eqn:Hk0; [|done].
    destruct Hnin. apply Hdom. eauto.
Qed.

Lemma Unmarshal_Marshal (x : value) (t : string) :
  Spec.json_value Json.maxNestingDepth x = true ->
  JsonEncode.Marshal x = Some t ->
  Json.Unmarshal t = Some x.
Proof.
  intros Hj Ht. unfold Json.Unmarshal.
  pose proof (parse_Marshal x t _ Ht Hj (2 * String.length t + 2) "" eq_refl) as H.
  rewrite append_nil_r in H. destruct H as [-> | H]; [done|].
  by apply Unmarshal_fuel in H.
Qed.

Lemma Marshal_round_trip (x : value) (t : string) :
  Spec.json_value Json.maxNestingDepth x = true ->
  JsonEncode.Marshal x = Some t ->
  DecodeBase64Fields (VString (Base64.EncodeToString t)) = DecodeBase64Fields x.
Proof.
  intros Hj Ht. apply unwrap_layer.
  - by apply (Marshal_valid x).
  - by apply (Marshal_TrimSpace x).
  - by apply Unmarshal_Marshal.
Qed.


(** ** One layer *)

(** C3: for a JSON value [x] (its strings and keys are valid UTF-8) whose
    arrays and objects are nested [maxNestingDepth] = 10000 deep at most,
    the limit of the reader of [encoding/json], and that [json.Marshal]
    writes as the text [t], decoding the Base64 text of [t] gives what
    decoding [x] gives: the text is parsed back to [x], and the result is
    that of the recursive call on [x]. *)
Theorem C3_round_trip (x : value) (t : string) :
  Spec.json_value Json.maxNestingDepth x = true ->
  JsonEncode.Marshal x = Some t ->
  Json.Unmarshal t = Some x /\
  DecodeBase64String (Base64.EncodeToString t) = DecodeBase64Fields x /\
  DecodeBase64Fields (VString (Base64.EncodeToString t)) = DecodeBase64Fields x.
Proof.
  intros Hj Ht. split; [by apply Unmarshal_Marshal|].
  rewrite <- DecodeBase64Fields_string. split; by apply Marshal_round_trip.
Qed.

Lemma C3_round_trip_witness :
  Spec.json_value Json.maxNestingDepth Spec.obj_a1 = true /\
  JsonEncode.Marshal Spec.obj_a1 = Some Spec.doc_a1 /\
  Base64.EncodeToString Spec.doc_a1 = "eyJhIjoxfQ==" /\
  DecodeBase64Fields (VString "eyJhIjoxfQ==") = DecodeBase64Fields Spec.obj_a1.
Proof.
  do 3 (split; [vm_compute; reflexivity|]).
  apply (C3_round_trip Spec.obj_a1 Spec.doc_a1); vm_compute; reflexivity.
Defined.

(** ** Documents nested deeper than the parser reads *)

Lemma json_value_nested (n d : nat) (x : value) :
  Spec.json_value d x = true -> Spec.json_value (n + d) (Spec.nested n x) = true.
Proof.
  intros Hx. induction n as [|n IH]; [done|].
  cbn [Spec.nested Nat.add Spec.json_value forallb]. by rewrite IH.
Qed.

Lemma json_value_too_deep (n : nat) (x : value) :
  forall d, d < n -> Spec.json_value d (Spec.nested n x) = false.
Proof.
  induction n as [|n IH]; intros d Hd; [lia|].
  cbn [Spec.nested Spec.json_value]. destruct d as [|d]; [done|].
  cbn [forallb]. rewrite IH by lia. reflexivity.
Qed.

Lemma Marshal_nested (n : nat) (x : value) (t : string) :
  JsonEncode.Marshal x = Some t ->
  JsonEncode.Marshal (Spec.nested n x) = Some (Spec.nested_text n t).
Proof.
  intros Hx. induction n as [|n IH]; [done|].
  cbn [Spec.nested Spec.nested_text]. cbn [JsonEncode.Marshal fmap list_fmap].
  rewrite IH. reflexivity.
Qed.

Lemma DecodeBase64Fields_nested (n : nat) (x : value) :
  DecodeBase64Fields x = x -> DecodeBase64Fields (Spec.nested n x) = Spec.nested n x.
Proof.
  intros Hx. induction n as [|n IH]; [done|].
  cbn [Spec.nested]. rewrite DecodeBase64Fields_array. unfold DecodeBase64InSlice.
  cbn [fmap list_fmap]. by rewrite IH.
Qed.

(** The scanner gives up at the bracket that opens one level more than its
    parse-state stack takes. *)
Lemma parse_value_too_deep (n : nat) :
  forall fuel depth t rest v r,
    depth < n ->
    Json.parse_value fuel depth (Spec.nested_text n t +:+ rest) <> Json.Ok (v, r).
Proof.
  induction n as [|n IH]; intros fuel depth t rest v r Hd; [lia|].
  destruct fuel as [|fuel]; [done|].
  cbn [Spec.nested_text].
  change ("[" +:+ ?a +:+ "]") with (String "[" (a +:+ "]")).
  change (String "[" ?a +:+ rest) with (String "[" (a +:+ rest)).
  rewrite append_assoc.
  cbn [Json.parse_value Json.skip_ws].
  change (Json.isSpace "[") with false. cbv iota.
  change (is_byte 123 "[") with false. change (is_byte 91 "[") with true.
  cbv iota.
  destruct depth as [|depth]; [done|].
  destruct n as [|n]; [lia|].
  assert (forall f v1 r1,
            Json.parse_value f depth (Spec.nested_text (S n) t +:+ "]" +:+ rest)
            <> Json.Ok (v1, r1)) as Hrec
    by (intros; apply IH; lia).
  clear IH. revert Hrec. cbn [Spec.nested_text].
  change ("[" +:+ ?a +:+ "]") with (String "[" (a +:+ "]")).
  change (String "[" ?a +:+ ?b) with (String "[" (a +:+ b)).
  cbn [Json.skip_ws].
  change (Json.isSpace "[") with false. cbv iota.
  change (is_byte 93 "[") with false. cbv iota.
  intros Hrec. destruct fuel as [|fuel']; [done|].
  cbn [Json.parse_elements].
  destruct (Json.parse_value fuel' depth _) as [[v1 r1]| |] eqn:Hp; try done.
  by apply Hrec in Hp.
Qed.

Lemma Unmarshal_too_deep (n : nat) (t : string) :
  Json.maxNestingDepth < n -> Json.Unmarshal (Spec.nested_text n t) = None.
Proof.
  intros Hn. unfold Json.Unmarshal.
  destruct (Json.parse_value _ _ (Spec.nested_text n t)) as [[v r]| |] eqn:Hp; try done.
  rewrite <- (append_nil_r (Spec.nested_text n t)) in Hp at 2.
  by apply parse_value_too_deep in Hp.
Qed.

(** The Base64 text of a document that the parser refuses for its depth is
    replaced by the text of the document. *)
Lemma too_deep_kept_as_text (n : nat) (x : value) (t : string) :
  Json.maxNestingDepth < n -> JsonEncode.Marshal x = Some t ->
  DecodeBase64Fields (VString (Base64.EncodeToString (Spec.nested_text n t)))
  = VString (Spec.nested_text n t).
Proof.
  intros Hn Hx. apply (Marshal_nested n) in Hx.
  rewrite DecodeBase64Fields_string.
  rewrite <- (Marshal_TrimSpace _ _ Hx) at 2.
  apply DecodeBase64String_text.
  - apply IsBase64_EncodeToString.
  - apply DecodeString_EncodeToString.
  - by apply (Marshal_valid (Spec.nested n x)).
  - rewrite (Marshal_TrimSpace _ _ Hx). unfold IsValidJSON.
    by rewrite Unmarshal_too_deep.
Qed.

(** C3, as the specification words it, fails one level past the limit of
    the reader: [null] inside 10001 arrays is a JSON value that
    [json.Marshal] writes, [json.Unmarshal] refuses the text for its
    depth, and the decoder returns the text, a string, where decoding the
    value gives the arrays. *)
Lemma C3_counterexample :
  let n := S Json.maxNestingDepth in
  let x := Spec.nested n VNull in
  let t := Spec.nested_text n "null" in
  Spec.json_value n x = true /\
  Spec.json_value Json.maxNestingDepth x = false /\
  JsonEncode.Marshal x = Some t /\
  Json.Unmarshal t = None /\
  DecodeBase64Fields (VString (Base64.EncodeToString t)) = VString t /\
  DecodeBase64Fields x = x /\
  DecodeBase64Fields (VString (Base64.EncodeToString t)) <> DecodeBase64Fields x.
Proof.
  cbv zeta.
  assert (Json.maxNestingDepth < S Json.maxNestingDepth) as Hn
    by apply Nat.lt_succ_diag_r.
  pose proof (DecodeBase64Fields_nested (S Json.maxNestingDepth) VNull eq_refl)
    as Hx.
  split.
  { rewrite <- (Nat.add_0_r (S Json.maxNestingDepth)) at 1.
    by apply json_value_nested. }
  split; [by apply json_value_too_deep|].
  split; [by apply Marshal_nested|].
  split; [by apply Unmarshal_too_deep|].
  split; [by apply (too_deep_kept_as_text _ VNull)|].
  split; [exact Hx|].
  rewrite Hx, (too_deep_kept_as_text _ VNull) by done.
  change (Spec.nested (S Json.maxNestingDepth) VNull)
    with (VArray [Spec.nested Json.maxNestingDepth VNull]).
  discriminate.
Qed.

(** * Further properties of the code *)

(** ** No string grows *)

Lemma DecodeBase64String_cases (s : string) :
  DecodeBase64String s = VString s \/
  (exists decoded,
     text_candidate s = true /\
     Base64.DecodeString s = Some decoded /\ Utf8.Valid decoded = true /\
     Json.Unmarshal (Strings.TrimSpace decoded) = None /\
     DecodeBase64String s = VString (Strings.TrimSpace decoded)) \/
  (exists decoded jsonObj,
     text_candidate s = true /\
     Base64.DecodeString s = Some decoded /\ Utf8.Valid decoded = true /\
     Json.Unmarshal (Strings.TrimSpace decoded) = Some jsonObj /\
     calls jsonObj (VString s) /\
     DecodeBase64String s = DecodeBase64Fields jsonObj).
Proof.
  unfold text_candidate.
  destruct (IsBase64 s) eqn:Hb; [|left; by apply DecodeBase64String_not_base64].
  destruct (IsBase64_DecodeString s Hb) as [decoded Hd]. rewrite Hd.
  destruct (Utf8.Valid decoded) eqn:Hv;
    [|left; by apply (DecodeBase64String_binary s decoded)].
  destruct (Json.Unmarshal (Strings.TrimSpace decoded)) as [jsonObj|] eqn:Hu.
  - right. right. exists decoded, jsonObj. repeat split; try done.
    + by apply (calls_json s decoded).
    + by apply (DecodeBase64String_json s decoded).
  - right. left. exists decoded. repeat split; try done.
    apply DecodeBase64String_text; try done. unfold IsValidJSON. by rewrite Hu.
Qed.

Lemma decode_no_growth (data : value) :
  maxstr (DecodeBase64Fields data) <= maxstr data.
Proof.
  induction data as [data IH] using (well_founded_induction calls_wf).
  destruct data as [| b | f | s | l | m].
  - by rewrite DecodeBase64Fields_unfold.
  - by rewrite DecodeBase64Fields_unfold.
  - by rewrite DecodeBase64Fields_unfold.
  - rewrite DecodeBase64Fields_string.
    destruct (DecodeBase64String_cases s)
      as [-> | [(d & _ & Hd & Hv & _ & ->) | (d & y & _ & Hd & Hv & Hu & Hc & ->)]].
    + done.
    + cbn [maxstr]. pose proof (TrimSpace_length d Hv).
      pose proof (DecodeString_length s d Hd). lia.
    + specialize (IH y Hc). pose proof (parsed_smaller s d y Hd Hv Hu).
      cbn [maxstr]. lia.
  - rewrite DecodeBase64Fields_array. apply maxstr_array_le.
    unfold DecodeBase64InSlice. apply Forall_fmap, Forall_forall. intros y Hy.
    cbn [compose]. specialize (IH y (calls_slice l y Hy)).
    pose proof (maxstr_elem l y Hy). lia.
  - rewrite DecodeBase64Fields_object. apply maxstr_object_le.
    unfold DecodeBase64InMap. apply map_Forall_fmap. intros k y Hk.
    cbn [compose]. specialize (IH y (calls_map m k y Hk)).
    pose proof (maxstr_lookup m k y Hk). lia.
Qed.

(** X1: decoding never makes a string longer.  No string of the result
    (keys apart) is longer than the longest string of the input; and a
    string leaf is either returned as it is or replaced by a value whose
    strings are all strictly shorter than it. *)
Theorem X1_no_string_grows :
  (forall data, maxstr (DecodeBase64Fields data) <= maxstr data) /\
  (forall s, DecodeBase64Fields (VString s) = VString s \/
             maxstr (DecodeBase64Fields (VString s)) < String.length s).
Proof.
  split; [apply decode_no_growth|].
  intros s. rewrite DecodeBase64Fields_string.
  destruct (DecodeBase64String_cases s)
    as [-> | [(d & _ & Hd & Hv & _ & ->) | (d & y & _ & Hd & Hv & Hu & Hc & ->)]].
  - by left.
  - pose proof (TrimSpace_length d Hv). pose proof (DecodeString_length s d Hd).
    destruct s as [|c s]; [left | right; cbn [maxstr String.length] in *; lia].
    vm_compute in Hd. injection Hd as <-. reflexivity.
  - right. pose proof (decode_no_growth y).
    pose proof (parsed_smaller s d y Hd Hv Hu). lia.
Qed.

(** ** The values that decoding leaves as they are *)

Lemma has_payload_object (m : gmap string value) :
  has_payload (VObject m) = false <->
  map_Forall (fun _ v => has_payload v = false) m.
Proof.
  cbn [has_payload].
  induction m as [|k v m Hk Hfold IH] using map_first_key_ind.
  - rewrite map_fold_empty. split; [intros _; apply map_Forall_empty | done].
  - rewrite map_fold_insert_first_key by done.
    rewrite map_Forall_insert by done. rewrite orb_false_iff, IH. done.
Qed.

Lemma has_payload_array (l : list value) :
  has_payload (VArray l) = false <-> Forall (fun v => has_payload v = false) l.
Proof.
  cbn [has_payload]. induction l as [|x l IH]; cbn [existsb].
  - split; [constructor | done].
  - rewrite Forall_cons, orb_false_iff, IH. done.
Qed.

Lemma decode_not_candidate (s : string) :
  text_candidate s = false -> DecodeBase64String s = VString s.
Proof.
  intros Hc.
  destruct (DecodeBase64String_cases s)
    as [H | [(d & Ht & _) | (d & y & Ht & _)]]; [done | congruence..].
Qed.

Lemma decode_candidate_changes (s : string) :
  text_candidate s = true -> s <> "" -> DecodeBase64String s <> VString s.
Proof.
  unfold text_candidate. intros [Hb Hc]%andb_true_iff Hne.
  destruct (Base64.DecodeString s) as [d|] eqn:Hd; [|done].
  pose proof (TrimSpace_length d Hc) as Hl.
  pose proof (DecodeString_length s d Hd) as Hl'.
  destruct (Json.Unmarshal (Strings.TrimSpace d)) as [y|] eqn:Hu.
  - rewrite (DecodeBase64String_json s d y) by done. intros H.
    pose proof (decode_no_growth y) as Hg.
    pose proof (parsed_smaller s d y Hd Hc Hu) as Hp.
    rewrite H in Hg. cbn [maxstr] in Hg. lia.
  - rewrite (DecodeBase64String_text s d) by (done || unfold IsValidJSON; by rewrite Hu).
    intros [= H]. rewrite H in Hl.
    destruct s as [|c s]; [done | cbn [String.length] in *; lia].
Qed.

Lemma decode_string_kept (s : string) :
  DecodeBase64String s = VString s <-> is_payload s = false.
Proof.
  unfold is_payload. split.
  - intros Heq. destruct s as [|c s]; [done|]. cbn [Json.is_empty negb andb].
    destruct (text_candidate (String c s)) eqn:Hc; [|done].
    by destruct (decode_candidate_changes (String c s) Hc).
  - destruct s as [|c s]; [reflexivity|]. cbn [Json.is_empty negb andb].
    apply decode_not_candidate.
Qed.

Lemma list_fmap_fixed {A : Type} (f : A -> A) (l : list A) :
  f <$> l = l <-> Forall (fun x => f x = x) l.
Proof.
  induction l as [|x l IH]; [split; [constructor | done]|].
  rewrite fmap_cons, Forall_cons, <- IH. split.
  - by intros [= -> ->].
  - by intros [-> ->].
Qed.

Lemma map_fmap_fixed (f : value -> value) (m : gmap string value) :
  f <$> m = m <-> map_Forall (fun _ x => f x = x) m.
Proof.
  split.
  - intros Heq k x Hk.
    assert ((f <$> m) !! k = Some (f x)) as H by (by rewrite lookup_fmap, Hk).
    rewrite Heq, Hk in H. by injection H.
  - intros Hm. apply map_eq. intros k. rewrite lookup_fmap.
    destruct (m !! k) as [x|] eqn:Hk; [|done]. cbn. f_equal. by apply (Hm k).
Qed.

(** X2: the values that decoding leaves as they are.  [DecodeBase64Fields]
    returns its argument exactly when none of its string leaves is a
    payload, a string that is not empty, is Base64 and holds valid UTF-8
    bytes: everything else is kept, and every payload is replaced by
    something else. *)
Theorem X2_fixed_points (data : value) :
  DecodeBase64Fields data = data <-> has_payload data = false.
Proof.
  induction data as [| b | f | s | l IH | m IH] using value_ind_nested.
  - by rewrite DecodeBase64Fields_unfold.
  - by rewrite DecodeBase64Fields_unfold.
  - by rewrite DecodeBase64Fields_unfold.
  - rewrite DecodeBase64Fields_string. apply decode_string_kept.
  - rewrite DecodeBase64Fields_array, has_payload_array.
    unfold DecodeBase64InSlice.
    transitivity (DecodeBase64Fields <$> l = l);
      [split; [by intros [= ->] | by intros ->]|].
    rewrite list_fmap_fixed. clear -IH.
    induction IH as [|x l Hx _ IHl]; [done|]. by rewrite !Forall_cons, Hx, IHl.
  - rewrite DecodeBase64Fields_object, has_payload_object.
    unfold DecodeBase64InMap.
    transitivity (DecodeBase64Fields <$> m = m);
      [split; [by intros [= ->] | by intros ->]|].
    rewrite map_fmap_fixed. split.
    + intros H k v Hk. apply (IH k v Hk). by apply (H k).
    + intros H k v Hk. apply (IH k v Hk). by apply (H k).
Qed.

(** ** White space around the document of a payload *)

Lemma ascii_space_inv (c : ascii) :
  ascii_space c = true ->
  (byte_of c < 128)%N /\ Strings.IsSpace (byte_of c) = true.
Proof.
  destruct c as [[] [] [] [] [] [] [] []]; intros H; try discriminate H;
    split; (reflexivity || (vm_compute; reflexivity)).
Qed.

Lemma trim_left_ascii_space (ws r : string) :
  all_chars ascii_space ws = true ->
  Strings.trim_left (ws +:+ r) = Strings.trim_left r.
Proof.
  induction ws as [|c ws IH]; [done|]. cbn [all_chars].
  intros [[Hc Hs]%ascii_space_inv Hws]%andb_true_iff.
  change (String c ws +:+ r) with (String c (ws +:+ r)).
  cbn [Strings.trim_left]. rewrite DecodeRune_ascii, Hs by done. by apply IH.
Qed.

Lemma trim_left_all_space (ws : string) :
  all_chars ascii_space ws = true -> Strings.trim_left ws = "".
Proof.
  intros H. rewrite <- (append_nil_r ws). by rewrite trim_left_ascii_space.
Qed.

Lemma trim_right_all_space (ws : string) :
  all_chars ascii_space ws = true -> Strings.trim_right ws = "".
Proof.
  destruct ws as [|c ws]; [done|]. intros H. cbn [Strings.trim_right].
  unfold Strings.all_space. by rewrite trim_left_all_space.
Qed.

Lemma trim_left_mid (n : nat) :
  forall w c r, String.length w <= n -> nonspace_ascii c = true ->
    Strings.trim_left (w +:+ String c r) <> "".
Proof.
  induction n as [n IH] using lt_wf_ind. intros w c r Hn Hc.
  destruct w as [|a w].
  { change ("" +:+ String c r) with (String c r).
    by rewrite trim_left_nonspace. }
  change (String a w +:+ String c r) with (String a (w +:+ String c r)).
  cbn [Strings.trim_left]. cbn [String.length] in Hn.
  pose proof (nonspace_not_cont c Hc) as Hnc.
  destruct (Utf8.DecodeRune (String a (w +:+ String c r))) as [[x k]|] eqn:Hd;
    [|done].
  pose proof (DecodeRune_inv _ _ _ Hd) as Hinv.
  destruct k as [|[|[|[|[|k]]]]]; try done.
  - destruct (Strings.IsSpace x); [|done]. apply (IH (String.length w)); [lia|done|done].
  - destruct Hinv as (a0 & a1 & b1 & Heq & C1 & _).
    destruct w as [|w0 w]; simpl in Heq; simplify_eq; try congruence.
    destruct (Strings.IsSpace x); [|done].
    cbn [String.length] in Hn. apply (IH (String.length w)); [lia|done|done].
  - destruct Hinv as (a0 & a1 & a2 & b2 & Heq & C1 & C2 & _).
    destruct w as [|w0 [|w1 w]]; simpl in Heq; simplify_eq; try congruence.
    destruct (Strings.IsSpace x); [|done].
    cbn [String.length] in Hn. apply (IH (String.length w)); [lia|done|done].
  - destruct Hinv as (a0 & a1 & a2 & a3 & b3 & Heq & C1 & C2 & C3 & _).
    destruct w as [|w0 [|w1 [|w2 w]]]; simpl in Heq; simplify_eq;
      try congruence.
    destruct (Strings.IsSpace x); [|done].
    cbn [String.length] in Hn. apply (IH (String.length w)); [lia|done|done].
Qed.

Lemma trim_right_mid (w : string) (c : ascii) (ws : string) :
  nonspace_ascii c = true -> all_chars ascii_space ws = true ->
  Strings.trim_right (w +:+ String c ws) = w +:+ String c "".
Proof.
  intros Hc Hws.
  assert (forall u, Strings.all_space (u +:+ String c ws) = false) as Hall.
  { intros u. unfold Strings.all_space.
    pose proof (trim_left_mid (String.length u) u c ws (le_n _) Hc) as H.
    by destruct (Strings.trim_left (u +:+ String c ws)). }
  induction w as [|a w IH].
  - specialize (Hall "").
    change ("" +:+ String c ws) with (String c ws) in *.
    cbn [Strings.trim_right]. by rewrite Hall, trim_right_all_space.
  - change (String a w +:+ String c ws) with (String a (w +:+ String c ws)).
    cbn [Strings.trim_right].
    change (String a (w +:+ String c ws)) with (String a w +:+ String c ws) at 1.
    by rewrite Hall, IH.
Qed.

(** A text that starts and ends with an ASCII character that is not white
    space is what is left of it when white space is put around it. *)
Lemma TrimSpace_padded (ws1 t ws2 : string) :
  starts nonspace_ascii t = true -> ends nonspace_ascii t = true ->
  all_chars ascii_space ws1 = true -> all_chars ascii_space ws2 = true ->
  Strings.TrimSpace (ws1 +:+ t +:+ ws2) = t.
Proof.
  intros Hs (w & c & -> & Hc)%ends_inv H1 H2. unfold Strings.TrimSpace.
  rewrite trim_left_ascii_space by done.
  rewrite append_assoc.
  change (String c "" +:+ ws2) with (String c ws2).
  assert (Strings.trim_left (w +:+ String c ws2) = w +:+ String c ws2) as ->.
  { destruct w as [|a w].
    - change ("" +:+ String c ws2) with (String c ws2).
      by apply trim_left_nonspace.
    - change (String a w +:+ String c ws2) with (String a (w +:+ String c ws2)).
      apply trim_left_nonspace. exact Hs. }
  by apply trim_right_mid.
Qed.

Lemma ascii_space_ascii (c : ascii) : ascii_space c = true -> is_ascii c = true.
Proof. intros [H _]%ascii_space_inv. by apply N.ltb_lt. Qed.

(** X3: white space around the JSON text inside a payload is ignored.  The
    Base64 text of the text that [json.Marshal] writes for a JSON value
    [x], with tabs, line feeds, vertical tabs, form feeds, carriage
    returns or spaces before and after it, decodes to what [x] decodes
    to. *)
Theorem X3_padded_payload (x : value) (t ws1 ws2 : string) :
  Spec.json_value Json.maxNestingDepth x = true ->
  JsonEncode.Marshal x = Some t ->
  all_chars ascii_space ws1 = true -> all_chars ascii_space ws2 = true ->
  DecodeBase64Fields (VString (Base64.EncodeToString (ws1 +:+ t +:+ ws2)))
  = DecodeBase64Fields x.
Proof.
  intros Hj Ht H1 H2. rewrite DecodeBase64Fields_string.
  destruct (Marshal_tight x t Ht) as [Hs He].
  assert (Strings.TrimSpace (ws1 +:+ t +:+ ws2) = t) as Htrim.
  { apply TrimSpace_padded; try done.
    destruct t as [|c t]; [done|]. by apply value_head_nonspace. }
  apply (DecodeBase64String_json _ (ws1 +:+ t +:+ ws2)).
  - apply IsBase64_EncodeToString.
  - apply DecodeString_EncodeToString.
  - pose proof (vprefix_ascii ws1 (all_chars_impl _ _ _ ascii_space_ascii H1)) as V1.
    pose proof (vprefix_ascii ws2 (all_chars_impl _ _ _ ascii_space_ascii H2)) as V2.
    rewrite V1, (Marshal_vprefix x t Ht). specialize (V2 "").
    by rewrite append_nil_r in V2.
  - rewrite Htrim. by apply Unmarshal_Marshal.
Qed.

(** The payload of [TestBase64IsAnotherJSON]: the document followed by a
    line feed, as [echo ... | base64] gives it. *)
Lemma X3_padded_payload_witness :
  Spec.json_value Json.maxNestingDepth doc_key_value = true /\
  JsonEncode.Marshal doc_key_value = Some doc_key_value_text /\
  Base64.EncodeToString ("" +:+ doc_key_value_text +:+ Cli.newline)
  = "eyJrZXkiOiJ2YWx1ZSJ9Cg==" /\
  DecodeBase64Fields (VString "eyJrZXkiOiJ2YWx1ZSJ9Cg==") = doc_key_value.
Proof.
  do 3 (split; [vm_compute; reflexivity|]).
  transitivity (DecodeBase64Fields doc_key_value); [|vm_compute; reflexivity].
  apply (X3_padded_payload doc_key_value doc_key_value_text "" Cli.newline);
    vm_compute; reflexivity.
Defined.

(** ** Decoding an encoding *)

(** X4: what the decoder makes of the Base64 text of any bytes [p].  The
    encoding is always taken for Base64 and decoded back to [p]: when [p]
    is not valid UTF-8 the encoding is kept; otherwise it is replaced, by
    the decoded document when [p] without the white space around it is
    JSON, by that text when it is not. *)
Theorem X4_decode_encoded (p : string) :
  DecodeBase64Fields (VString (Base64.EncodeToString p))
  = if Utf8.Valid p then
      match Json.Unmarshal (Strings.TrimSpace p) with
      | Some jsonObj => DecodeBase64Fields jsonObj
      | None => VString (Strings.TrimSpace p)
      end
    else VString (Base64.EncodeToString p).
Proof.
  rewrite DecodeBase64Fields_string.
  pose proof (IsBase64_EncodeToString p) as Hb.
  pose proof (DecodeString_EncodeToString p) as Hd.
  destruct (Utf8.Valid p) eqn:Hv;
    [|by apply (DecodeBase64String_binary _ p)].
  destruct (Json.Unmarshal (Strings.TrimSpace p)) as [jsonObj|] eqn:Hu.
  - by apply (DecodeBase64String_json _ p).
  - apply DecodeBase64String_text; try done. unfold IsValidJSON. by rewrite Hu.
Qed.

(** ** The strings that [json.Unmarshal] stores are valid UTF-8 *)

Section encode_rune.
Local Open Scope N_scope.

Lemma byte_of_chr (n : N) : n < 256 -> byte_of (chr n) = n.
Proof. apply N_ascii_embedding. Qed.

Lemma lor_high (a k x : N) : x < 2 ^ k -> N.lor (N.shiftl a k) x = a * 2 ^ k + x.
Proof. apply lor_shiftl_add. Qed.

Lemma lor_128 (x : N) : x < 64 -> N.lor 128 x = 128 + x.
Proof. intros H. apply (lor_high 1 7 x). change (2 ^ 7) with 128. lia. Qed.

Lemma lor_192 (x : N) : x < 64 -> N.lor 192 x = 192 + x.
Proof. intros H. apply (lor_high 3 6 x). exact H. Qed.

Lemma lor_224 (x : N) : x < 16 -> N.lor 224 x = 224 + x.
Proof. intros H. apply (lor_high 7 5 x). change (2 ^ 5) with 32. lia. Qed.

Lemma lor_240 (x : N) : x < 8 -> N.lor 240 x = 240 + x.
Proof. intros H. apply (lor_high 15 4 x). change (2 ^ 4) with 16. lia. Qed.

Lemma land_63 (x : N) : N.land x 63 = x mod 64.
Proof. change 63 with (N.ones 6). apply N.land_ones. Qed.

Lemma shiftr_6 (x : N) : N.shiftr x 6 = x / 64.
Proof. apply N.shiftr_div_pow2. Qed.

Lemma shiftr_12 (x : N) : N.shiftr x 12 = x / 64 / 64.
Proof. change 12 with (6 + 6). rewrite <- N.shiftr_shiftr. by rewrite !shiftr_6. Qed.

Lemma shiftr_18 (x : N) : N.shiftr x 18 = x / 64 / 64 / 64.
Proof.
  change 18 with (12 + 6). rewrite <- N.shiftr_shiftr.
  by rewrite shiftr_12, shiftr_6.
Qed.

Lemma cont_byte (x : N) : Utf8.is_cont (chr (N.lor 128 (x mod 64))) = true.
Proof.
  pose proof (N.mod_lt x 64 ltac:(lia)) as H.
  generalize dependent (x mod 64). intros m H.
  unfold Utf8.is_cont, in_range. rewrite lor_128 by done.
  rewrite byte_of_chr by lia. apply andb_true_iff. rewrite !N.leb_le. lia.
Qed.

Ltac split_digits r :=
  pose proof (N.div_mod r 64 ltac:(lia));
  pose proof (N.mod_lt r 64 ltac:(lia));
  set (d0 := r mod 64) in *; set (h1 := r / 64) in *;
  pose proof (N.div_mod h1 64 ltac:(lia));
  pose proof (N.mod_lt h1 64 ltac:(lia));
  set (d1 := h1 mod 64) in *; set (h2 := h1 / 64) in *;
  pose proof (N.div_mod h2 64 ltac:(lia));
  pose proof (N.mod_lt h2 64 ltac:(lia));
  set (d2 := h2 mod 64) in *; set (h3 := h2 / 64) in *;
  clearbody d2 h3; clearbody d1 h2; clearbody d0 h1.

Ltac by_cases :=
  unfold Utf8.lead, in_range, is_byte;
  repeat match goal with
         | |- context [(?a <? ?b)] => destruct (N.ltb_spec a b)
         | |- context [(?a <=? ?b)] => destruct (N.leb_spec a b)
         | |- context [(?a =? ?b)] => destruct (N.eqb_spec a b)
         end; cbn [andb orb]; try lia; try reflexivity.

Lemma EncodeRune_vprefix (r : N) : vprefix (Utf8.EncodeRune r).
Proof.
  unfold Utf8.EncodeRune.
  destruct (N.ltb_spec r 128) as [H1|H1].
  { apply vprefix_cons; [|apply vprefix_nil].
    unfold is_ascii. rewrite byte_of_chr by lia. by apply N.ltb_lt. }
  destruct (N.ltb_spec r 2048) as [H2|H2].
  { intros b. rewrite shiftr_6, land_63.
    change (String ?a (String ?c "") +:+ b) with (String a (String c b)).
    cbn [Utf8.Valid]. unfold Utf8.DecodeRune.
    pose proof (cont_byte r) as Hc. unfold Utf8.is_cont in Hc.
    split_digits r.
    assert (Utf8.lead (chr (N.lor 192 h1)) = Some (2%nat, (128, 191))) as ->.
    { rewrite lor_192 by lia. unfold Utf8.lead, in_range, is_byte.
      rewrite byte_of_chr by lia. by_cases. }
    by rewrite Hc. }
  destruct ((r <? 55296) || (57343 <? r) && (r <? 65536)) eqn:H3.
  { assert (r < 55296 \/ 57343 < r < 65536) as H3'.
    { apply orb_true_iff in H3 as [H3|H3]; [left; by apply N.ltb_lt|right].
      apply andb_true_iff in H3 as [Ha Hb]. apply N.ltb_lt in Ha, Hb. lia. }
    clear H3. intros b. rewrite shiftr_12, shiftr_6, !land_63.
    change (String ?a (String ?c (String ?d "")) +:+ b)
      with (String a (String c (String d b))).
    cbn [Utf8.Valid]. unfold Utf8.DecodeRune.
    pose proof (cont_byte r) as Hc2. rewrite Hc2. clear Hc2.
    split_digits r.
    assert (exists lo hi,
              Utf8.lead (chr (N.lor 224 h2)) = Some (3%nat, (lo, hi)) /\
              in_range lo hi (chr (N.lor 128 d1)) = true)
      as (lo & hi & -> & ->); [|reflexivity].
    rewrite lor_224 by lia. rewrite lor_128 by lia.
    unfold Utf8.lead, in_range, is_byte. rewrite !byte_of_chr by lia.
    repeat match goal with
           | |- context [(?a <? ?b)] => destruct (N.ltb_spec a b)
           | |- context [(?a <=? ?b)] => destruct (N.leb_spec a b)
           | |- context [(?a =? ?b)] => destruct (N.eqb_spec a b)
           end; cbn [andb orb]; try lia;
      eexists _, _; (split; [reflexivity|]);
      apply andb_true_iff; rewrite !N.leb_le; lia. }
  destruct ((65535 <? r) && (r <? 1114112)) eqn:H4.
  { apply andb_true_iff in H4 as [Ha Hb]. apply N.ltb_lt in Ha, Hb.
    intros b. rewrite shiftr_18, shiftr_12, shiftr_6, !land_63.
    change (String ?a (String ?c (String ?d (String ?e ""))) +:+ b)
      with (String a (String c (String d (String e b)))).
    cbn [Utf8.Valid]. unfold Utf8.DecodeRune.
    pose proof (cont_byte r) as Hc3. pose proof (cont_byte (r / 64)) as Hc2.
    rewrite Hc2, Hc3. clear Hc2 Hc3.
    split_digits r.
    assert (exists lo hi,
              Utf8.lead (chr (N.lor 240 h3)) = Some (4%nat, (lo, hi)) /\
              in_range lo hi (chr (N.lor 128 d2)) = true)
      as (lo & hi & -> & ->); [|reflexivity].
    rewrite lor_240 by lia. rewrite lor_128 by lia.
    unfold Utf8.lead, in_range, is_byte. rewrite !byte_of_chr by lia.
    repeat match goal with
           | |- context [(?a <? ?b)] => destruct (N.ltb_spec a b)
           | |- context [(?a <=? ?b)] => destruct (N.leb_spec a b)
           | |- context [(?a =? ?b)] => destruct (N.eqb_spec a b)
           end; cbn [andb orb]; try lia;
      eexists _, _; (split; [reflexivity|]);
      apply andb_true_iff; rewrite !N.leb_le; lia. }
  by intros b.
Qed.

End encode_rune.

Lemma vprefix_valid (a : string) : vprefix a -> Utf8.Valid a = true.
Proof. intros H. specialize (H ""). by rewrite append_nil_r in H. Qed.

Lemma vprefix_flush (pend : option N) : vprefix (Json.flush pend).
Proof. destruct pend; [apply EncodeRune_vprefix | apply vprefix_nil]. Qed.

Lemma vprefix_u_step (pend : option N) (rr : N) (o : string) (p : option N) :
  Json.u_step pend rr = (o, p) -> vprefix o.
Proof.
  assert (forall o' p', Json.u_alone rr = (o', p') -> vprefix o') as Halone.
  { intros o' p'. unfold Json.u_alone.
    destruct (Json.is_high rr); [intros [= <- _]; apply vprefix_nil|].
    destruct (Json.is_low rr); intros [= <- _]; apply EncodeRune_vprefix. }
  unfold Json.u_step. destruct pend as [hi|]; [|apply Halone].
  destruct (Json.is_low rr); [intros [= <- _]; apply EncodeRune_vprefix|].
  destruct (Json.u_alone rr) as [o' p'] eqn:Ha. intros [= <- _].
  apply vprefix_app; [apply EncodeRune_vprefix | by apply (Halone o' p')].
Qed.

Lemma esc_char_out_ascii (e x : ascii) :
  Json.esc_char e = Some x -> is_ascii x = true.
Proof.
  destruct e as [[] [] [] [] [] [] [] []]; intros H; try discriminate H;
    injection H as <-; reflexivity.
Qed.

(** The value of a string literal is valid UTF-8, whatever bytes the
    literal holds. *)
Lemma unquote_valid (n : nat) :
  forall s pend str rest,
    String.length s <= n ->
    Json.unquote pend s = Some (str, rest) -> Utf8.Valid str = true.
Proof.
  induction n as [n IH] using lt_wf_ind.
  intros [|c r0] pend str rest Hn; [discriminate|].
  cbn [Json.unquote]. cbn [String.length] in Hn.
  assert (forall r o p, String.length r <= String.length r0 -> vprefix o ->
            Json.emit o (Json.unquote p r) = Some (str, rest) ->
            Utf8.Valid str = true) as Hrec.
  { intros r o p Hr Ho H. apply emit_Some in H as (str' & H & ->).
    rewrite Ho. apply (IH (String.length r)) in H; [done | lia | lia]. }
  assert (forall o, vprefix o -> vprefix (Json.flush pend +:+ o)) as Hfl
    by (intros o Ho; apply vprefix_app; [apply vprefix_flush | done]).
  destruct (is_byte 34 c).
  { intros [= <- _]. apply vprefix_valid, vprefix_flush. }
  destruct (is_byte 92 c).
  { destruct r0 as [|e r1]; [discriminate|].
    destruct (is_byte 117 e).
    - destruct r1 as [|h1 [|h2 [|h3 [|h4 r2]]]]; try discriminate.
      destruct (Json.getu4 h1 h2 h3 h4) as [rr|]; [|discriminate].
      destruct (Json.u_step pend rr) as [o p] eqn:Hu.
      apply Hrec; [cbn [String.length]; lia | by apply (vprefix_u_step pend rr o p)].
    - destruct (Json.esc_char e) as [x|] eqn:He; [|discriminate].
      apply Hrec; [cbn [String.length]; lia|].
      apply Hfl, vprefix_cons; [by apply (esc_char_out_ascii e) | apply vprefix_nil]. }
  destruct (byte_of c <? 32)%N; [discriminate|].
  assert (vprefix (Json.flush pend +:+ Json.replacement)) as Hbad
    by apply Hfl, EncodeRune_vprefix.
  destruct (Utf8.DecodeRune (String c r0)) as [[x [|[|[|[|[|k]]]]]]|] eqn:Hd;
    try (apply Hrec; [lia | exact Hbad]).
  - apply DecodeRune_inv in Hd as (c0 & r' & [= <- <-] & Hlt & _).
    apply Hrec; [lia|]. apply Hfl, vprefix_cons; [by apply N.ltb_lt | apply vprefix_nil].
  - apply DecodeRune_inv in Hd as (c0 & c1 & r1 & [= <- ->] & _ & Hloc).
    apply Hrec; [cbn [String.length]; lia|]. apply Hfl. intros b.
    change (String c (String c1 "") +:+ b) with (String c (String c1 b)).
    cbn [Utf8.Valid]. by rewrite Hloc.
  - apply DecodeRune_inv in Hd as (c0 & c1 & c2 & r2 & [= <- ->] & _ & _ & Hloc).
    apply Hrec; [cbn [String.length]; lia|]. apply Hfl. intros b.
    change (String c (String c1 (String c2 "")) +:+ b)
      with (String c (String c1 (String c2 b))).
    cbn [Utf8.Valid]. by rewrite Hloc.
  - apply DecodeRune_inv in Hd as (c0 & c1 & c2 & c3 & r3 & [= <- ->] & _ & _ & _ & Hloc).
    apply Hrec; [cbn [String.length]; lia|]. apply Hfl. intros b.
    change (String c (String c1 (String c2 (String c3 ""))) +:+ b)
      with (String c (String c1 (String c2 (String c3 b)))).
    cbn [Utf8.Valid]. by rewrite Hloc.
Qed.

Lemma json_value_array_intro (d : nat) (l : list value) :
  Forall (fun v => Spec.json_value d v = true) l ->
  Spec.json_value (S d) (VArray l) = true.
Proof.
  cbn [Spec.json_value]. induction 1 as [|v l Hv _ IH]; [done|].
  cbn [forallb]. by rewrite Hv, IH.
Qed.

Lemma json_value_object_intro (d : nat) (m : gmap string value) :
  map_Forall (fun k v => Utf8.Valid k = true /\ Spec.json_value d v = true) m ->
  Spec.json_value (S d) (VObject m) = true.
Proof.
  cbn [Spec.json_value].
  induction m as [|k v m Hk Hfold IH] using map_first_key_ind; intros H.
  - by rewrite map_fold_empty.
  - rewrite map_fold_insert_first_key by done.
    apply map_Forall_insert in H as [[Hkv Hv] Hm]; [|done].
    by rewrite Hkv, Hv, IH.
Qed.

(** What the parser stores is a JSON value: valid UTF-8 in every string
    and key, and no more nesting than it was given room for. *)
Lemma parse_json (fuel : nat) :
  (forall depth s v rest,
     Json.parse_value fuel depth s = Json.Ok (v, rest) ->
     Spec.json_value depth v = true) /\
  (forall depth acc s v rest,
     Json.parse_elements fuel depth acc s = Json.Ok (v, rest) ->
     Forall (fun x => Spec.json_value depth x = true) acc ->
     Spec.json_value (S depth) v = true) /\
  (forall depth m s v rest,
     Json.parse_members fuel depth m s = Json.Ok (v, rest) ->
     map_Forall (fun k x => Utf8.Valid k = true /\ Spec.json_value depth x = true) m ->
     Spec.json_value (S depth) v = true).
Proof.
  induction fuel as [|fuel (IHv & IHe & IHm)]; [repeat split; intros; discriminate|].
  split; [|split].
  - intros depth s v rest. cbn [Json.parse_value].
    destruct (Json.skip_ws s) as [|c r]; [discriminate|].
    destruct (is_byte 123 c).
    { destruct depth as [|depth']; [discriminate|].
      destruct (Json.skip_ws r) as [|c' r'] eqn:Hr; [discriminate|].
      destruct (is_byte 125 c').
      - intros [= <- _]. apply json_value_object_intro, map_Forall_empty.
      - intros H. apply (IHm _ _ _ _ _ H). apply map_Forall_empty. }
    destruct (is_byte 91 c).
    { destruct depth as [|depth']; [discriminate|].
      destruct (Json.skip_ws r) as [|c' r'] eqn:Hr; [discriminate|].
      destruct (is_byte 93 c').
      - intros [= <- _]. by apply json_value_array_intro.
      - intros H. apply (IHe _ _ _ _ _ H). constructor. }
    destruct (is_byte 34 c).
    { destruct (Json.unquote None r) as [[str rest']|] eqn:Hu; [|discriminate].
      intros [= <- _]. cbn [Spec.json_value].
      by apply (unquote_valid (String.length r) r None str rest'). }
    destruct (is_byte 116 c).
    { destruct (Json.strip_prefix "rue" r); [|discriminate]. by intros [= <- _]. }
    destruct (is_byte 102 c).
    { destruct (Json.strip_prefix "alse" r); [|discriminate]. by intros [= <- _]. }
    destruct (is_byte 110 c).
    { destruct (Json.strip_prefix "ull" r); [|discriminate]. by intros [= <- _]. }
    destruct (Json.scan_number (String c r)) as [[l rest']|]; [|discriminate].
    destruct (Strconv.ParseFloat l); [|discriminate]. by intros [= <- _].
  - intros depth acc s v rest. cbn [Json.parse_elements].
    destruct (Json.parse_value fuel depth s) as [[v1 rest1]| |] eqn:Hp;
      try discriminate.
    apply IHv in Hp.
    destruct (Json.skip_ws rest1) as [|c r]; [discriminate|].
    destruct (is_byte 44 c).
    { intros H Hacc. apply (IHe _ _ _ _ _ H). by constructor. }
    destruct (is_byte 93 c); [|discriminate].
    intros [= <- _] Hacc. apply json_value_array_intro.
    apply Forall_app. split; [by apply List.Forall_rev | by constructor].
  - intros depth m s v rest. cbn [Json.parse_members].
    destruct (Json.skip_ws s) as [|q r]; [discriminate|].
    destruct (is_byte 34 q); [|discriminate].
    destruct (Json.unquote None r) as [[key r1]|] eqn:Hu; [|discriminate].
    apply (unquote_valid (String.length r)) in Hu; [|done].
    destruct (Json.skip_ws r1) as [|c r2]; [discriminate|].
    destruct (is_byte 58 c); [|discriminate].
    destruct (Json.parse_value fuel depth r2) as [[v1 rest1]| |] eqn:Hp;
      try discriminate.
    apply IHv in Hp.
    destruct (Json.skip_ws rest1) as [|c' r3]; [discriminate|].
    destruct (is_byte 44 c').
    { intros H Hm. apply (IHm _ _ _ _ _ H). by apply map_Forall_insert_2. }
    destruct (is_byte 125 c'); [|discriminate].
    intros [= <- _] Hm. apply json_value_object_intro.
    by apply map_Forall_insert_2.
Qed.

Lemma Unmarshal_json_value (data : string) (x : value) :
  Json.Unmarshal data = Some x ->
  Spec.json_value Json.maxNestingDepth x = true.
Proof.
  unfold Json.Unmarshal.
  destruct (Json.parse_value _ _ data) as [[v rest]| |] eqn:Hp; try discriminate.
  destruct (Json.is_empty (Json.skip_ws rest)); [|discriminate].
  intros [= <-]. exact (proj1 (parse_json _) _ _ _ _ Hp).
Qed.

(** X5: the document that [DecodeBase64String] gets from [json.Unmarshal]
    is a JSON value: every string and key of it is valid UTF-8, whatever
    bytes the text holds, and its arrays and objects are nested 10000 deep
    at most. *)
Theorem X5_Unmarshal_json_value (data : string) (x : value) :
  Json.Unmarshal data = Some x ->
  Spec.json_value Json.maxNestingDepth x = true.
Proof. apply Unmarshal_json_value. Qed.

Lemma X5_Unmarshal_json_value_witness :
  Json.Unmarshal Spec.doc_a1 = Some Spec.obj_a1 /\
  Spec.json_value Json.maxNestingDepth Spec.obj_a1 = true.
Proof.
  split; [vm_compute; reflexivity|].
  apply (X5_Unmarshal_json_value Spec.doc_a1 Spec.obj_a1). vm_compute. reflexivity.
Defined.

(** ** The decoder keeps strings valid UTF-8 *)

Lemma utf8_value_object (m : gmap string value) :
  utf8_value (VObject m) = true <->
  map_Forall (fun k v => Utf8.Valid k = true /\ utf8_value v = true) m.
Proof.
  cbn [utf8_value].
  induction m as [|k v m Hk Hfold IH] using map_first_key_ind.
  - rewrite map_fold_empty. split; [intros _; apply map_Forall_empty | done].
  - rewrite map_fold_insert_first_key by done.
    rewrite map_Forall_insert by done. rewrite !andb_true_iff, IH. tauto.
Qed.

Lemma utf8_value_array (l : list value) :
  utf8_value (VArray l) = true <-> Forall (fun v => utf8_value v = true) l.
Proof.
  cbn [utf8_value]. induction l as [|x l IH]; cbn [forallb].
  - split; [constructor | done].
  - rewrite Forall_cons, andb_true_iff, IH. done.
Qed.

Lemma json_value_utf8 (x : value) :
  forall d, Spec.json_value d x = true -> utf8_value x = true.
Proof.
  induction x as [| b | f | s | l IH | m IH] using value_ind_nested;
    intros d Hj; try done.
  - apply json_value_array in Hj as (d' & -> & Hl). apply utf8_value_array.
    clear -IH Hl. induction l as [|x l IHl]; [constructor|].
    apply Forall_cons in IH as [Hx IH]. apply Forall_cons in Hl as [Jx Jl].
    constructor; [by apply (Hx d') | by apply IHl].
  - apply json_value_object in Hj as (d' & -> & Hm). apply utf8_value_object.
    intros k v Hk. destruct (Hm k v Hk) as [Hkv Hv].
    split; [done | by apply (IH k v Hk d')].
Qed.

(** X6: when every string and key of the input is valid UTF-8, so is every
    string and key of the result: a replacement text was checked by
    [utf8.Valid] and trimmed at rune boundaries, and a parsed document
    holds valid UTF-8 only. *)
Theorem X6_decode_keeps_utf8 (data : value) :
  utf8_value data = true -> utf8_value (DecodeBase64Fields data) = true.
Proof.
  induction data as [data IH] using (well_founded_induction calls_wf).
  destruct data as [| b | f | s | l | m]; intros Hu.
  - by rewrite DecodeBase64Fields_unfold.
  - by rewrite DecodeBase64Fields_unfold.
  - by rewrite DecodeBase64Fields_unfold.
  - rewrite DecodeBase64Fields_string.
    destruct (DecodeBase64String_cases s)
      as [-> | [(d & _ & Hd & Hv & _ & ->) | (d & y & _ & Hd & Hv & Hy & Hc & ->)]].
    + done.
    + cbn [utf8_value]. by apply TrimSpace_valid.
    + apply (IH y Hc). apply (json_value_utf8 y Json.maxNestingDepth).
      by apply (Unmarshal_json_value (Strings.TrimSpace d)).
  - rewrite DecodeBase64Fields_array. apply utf8_value_array.
    apply utf8_value_array in Hu. unfold DecodeBase64InSlice.
    apply Forall_fmap, Forall_forall. intros y Hy. cbn [compose].
    apply (IH y (calls_slice l y Hy)). rewrite Forall_forall in Hu. by apply Hu.
  - rewrite DecodeBase64Fields_object. apply utf8_value_object.
    pose proof (proj1 (utf8_value_object m) Hu) as Hm. unfold DecodeBase64InMap.
    intros k v'. rewrite lookup_fmap. destruct (m !! k) as [y|] eqn:Hk; [|done].
    intros [= <-]. destruct (Hm k y Hk) as [Hkv Hy].
    split; [done | by apply (IH y (calls_map m k y Hk))].
Qed.

Lemma X6_decode_keeps_utf8_witness :
  utf8_value doc_data = true /\ utf8_value (DecodeBase64Fields doc_data) = true.
Proof.
  split; [vm_compute; reflexivity|].
  apply (X6_decode_keeps_utf8 doc_data). vm_compute. reflexivity.
Defined.

(** ** The loops over a map and over a slice *)

Lemma range_map_lookup (entries : list (string * value)) :
  forall (acc : gmap string value) (k : string),
    NoDup entries.*1 ->
    (forall v, (k, v) ∈ entries ->
       foldl (fun result kv => <[kv.1 := DecodeBase64Fields kv.2]> result)
             acc entries !! k = Some (DecodeBase64Fields v)) /\
    (k ∉ entries.*1 ->
       foldl (fun result kv => <[kv.1 := DecodeBase64Fields kv.2]> result)
             acc entries !! k = acc !! k).
Proof.
  induction entries as [|[k0 v0] entries IH]; intros acc k Hnd.
  - split; [intros v Hv; by apply elem_of_nil in Hv | done].
  - rewrite fmap_cons in Hnd. cbn [fst] in Hnd.
    apply NoDup_cons in Hnd as [Hk0 Hnd]. cbn [foldl fst snd].
    destruct (IH (<[k0 := DecodeBase64Fields v0]> acc) k Hnd) as [Hin Hout].
    split.
    + intros v [[= -> ->]|Hv]%elem_of_cons; [|by apply Hin].
      rewrite Hout by done. apply lookup_insert_eq.
    + rewrite fmap_cons. cbn [fst]. intros Hk%not_elem_of_cons.
      destruct Hk as [Hne Hk]. rewrite Hout by done.
      by apply lookup_insert_ne.
Qed.

Lemma range_slice_from (s : list value) :
  forall pre init : list value,
    length init = length s ->
    foldl (fun result iv => <[iv.1 := DecodeBase64Fields iv.2]> result)
          (pre ++ init)%list (imap (fun i v => (length pre + i, v)) s)
    = (pre ++ (DecodeBase64Fields <$> s))%list.
Proof.
  induction s as [|x s IH]; intros pre init Hl.
  - destruct init; [done | discriminate].
  - destruct init as [|y init]; [discriminate|]. injection Hl as Hl.
    cbn [imap foldl fst snd].
    rewrite insert_app_r. cbn [insert list_insert].
    replace (pre ++ DecodeBase64Fields x :: init)%list
      with ((pre ++ [DecodeBase64Fields x]) ++ init)%list
      by by rewrite <- app_assoc.
    rewrite (imap_ext _ (fun i v =>
               (length (pre ++ [DecodeBase64Fields x])%list + i, v)));
      [|intros i v _; unfold compose; rewrite length_app; cbn [length]; f_equal; lia].
    rewrite (IH _ _ Hl). by rewrite <- app_assoc.
Qed.

(** X7: the loops of [DecodeBase64InMap] and [DecodeBase64InSlice] build
    the image of their argument.  Whatever the order in which the entries
    of the map are ranged over, the fresh map has exactly the keys of the
    input, each bound to the decoded value; the fresh slice has the length
    of the input and, at each index, the decoded element. *)
Theorem X7_range_loops (m : gmap string value) (entries : list (string * value))
    (s : list value) :
  entries ≡ₚ map_to_list m ->
  DecodeBase64InMap_range entries = DecodeBase64InMap m /\
  DecodeBase64InSlice_range s = DecodeBase64InSlice s /\
  length (DecodeBase64InSlice_range s) = length s.
Proof.
  intros Hp. split.
  - apply map_eq. intros k.
    assert (NoDup entries.*1) as Hnd.
    { rewrite Hp. apply NoDup_fst_map_to_list. }
    destruct (range_map_lookup entries ∅ k Hnd) as [Hin Hout].
    unfold DecodeBase64InMap_range, DecodeBase64InMap. rewrite lookup_fmap.
    destruct (m !! k) as [v|] eqn:Hk.
    + transitivity (Some (DecodeBase64Fields v)); [|done].
      apply Hin. rewrite Hp. by apply elem_of_map_to_list.
    + transitivity ((∅ : gmap string value) !! k); [|done].
      apply Hout. intros Hk'.
      apply list_elem_of_fmap in Hk' as ([k' v] & -> & Hv). cbn [fst] in Hk.
      rewrite Hp in Hv. apply elem_of_map_to_list in Hv. congruence.
  - assert (DecodeBase64InSlice_range s = DecodeBase64InSlice s) as Heq.
    { unfold DecodeBase64InSlice_range, DecodeBase64InSlice.
      apply (range_slice_from s [] (replicate (length s) VNull)).
      apply length_replicate. }
    split; [exact Heq|]. rewrite Heq. unfold DecodeBase64InSlice.
    apply length_fmap.
Qed.

Lemma X7_range_loops_witness :
  let m : gmap string value := {[ "data" := VString "SGVsbG8=" ]} in
  let s := [VString "SGVsbG8="; VNull] in
  DecodeBase64InMap_range (map_to_list m) = DecodeBase64InMap m /\
  DecodeBase64InSlice_range s = DecodeBase64InSlice s /\
  length (DecodeBase64InSlice_range s) = length s.
Proof.
  cbv zeta.
  apply (X7_range_loops {[ "data" := VString "SGVsbG8=" ]}
           (map_to_list {[ "data" := VString "SGVsbG8=" ]})
           [VString "SGVsbG8="; VNull]).
  reflexivity.
Defined.

(** ** White space around a document *)

Lemma number_stop_inv (c : ascii) (r : string) :
  number_stop (String c r) = true ->
  Strconv.is_digit c = false /\ is_byte 46 c = false /\
  is_byte 101 c = false /\ is_byte 69 c = false.
Proof.
  cbn [number_stop]. intros H%negb_true_iff.
  by repeat apply orb_false_iff in H as [H ?].
Qed.

Lemma delim_stop (rest : string) : delim rest = true -> number_stop rest = true.
Proof.
  destruct rest as [|c r]; [done|]. intros (Hd & Hp & He & HE & _)%delim_inv.
  cbn [number_stop]. by rewrite Hd, Hp, He, HE.
Qed.

Lemma space_stop (ws : string) :
  all_chars Json.isSpace ws = true -> number_stop ws = true.
Proof.
  destruct ws as [|c ws]; [done|]. cbn [all_chars number_stop].
  intros [Hc _]%andb_true_iff.
  destruct c as [[] [] [] [] [] [] [] []]; try discriminate Hc; reflexivity.
Qed.

Lemma span_digits_stop (s : string) :
  forall d r rest,
    Json.span_digits s = (d, r) -> number_stop rest = true ->
    Json.span_digits (s +:+ rest) = (d, r +:+ rest).
Proof.
  induction s as [|c s IH]; intros d r rest.
  - intros [= <- <-] Hr. destruct rest as [|c r]; [done|].
    apply number_stop_inv in Hr as (Hd & _).
    change ("" +:+ String c r) with (String c r).
    cbn [Json.span_digits]. by rewrite Hd.
  - change (String c s +:+ rest) with (String c (s +:+ rest)).
    cbn [Json.span_digits]. destruct (Strconv.is_digit c).
    + destruct (Json.span_digits s) as [d' r'] eqn:Hs. intros [= <- <-] Hr.
      by rewrite (IH d' r' rest eq_refl Hr).
    + by intros [= <- <-] _.
Qed.

Lemma scan_exp_stop (sign : bool) (i f s : string) (l : Strconv.numlit) (r rest : string) :
  Json.scan_exp sign i f s = Some (l, r) -> number_stop rest = true ->
  Json.scan_exp sign i f (s +:+ rest) = Some (l, r +:+ rest).
Proof.
  destruct s as [|c s].
  - intros [= <- <-] Hr. destruct rest as [|c r]; [done|].
    apply number_stop_inv in Hr as (_ & _ & He & HE).
    change ("" +:+ String c r) with (String c r).
    cbn [Json.scan_exp]. by rewrite He, HE.
  - change (String c s +:+ rest) with (String c (s +:+ rest)).
    cbn [Json.scan_exp]. destruct (is_byte 101 c || is_byte 69 c).
    + intros H Hr.
      assert (forall eneg r1,
                (let '(es, r2) := Json.span_digits r1 in
                 if Json.is_empty es then None
                 else Some (Strconv.NumLit sign i f eneg es, r2)) = Some (l, r) ->
                (let '(es, r2) := Json.span_digits (r1 +:+ rest) in
                 if Json.is_empty es then None
                 else Some (Strconv.NumLit sign i f eneg es, r2)) = Some (l, r +:+ rest))
        as Hk.
      { intros eneg r1. destruct (Json.span_digits r1) as [es r2] eqn:Hs.
        rewrite (span_digits_stop _ _ _ _ Hs Hr).
        destruct (Json.is_empty es); [done|]. by intros [= <- <-]. }
      destruct s as [|c' s'].
      * discriminate H.
      * change (String c' s' +:+ rest) with (String c' (s' +:+ rest)).
        revert H. cbv beta iota.
        destruct (is_byte 43 c'); [exact (Hk _ _)|].
        destruct (is_byte 45 c'); [exact (Hk _ _)|].
        exact (Hk false (String c' s')).
    + by intros [= <- <-] _.
Qed.

Lemma scan_frac_stop (sign : bool) (i s : string) (l : Strconv.numlit) (r rest : string) :
  Json.scan_frac sign i s = Some (l, r) -> number_stop rest = true ->
  Json.scan_frac sign i (s +:+ rest) = Some (l, r +:+ rest).
Proof.
  destruct s as [|c s].
  - intros H Hr. cbn [Json.scan_frac] in H.
    pose proof (scan_exp_stop _ _ _ _ _ _ _ H Hr) as H'.
    change ("" +:+ rest) with rest in *.
    destruct rest as [|c r']; [done|].
    pose proof Hr as Hr'. apply number_stop_inv in Hr' as (_ & Hp & _).
    cbn [Json.scan_frac]. by rewrite Hp.
  - change (String c s +:+ rest) with (String c (s +:+ rest)).
    cbn [Json.scan_frac]. destruct (is_byte 46 c).
    + destruct (Json.span_digits s) as [fs r'] eqn:Hs. intros H Hr.
      rewrite (span_digits_stop _ _ _ _ Hs Hr).
      destruct (Json.is_empty fs); [done|]. by apply scan_exp_stop.
    + intros H Hr. by apply (scan_exp_stop _ _ _ (String c s)).
Qed.

Lemma scan_number_stop (s : string) (l : Strconv.numlit) (r rest : string) :
  Json.scan_number s = Some (l, r) -> number_stop rest = true ->
  Json.scan_number (s +:+ rest) = Some (l, r +:+ rest).
Proof.
  intros H Hr. unfold Json.scan_number in *.
  assert (forall sign s1,
            match s1 with
            | String c r0 =>
                if is_byte 48 c then Json.scan_frac sign (String c "") r0
                else if in_range 49 57 c then
                  let '(ds, r') := Json.span_digits r0 in
                  Json.scan_frac sign (String c ds) r'
                else None
            | EmptyString => None
            end = Some (l, r) ->
            match s1 +:+ rest with
            | String c r0 =>
                if is_byte 48 c then Json.scan_frac sign (String c "") r0
                else if in_range 49 57 c then
                  let '(ds, r') := Json.span_digits r0 in
                  Json.scan_frac sign (String c ds) r'
                else None
            | EmptyString => None
            end = Some (l, r +:+ rest)) as Hk.
  { intros sign [|c r0]; [done|].
    change (String c r0 +:+ rest) with (String c (r0 +:+ rest)).
    cbv beta iota.
    destruct (is_byte 48 c);
      [intros H'; exact (scan_frac_stop _ _ _ _ _ _ H' Hr)|].
    destruct (in_range 49 57 c); [|done].
    destruct (Json.span_digits r0) as [ds r'] eqn:Hs.
    rewrite (span_digits_stop _ _ _ _ Hs Hr). intros H'.
    exact (scan_frac_stop _ _ _ _ _ _ H' Hr). }
  destruct s as [|c s]; [discriminate H|].
  change (String c s +:+ rest) with (String c (s +:+ rest)).
  revert H. cbv beta iota.
  destruct (is_byte 45 c); [exact (Hk _ _)|].
  exact (Hk false (String c s)).
Qed.

Lemma parse_value_number_stop (lit : string) (f : spec_float) (fuel depth : nat) (rest : string) :
  JsonEncode.reads_back lit f = true -> number_stop rest = true ->
  Json.parse_value (S fuel) depth (lit +:+ rest) = Json.Ok (VNumber f, rest).
Proof.
  unfold JsonEncode.reads_back.
  destruct (Json.scan_number lit) as [[l [|? ?]]|] eqn:Hs; try done.
  destruct (Strconv.ParseFloat l) as [f'|] eqn:Hp; [|done].
  intros <-%float_eqb_eq Hr.
  pose proof (scan_number_stop _ _ _ _ Hs Hr) as Hs'.
  apply scan_number_chars in Hs as (c & p & -> & Hc).
  rewrite append_nil_r in *.
  cbn [all_chars] in Hc. apply andb_true_iff in Hc as [Hc _].
  apply numchar_inv in Hc as (_ & Hsp & _ & _ & H1 & H2 & H3 & H4 & H5 & H6).
  change (String c p +:+ rest) with (String c (p +:+ rest)) in *.
  cbn [Json.parse_value Json.skip_ws]. rewrite Hsp, H1, H2, H3, H4, H5, H6.
  change ("" +:+ rest) with rest in Hs'. by rewrite Hs', Hp.
Qed.

(** The text written for a value is read back whatever follows it, as long
    as what follows does not continue a number. *)
Lemma parse_Marshal_stop (x : value) (t : string) (d : nat) :
  JsonEncode.Marshal x = Some t -> Spec.json_value d x = true ->
  forall fuel rest, number_stop rest = true ->
    reads (Json.parse_value fuel d (t +:+ rest)) x rest.
Proof.
  intros Ht Hj fuel rest Hr. destruct fuel as [|fuel]; [by right|].
  destruct x as [| b | f | s | l | m].
  - left. injection Ht as <-. reflexivity.
  - left. injection Ht as <-. by destruct b.
  - left. apply FormatFloat_reads_back in Ht. by apply parse_value_number_stop.
  - left. injection Ht as <-. cbn [Spec.json_value] in Hj.
    unfold JsonEncode.quote.
    change (String JsonEncode.dquote ?a +:+ rest)
      with (String JsonEncode.dquote (a +:+ rest)).
    rewrite append_assoc.
    change (String JsonEncode.dquote "" +:+ rest) with (String JsonEncode.dquote rest).
    cbn [Json.parse_value Json.skip_ws].
    change (Json.isSpace JsonEncode.dquote) with false. cbv iota.
    change (is_byte 123 JsonEncode.dquote) with false.
    change (is_byte 91 JsonEncode.dquote) with false.
    change (is_byte 34 JsonEncode.dquote) with true. cbv iota.
    by rewrite (unquote_appendString (String.length s)).
  - apply Marshal_array_inv in Ht as (ts & Hts & ->).
    apply json_value_array in Hj as (d' & -> & Hl).
    change ("[" +:+ JsonEncode.join ts +:+ "]")
      with (String "[" (JsonEncode.join ts +:+ "]")).
    change (String "[" ?a +:+ rest) with (String "[" (a +:+ rest)).
    rewrite append_assoc.
    cbn [Json.parse_value Json.skip_ws].
    change (Json.isSpace "[") with false. cbv iota.
    change (is_byte 123 "[") with false. change (is_byte 91 "[") with true.
    cbv iota.
    destruct Hts as [|v t l ts Hv Hts]; [by left|].
    destruct (Marshal_tight _ _ Hv) as [Hhead _].
    assert (exists c r, Json.skip_ws (JsonEncode.join (t :: ts) +:+ "]" +:+ rest)
                        = String c r /\ is_byte 93 c = false /\
                        String c r = JsonEncode.join (t :: ts) +:+ "]" +:+ rest)
      as (c & r & -> & -> & ->).
    { destruct t as [|c t']; [done|]. cbn [starts] in Hhead.
      unfold value_head in Hhead. apply andb_true_iff in Hhead as [Hc H93].
      apply negb_true_iff in H93. apply nonspace_not_json_space in Hc.
      exists c. cbn [JsonEncode.join]. destruct ts as [|t2 ts].
      - exists (t' +:+ "]" +:+ rest).
        change (String c t' +:+ ?x) with (String c (t' +:+ x)).
        cbn [Json.skip_ws]. by rewrite Hc.
      - exists ((t' +:+ "," +:+ JsonEncode.join (t2 :: ts)) +:+ "]" +:+ rest).
        change ((String c t' +:+ ?y) +:+ ?x) with (String c ((t' +:+ y) +:+ x)).
        cbn [Json.skip_ws]. by rewrite Hc. }
    apply (parse_elements_join d' (v :: l) (t :: ts)); [|done].
    clear Hhead. apply Forall_cons in Hl as [Hjv Hjl].
    constructor; [intros; by apply parse_Marshal|].
    clear -Hts Hjl. induction Hts as [|v t l ts Hv _ IHts]; [constructor|].
    apply Forall_cons in Hjl as [Hjv Hjl].
    constructor; [intros; by apply parse_Marshal | by auto].
  - apply Marshal_object_inv in Ht as (kts & -> & Hkts & Hdom).
    apply json_value_object in Hj as (d' & -> & Hm).
    change ("{" +:+ ?a +:+ "}") with (String "{" (a +:+ "}")).
    change (String "{" ?a +:+ rest) with (String "{" (a +:+ rest)).
    rewrite append_assoc.
    cbn [Json.parse_value Json.skip_ws].
    change (Json.isSpace "{") with false. cbv iota.
    change (is_byte 123 "{") with true. cbv iota.
    destruct kts as [|[k t] kts].
    { left. assert (m = ∅) as ->; [|done].
      apply map_eq. intros k. rewrite lookup_empty.
      destruct (m !! k) eqn:Hk; [|done].
      specialize (Hdom k ltac:(eauto)). by apply elem_of_nil in Hdom. }
    set (kts' := (k, t) :: kts) in *.
    assert (exists r, Json.skip_ws (JsonEncode.join (JsonEncode.member <$> kts')
                                    +:+ "}" +:+ rest)
                      = String JsonEncode.dquote r /\
                      String JsonEncode.dquote r
                      = JsonEncode.join (JsonEncode.member <$> kts') +:+ "}" +:+ rest)
      as (r & -> & ->).
    { unfold kts'. rewrite fmap_cons. cbn [JsonEncode.join].
      destruct (JsonEncode.member <$> kts) as [|mt mts].
      - rewrite member_text. eexists. split; [|reflexivity].
        cbn [Json.skip_ws]. by change (Json.isSpace JsonEncode.dquote) with false.
      - rewrite append_assoc, member_text. eexists. split; [|reflexivity].
        cbn [Json.skip_ws]. by change (Json.isSpace JsonEncode.dquote) with false. }
    change (is_byte 125 JsonEncode.dquote) with false. cbv iota.
    destruct (parse_members_join d' m kts') with (fuel := fuel) (acc := (∅ : gmap string value)) (rest := rest)
      as [Hout|(m' & Hok & Hm')]; [| done | by right | ].
    { apply Forall_forall. intros [k1 t1] Hin.
      rewrite Forall_forall in Hkts. destruct (Hkts _ Hin) as (v & Hv & Ht).
      cbn [fst snd] in *. destruct (Hm _ _ Hv) as [Hk1 Hjv].
      split; [done|]. exists v. split; [done|]. intros fuel' rest' Hr'.
      by apply parse_Marshal. }
    left. rewrite Hok. do 3 f_equal. apply map_eq. intros k0. rewrite Hm'.
    destruct (decide (k0 ∈ kts'.*1)) as [Hin|Hnin]; [done|].
    rewrite lookup_empty. destruct (m !! k0) eqn:Hk0; [|done].
    destruct Hnin. apply Hdom. eauto.
Qed.

Lemma skip_ws_space (ws r : string) :
  all_chars Json.isSpace ws = true -> Json.skip_ws (ws +:+ r) = Json.skip_ws r.
Proof.
  induction ws as [|c ws IH]; [done|]. cbn [all_chars].
  intros [Hc Hws]%andb_true_iff.
  change (String c ws +:+ r) with (String c (ws +:+ r)).
  cbn [Json.skip_ws]. rewrite Hc. by apply IH.
Qed.

Lemma parse_value_space (fuel depth : nat) (ws r : string) :
  all_chars Json.isSpace ws = true ->
  Json.parse_value fuel depth (ws +:+ r) = Json.parse_value fuel depth r.
Proof.
  intros H. destruct fuel as [|fuel]; [done|].
  cbn [Json.parse_value]. by rewrite skip_ws_space.
Qed.

(** [json.Unmarshal] reads the text written for a JSON value back with
    spaces, tabs, line feeds and carriage returns around it. *)
Lemma Unmarshal_padded (x : value) (t ws1 ws2 : string) :
  Spec.json_value Json.maxNestingDepth x = true ->
  JsonEncode.Marshal x = Some t ->
  all_chars Json.isSpace ws1 = true -> all_chars Json.isSpace ws2 = true ->
  Json.Unmarshal (ws1 +:+ t +:+ ws2) = Some x.
Proof.
  intros Hj Ht H1 H2. unfold Json.Unmarshal.
  rewrite parse_value_space by done.
  pose proof (space_stop ws2 H2) as Hstop.
  destruct (parse_Marshal_stop x t _ Ht Hj
              (2 * String.length (ws1 +:+ t +:+ ws2) + 2) ws2 Hstop) as [-> | H].
  - rewrite <- (append_nil_r ws2), skip_ws_space by done. reflexivity.
  - exfalso. rewrite <- (parse_value_space _ _ ws1) in H by done.
    by apply Unmarshal_fuel in H.
Qed.

(** ** The command line *)

Lemma length_zero (s : string) : (String.length s =? 0)%nat = true <-> s = "".
Proof. destruct s; [done|]. split; discriminate. Qed.

Lemma processArgument_other (w : Cli.system) (arg : string) (e : Errors.ArgumentError) :
  Cli.processArgument w arg <> inr (Cli.ArgumentErr e).
Proof.
  unfold Cli.processArgument.
  destruct (Cli.HasPrefix _ "{" || Cli.HasPrefix _ "["); [done|].
  by destruct (Cli.open_file w _).
Qed.

(** X8: the usage text is what the program shows, and all it does,
    exactly when help is asked for, or when no argument is given and
    standard input is a terminal, cannot be examined, or holds white space
    only. *)
Theorem X8_cli_usage (w : Cli.system) (help : bool) (args : list string) :
  Cli.main w help args = Cli.Usage <->
  help = true \/
  (args = [] /\
   (Cli.isStdinEmpty w = true \/
    exists data, Cli.stdin_data w = inl data /\ Strings.TrimSpace data = "")).
Proof.
  unfold Cli.main. destruct help; [split; [by left | done]|].
  destruct args as [|arg [|arg2 args]]; cbn [Cli.getJSONInput].
  - unfold Cli.readFromStdin. destruct (Cli.isStdinEmpty w).
    { split; [intros _; right; split; [done | by left] | done]. }
    destruct (Cli.stdin_data w) as [data|text].
    + unfold Cli.Zero.
      destruct (String.length (Strings.TrimSpace data) =? 0)%nat eqn:Hl.
      * apply length_zero in Hl. split; [|done]. intros _. right.
        split; [done|]. right. by exists data.
      * assert (Strings.TrimSpace data <> "") as Hne.
        { intros H%length_zero. congruence. }
        split.
        -- destruct (Json.Unmarshal data); [|done].
           by destruct (JsonEncode.Marshal _).
        -- intros [|[_ [|(data' & [= <-] & H)]]]; done.
    + split; [done|]. intros [|[_ [|(data' & ? & _)]]]; done.
  - pose proof (processArgument_other w arg) as Hp.
    split; [|intros [|[? _]]; done].
    destruct (Cli.processArgument w arg) as [jsonData|[e|text]]; [| |done].
    + destruct (Json.Unmarshal jsonData); [|done].
      by destruct (JsonEncode.Marshal _).
    + by destruct (Hp e).
  - split; [done | intros [|[? _]]; done].
Qed.

Lemma eqb_is_byte (a c : ascii) : Ascii.eqb a c = is_byte (byte_of a) c.
Proof.
  unfold is_byte, byte_of. destruct (Ascii.eqb_spec a c) as [->|Hne].
  - symmetry. apply N.eqb_refl.
  - symmetry. apply N.eqb_neq. intros H. apply Hne.
    by rewrite <- (ascii_N_embedding a), <- (ascii_N_embedding c), H.
Qed.

Lemma HasPrefix_head (c : ascii) (t : string) (p : ascii) :
  Cli.HasPrefix (String c t) (String p "") = is_byte (byte_of p) c.
Proof.
  unfold Cli.HasPrefix. cbn [Json.strip_prefix]. rewrite eqb_is_byte.
  by destruct (is_byte (byte_of p) c).
Qed.

Lemma isSpace_ascii_space (c : ascii) : Json.isSpace c = true -> ascii_space c = true.
Proof.
  destruct c as [[] [] [] [] [] [] [] []]; intros H; try discriminate H; reflexivity.
Qed.

Lemma Marshal_head (x : value) (t : string) :
  JsonEncode.Marshal x = Some t ->
  exists c r, t = String c r /\
    is_container x = is_byte 123 c || is_byte 91 c.
Proof.
  destruct x as [| b | f | s | l | m].
  - intros [= <-]. by eexists _, _.
  - intros [= <-]. destruct b; by eexists _, _.
  - intros H%FormatFloat_reads_back%reads_back_chars.
    destruct H as (c & p & -> & Hc). exists c, p. split; [done|].
    cbn [all_chars] in Hc. apply andb_true_iff in Hc as [Hc _].
    apply numchar_inv in Hc as (_ & _ & _ & _ & -> & -> & _). done.
  - intros [= <-]. by eexists _, _.
  - intros (ts & _ & ->)%Marshal_array_inv. by eexists _, _.
  - intros (kts & -> & _)%Marshal_object_inv. by eexists _, _.
Qed.

Lemma Unmarshal_blank (ws : string) :
  all_chars Json.isSpace ws = true -> Json.Unmarshal ws = None.
Proof.
  intros H. unfold Json.Unmarshal.
  rewrite <- (append_nil_r ws) at 2. rewrite parse_value_space by done.
  by destruct (2 * String.length ws + 2).
Qed.

Lemma container_head (x : value) (t : string) :
  JsonEncode.Marshal x = Some t ->
  Cli.HasPrefix t "{" || Cli.HasPrefix t "[" = is_container x.
Proof.
  intros (c & r & -> & ->)%Marshal_head. by rewrite !HasPrefix_head.
Qed.

(** X9: a JSON document, object or array, given as the argument.  The text
    that [json.Marshal] writes for it, between white space or not, is
    taken for the document: no file is opened and standard input is not
    read, and the program prints the text of the decoded document and a
    line feed. *)
Theorem X9_cli_document_argument (w : Cli.system) (x : value)
    (t out ws1 ws2 : string) :
  Spec.json_value Json.maxNestingDepth x = true ->
  is_container x = true ->
  JsonEncode.Marshal x = Some t ->
  JsonEncode.Marshal (DecodeBase64Fields x) = Some out ->
  all_chars ascii_space ws1 = true -> all_chars ascii_space ws2 = true ->
  Cli.main w false [ws1 +:+ t +:+ ws2] = Cli.Output (out +:+ Cli.newline).
Proof.
  intros Hj Hc Ht Hout H1 H2.
  destruct (Marshal_tight x t Ht) as [Hs He].
  assert (Strings.TrimSpace (ws1 +:+ t +:+ ws2) = t) as Htrim.
  { apply TrimSpace_padded; try done.
    destruct t as [|c t]; [done|]. by apply value_head_nonspace. }
  unfold Cli.main. cbn [Cli.getJSONInput]. unfold Cli.processArgument.
  rewrite Htrim, (container_head x t Ht), Hc.
  rewrite (Unmarshal_Marshal x _ Hj Ht). by rewrite Hout.
Qed.

Lemma X9_cli_document_argument_witness :
  Cli.main (piped "") false [" " +:+ doc_data_text +:+ Cli.newline]
  = Cli.Output (doc_data_out +:+ Cli.newline).
Proof.
  apply (X9_cli_document_argument (piped "") doc_data doc_data_text
           doc_data_out " " Cli.newline); vm_compute; reflexivity.
Defined.

(** X10: the text of a JSON value, between white space (space, tab, line
    feed, carriage return) or not, on standard input or in the file that
    the argument names: the program prints the text of the decoded value
    and a line feed. *)
Theorem X10_cli_document_input (w : Cli.system) (x : value)
    (t out ws1 ws2 arg : string) :
  Spec.json_value Json.maxNestingDepth x = true ->
  JsonEncode.Marshal x = Some t ->
  JsonEncode.Marshal (DecodeBase64Fields x) = Some out ->
  all_chars Json.isSpace ws1 = true -> all_chars Json.isSpace ws2 = true ->
  (Cli.isStdinEmpty w = false ->
   Cli.stdin_data w = inl (ws1 +:+ t +:+ ws2) ->
   Cli.main w false [] = Cli.Output (out +:+ Cli.newline)) /\
  (Cli.HasPrefix (Strings.TrimSpace arg) "{"
   || Cli.HasPrefix (Strings.TrimSpace arg) "[" = false ->
   Cli.open_file w (Strings.TrimSpace arg) = Cli.Content (ws1 +:+ t +:+ ws2) ->
   Cli.main w false [arg] = Cli.Output (out +:+ Cli.newline)).
Proof.
  intros Hj Ht Hout H1 H2.
  pose proof (Unmarshal_padded x t ws1 ws2 Hj Ht H1 H2) as Hu.
  split.
  - intros Hstat Hdata. unfold Cli.main. cbn [Cli.getJSONInput].
    unfold Cli.readFromStdin. rewrite Hstat, Hdata.
    destruct (Marshal_tight x t Ht) as [Hs He].
    rewrite TrimSpace_padded; try done.
    + assert ((String.length t =? Cli.Zero)%nat = false) as ->
        by (by destruct t).
      by rewrite Hu, Hout.
    + destruct t as [|c t]; [done|]. by apply value_head_nonspace.
    + exact (all_chars_impl _ _ _ isSpace_ascii_space H1).
    + exact (all_chars_impl _ _ _ isSpace_ascii_space H2).
  - intros Hname Hfile. unfold Cli.main. cbn [Cli.getJSONInput].
    unfold Cli.processArgument. by rewrite Hname, Hfile, Hu, Hout.
Qed.

Lemma X10_cli_document_input_witness :
  let data := doc_data_text +:+ Cli.newline in
  Cli.main (piped data) false [] = Cli.Output (doc_data_out +:+ Cli.newline) /\
  Cli.main (with_file "data.json" data) false ["data.json"]
  = Cli.Output (doc_data_out +:+ Cli.newline).
Proof.
  cbv zeta.
  destruct (X10_cli_document_input (piped (doc_data_text +:+ Cli.newline))
              doc_data doc_data_text doc_data_out "" Cli.newline "")
    as [H1 _]; try (vm_compute; reflexivity).
  destruct (X10_cli_document_input
              (with_file "data.json" (doc_data_text +:+ Cli.newline))
              doc_data doc_data_text doc_data_out "" Cli.newline "data.json")
    as [_ H2]; try (vm_compute; reflexivity).
  split; [apply H1 | apply H2]; vm_compute; reflexivity.
Defined.

(** X11: a JSON text that is no object and no array (a number, a string
    literal, [true], [false], [null]) is not read as JSON when it is the
    argument: it is the name of the file to open, and when that fails the
    program stops with the error of the file. *)
Theorem X11_cli_scalar_argument (w : Cli.system) (x : value) (t text : string) :
  is_container x = false ->
  JsonEncode.Marshal x = Some t ->
  Cli.open_file w t = Cli.OpenError text ->
  Cli.main w false [t]
  = Cli.Failure (Cli.ReadingInput
                   (Cli.OtherErr ("failed to open file '" +:+ t +:+ "': " +:+ text))).
Proof.
  intros Hc Ht Hopen. unfold Cli.main. cbn [Cli.getJSONInput].
  unfold Cli.processArgument.
  rewrite (Marshal_TrimSpace x t Ht), (container_head x t Ht), Hc.
  by rewrite Hopen.
Qed.

Lemma X11_cli_scalar_argument_witness :
  let t := Spec.dquote +:+ "SGVsbG8=" +:+ Spec.dquote in
  Cli.main (piped "") false [t]
  = Cli.Failure (Cli.ReadingInput
                   (Cli.OtherErr ("failed to open file '" +:+ t +:+ "': "
                                  +:+ "no such file or directory"))).
Proof.
  cbv zeta.
  apply (X11_cli_scalar_argument (piped "") (VString "SGVsbG8=")
           (Spec.dquote +:+ "SGVsbG8=" +:+ Spec.dquote)
           "no such file or directory"); vm_compute; reflexivity.
Defined.

(** X12: a file that holds white space only is a parse error and exit
    status 1, where the same on standard input shows the usage text: only
    [readFromStdin] looks for empty input. *)
Theorem X12_cli_blank_file (w : Cli.system) (arg data : string) :
  Cli.HasPrefix (Strings.TrimSpace arg) "{"
  || Cli.HasPrefix (Strings.TrimSpace arg) "[" = false ->
  Cli.open_file w (Strings.TrimSpace arg) = Cli.Content data ->
  all_chars Json.isSpace data = true ->
  Cli.main w false [arg] = Cli.Failure Cli.ParsingJSON /\
  Cli.exit_status (Cli.main w false [arg]) = Cli.One.
Proof.
  intros Hname Hfile Hws.
  assert (Cli.main w false [arg] = Cli.Failure Cli.ParsingJSON) as ->; [|done].
  unfold Cli.main. cbn [Cli.getJSONInput]. unfold Cli.processArgument.
  by rewrite Hname, Hfile, Unmarshal_blank.
Qed.

Lemma X12_cli_blank_file_witness :
  Cli.main (with_file "empty.json" Cli.newline) false ["empty.json"]
  = Cli.Failure Cli.ParsingJSON /\
  Cli.exit_status (Cli.main (with_file "empty.json" Cli.newline) false ["empty.json"])
  = Cli.One.
Proof.
  apply (X12_cli_blank_file (with_file "empty.json" Cli.newline) "empty.json"
           Cli.newline); vm_compute; reflexivity.
Defined.

(** ** The function exposed to JavaScript *)

(** X13: [decodeJSON] called with the text of a JSON value, between white
    space or not, answers with the text of the decoded value under
    [result]; called with no argument or with more than one, it answers
    with an error and decodes nothing. *)
Theorem X13_wasm_decodeJSON (x : value) (t out ws1 ws2 : string)
    (args : list Wasm.Value) :
  Spec.json_value Json.maxNestingDepth x = true ->
  JsonEncode.Marshal x = Some t ->
  JsonEncode.Marshal (DecodeBase64Fields x) = Some out ->
  all_chars Json.isSpace ws1 = true -> all_chars Json.isSpace ws2 = true ->
  Wasm.decodeJSON [Wasm.JsString (ws1 +:+ t +:+ ws2)] = Wasm.ReplyResult out /\
  (length args <> 1 ->
   Wasm.decodeJSON args
   = Wasm.ReplyError "Expected exactly one argument (JSON string)").
Proof.
  intros Hj Ht Hout H1 H2. split.
  - unfold Wasm.decodeJSON. cbn [Wasm.String_].
    rewrite (Unmarshal_padded x t ws1 ws2) by done. by rewrite Hout.
  - by destruct args as [|a [|b args]].
Qed.

Lemma X13_wasm_decodeJSON_witness :
  Wasm.decodeJSON [Wasm.JsString (" " +:+ doc_data_text +:+ Cli.newline)]
  = Wasm.ReplyResult doc_data_out /\
  Wasm.decodeJSON []
  = Wasm.ReplyError "Expected exactly one argument (JSON string)".
Proof.
  destruct (X13_wasm_decodeJSON doc_data doc_data_text doc_data_out " "
              Cli.newline []) as [H1 H2]; try (vm_compute; reflexivity).
  split; [exact H1 | apply H2; vm_compute; discriminate].
Defined.
